(** * Budget manager: ledger, aggregation and insight generation

    A shallow embedding of the Express/Sequelize backend
    (controllers, services and model definitions) and of the Angular
    report page that aggregates transactions per category, together with
    the properties the specification states about them, and of the client's
    services and its report, dashboard and history pages, with further
    properties of the handlers and of the pages.

    Conventions of the embedding.
    - An Express handler is a function from the request and the store to a
      response and the store that results.
    - The database is a record of tables; a table is the list of its rows in
      store order.  [Model.create], [findAll], [findOne], [update] and
      [destroy] are functions on it that may fail with a [StoreError], which
      the handlers' [catch] blocks turn into a response.
    - JavaScript numbers that hold identifiers and timestamps are integers
      ([Z]); [NaN] is kept apart ([jsnum]).  The amounts of the embedding are
      the whole numbers among the doubles of the FLOAT column, and a sum in
      [Z] is the sum of the code where the additions of doubles are exact
      ([exactSums]).  The sums of the code on doubles, which round for
      amounts with a fraction, are those of the modules [Double] and
      [Breakdown]; on whole amounts within [exactSums] they are proved to be
      the sums in [Z].
    - The plain objects that hold a breakdown are finite maps, which they are
      for the names that an object does not inherit ([ownName]);
      [Breakdown] has them with the names that they inherit.
    - The server's time zone is one offset from UTC; a zone with daylight
      saving time is not covered.
    - A [Date] is its time value, the milliseconds since the epoch.
    - A string is the sequence of its code units, each of them below 256:
      an [ascii] is the code unit of that number (U+0000 to U+00FF). *)

From Stdlib Require Import ZArith String Ascii List Lia Bool DecimalString DecimalPos
  Sorted PrimFloat.
From Stdlib Require SpecFloat FloatOps FloatAxioms.
From stdpp Require Import gmap strings list fin_maps.

Local Open Scope string_scope.
Local Open Scope Z_scope.
Local Open Scope list_scope.

(** ** JavaScript values that reach the handlers *)

(** The values a JSON body or a query string can put in a field the
    handlers read. *)
Inductive jsval : Type :=
| JUndefined
| JNull
| JNum (n : Z)
| JStr (s : string).

(** The result of [parseInt]: a number or [NaN]. *)
Inductive jsnum : Type :=
| NaN
| Num (n : Z).

(** [!v] is [negb (truthy v)]. *)
Definition truthy (v : jsval) : bool :=
  match v with
  | JUndefined | JNull => false
  | JNum n => negb (n =? 0)
  | JStr s => negb (String.eqb s "")
  end.

(** A query-string or route parameter: absent, or a string. *)
Definition param (q : option string) : jsval :=
  match q with
  | None => JUndefined
  | Some s => JStr s
  end.

Definition codeOf (c : ascii) : Z := Z.of_nat (nat_of_ascii c).

(** The white space and line terminators of the language among the code
    units of a string: TAB, LF, VT, FF, CR, SP and the no-break space
    U+00A0.  (The others, U+1680, U+2000 to U+200A, U+2028, U+2029, U+202F,
    U+205F, U+3000 and U+FEFF, are above 255 and in no string here.) *)
Definition isWhiteSpace (c : ascii) : bool :=
  let n := codeOf c in ((9 <=? n) && (n <=? 13)) || (n =? 32) || (n =? 160).

Definition digitOf (c : ascii) : option Z :=
  let n := codeOf c in
  if (48 <=? n) && (n <=? 57) then Some (n - 48) else None.

Definition hexDigitOf (c : ascii) : option Z :=
  let n := codeOf c in
  if (48 <=? n) && (n <=? 57) then Some (n - 48)
  else if (65 <=? n) && (n <=? 70) then Some (n - 55)
  else if (97 <=? n) && (n <=? 102) then Some (n - 87)
  else None.

Fixpoint skipWhiteSpace (s : string) : string :=
  match s with
  | String c s' => if isWhiteSpace c then skipWhiteSpace s' else s
  | EmptyString => s
  end.

(** The value of the longest prefix of [s] made of digits of the radix;
    [acc] is [None] until a digit was read. *)
Fixpoint digitsPrefix (radix : Z) (digit : ascii -> option Z)
  (s : string) (acc : option Z) : option Z :=
  match s with
  | String c s' =>
      match digit c with
      | Some d => digitsPrefix radix digit s' (Some (default 0 acc * radix + d))
      | None => acc
      end
  | EmptyString => acc
  end.

Definition stripSign (s : string) : Z * string :=
  match s with
  | String "-" s' => (-1, s')
  | String "+" s' => (1, s')
  | _ => (1, s)
  end.

(** [parseInt(s)] with no radix argument: leading white space is skipped, a
    sign and a [0x] prefix are read, then the longest run of digits. *)
Definition parseInt (s : string) : jsnum :=
  let '(sign, s1) := stripSign (skipWhiteSpace s) in
  let r :=
    match s1 with
    | String "0" (String "x" s2) | String "0" (String "X" s2) =>
        digitsPrefix 16 hexDigitOf s2 None
    | _ => digitsPrefix 10 digitOf s1 None
    end in
  match r with
  | Some n => Num (sign * n)
  | None => NaN
  end.

(** All of [s] read as decimal digits; [None] when [s] is empty or holds
    another character. *)
Fixpoint allDigits (s : string) (acc : option Z) : option Z :=
  match s with
  | String c s' =>
      match digitOf c with
      | Some d => allDigits s' (Some (default 0 acc * 10 + d))
      | None => None
      end
  | EmptyString => acc
  end.

Definition decimal (s : string) : option Z :=
  let '(sign, s1) := stripSign s in
  n ← allDigits s1 None; Some (sign * n).

(** The store's reading of a value bound to an INTEGER column or compared
    with one in a [where] clause: a number is itself, a string must be a
    decimal literal, and both must lie in the 32-bit range.  [None] is the
    store's rejection of the statement, which the caller sees as a thrown
    error.  A store may read further texts as integers, one with white space
    around the digits for instance: what is proved of a value that the store
    reads takes its reading [sqlInteger v = Some n] as a hypothesis. *)
Definition sqlInteger (v : jsval) : option Z :=
  n ← match v with
      | JNum n => Some n
      | JStr s => decimal s
      | JUndefined | JNull => None
      end;
  if (-2147483648 <=? n) && (n <=? 2147483647) then Some n else None.

(** The same for a FLOAT column, on the amounts that are whole numbers; an
    amount with a fraction is outside the embedding. *)
Definition sqlFloat (v : jsval) : option Z :=
  match v with
  | JNum n => Some n
  | JStr s => decimal s
  | JUndefined | JNull => None
  end.

(** [a === b] between a nullable INTEGER attribute and a JavaScript number:
    [null] equals no number, and neither does [NaN]. *)
Definition strictEq (a : option Z) (b : jsnum) : bool :=
  match a, b with
  | Some x, Num y => x =? y
  | _, _ => false
  end.

(** ** Dates

    The time value arithmetic of ECMAScript ([Day], [MakeDay], [MakeDate],
    [YearFromTime], [MonthFromTime], [DateFromTime]) on the proleptic
    Gregorian calendar.  Months are numbered from 0 as in JavaScript. *)

Definition msPerDay : Z := 86400000.

Definition Day (t : Z) : Z := t / msPerDay.
Definition TimeWithinDay (t : Z) : Z := t mod msPerDay.
Definition MakeDate (day time : Z) : Z := day * msPerDay + time.

(** The day number of the civil date [y]-[m]-[d], [m] in 1..12; day 0 is
    1970-01-01. *)
Definition daysFromCivil (y m d : Z) : Z :=
  let y' := if m <=? 2 then y - 1 else y in
  let era := y' / 400 in
  let yoe := y' - era * 400 in
  let mp := if 2 <? m then m - 3 else m + 9 in
  let doy := (153 * mp + 2) / 5 + d - 1 in
  let doe := yoe * 365 + yoe / 4 - yoe / 100 + doy in
  era * 146097 + doe - 719468.

(** The civil date (year, month in 1..12, day of the month) of a day
    number. *)
Definition civilFromDays (z : Z) : Z * Z * Z :=
  let z' := z + 719468 in
  let era := z' / 146097 in
  let doe := z' - era * 146097 in
  let yoe := (doe - doe / 1460 + doe / 36524 - doe / 146096) / 365 in
  let doy := doe - (365 * yoe + yoe / 4 - yoe / 100) in
  let mp := (5 * doy + 2) / 153 in
  let d := doy - (153 * mp + 2) / 5 + 1 in
  let m := if mp <? 10 then mp + 3 else mp - 9 in
  let y := yoe + era * 400 in
  (if m <=? 2 then y + 1 else y, m, d).

Definition YearFromTime (t : Z) : Z := (civilFromDays (Day t)).1.1.
Definition MonthFromTime (t : Z) : Z := (civilFromDays (Day t)).1.2 - 1.
Definition DateFromTime (t : Z) : Z := (civilFromDays (Day t)).2.

(** [MakeDay(year, month, date)]: a month outside 0..11 carries into the
    year, a date outside the month carries into the following days. *)
Definition MakeDay (year month date : Z) : Z :=
  let ym := year + month / 12 in
  let mn := month mod 12 in
  daysFromCivil ym (mn + 1) 1 + date - 1.

(** The server's time zone, as a fixed offset: local time is the time value
    plus [tz] milliseconds.  A zone with daylight saving time, whose offset
    changes in the course of the year, is outside the embedding. *)
Definition LocalTime (tz t : Z) : Z := t + tz.
Definition UTC (tz t : Z) : Z := t - tz.

(** [d.getFullYear()], [d.getMonth()] and [d.setMonth(month)], the latter
    returning the new time value. *)
Definition getFullYear (tz t : Z) : Z := YearFromTime (LocalTime tz t).
Definition getMonth (tz t : Z) : Z := MonthFromTime (LocalTime tz t).
Definition setMonth (tz t month : Z) : Z :=
  let lt := LocalTime tz t in
  UTC tz (MakeDate (MakeDay (YearFromTime lt) month (DateFromTime lt))
                   (TimeWithinDay lt)).

(** [new Date(year, month, 1)]: local midnight; a year in 0..99 means
    1900 + year. *)
Definition newDateLocal (tz year month date : Z) : Z :=
  let yr := if (0 <=? year) && (year <=? 99) then 1900 + year else year in
  UTC tz (MakeDate (MakeDay yr month date) 0).

(** *** ISO 8601 text *)

Definition digitChar (d : Z) : ascii := ascii_of_nat (Z.to_nat (48 + d mod 10)).

(** The last [n] decimal digits of [v], most significant first. *)
Fixpoint padDigits (n : nat) (v : Z) : string :=
  match n with
  | O => ""
  | S n' => padDigits n' (v / 10) +:+ String (digitChar v) ""
  end.

(** [d.toISOString()], the text JSON carries for a DATE attribute. *)
Definition toISOString (t : Z) : string :=
  let '(y, m, d) := civilFromDays (Day t) in
  let tod := TimeWithinDay t in
  let year :=
    if (0 <=? y) && (y <=? 9999) then padDigits 4 y
    else (if y <? 0 then "-" else "+") +:+ padDigits 6 (Z.abs y) in
  year +:+ "-" +:+ padDigits 2 m +:+ "-" +:+ padDigits 2 d +:+ "T"
    +:+ padDigits 2 (tod / 3600000) +:+ ":"
    +:+ padDigits 2 (tod / 60000 mod 60) +:+ ":"
    +:+ padDigits 2 (tod / 1000 mod 60) +:+ "."
    +:+ padDigits 3 (tod mod 1000) +:+ "Z".

(** Reads exactly [n] decimal digits from the front of [s]. *)
Fixpoint readDigits (n : nat) (s : string) (acc : Z) : option (Z * string) :=
  match n with
  | O => Some (acc, s)
  | S n' =>
      match s with
      | String c s' =>
          match digitOf c with
          | Some d => readDigits n' s' (acc * 10 + d)
          | None => None
          end
      | EmptyString => None
      end
  end.

Definition expect (c : ascii) (s : string) : option string :=
  match s with
  | String c' s' => if Ascii.eqb c c' then Some s' else None
  | EmptyString => None
  end.

(** [Date.parse] on the two ISO forms the application produces:
    [YYYY-MM-DD] and [YYYY-MM-DDTHH:mm:ss.sssZ], both in UTC.  A month
    outside 01..12 or a day outside 01..31 is an invalid date ([None]).  The
    further forms that [Date.parse] reads (a time without milliseconds, an
    offset in place of Z) are outside the embedding and [None] here. *)
Definition parseISODate (s : string) : option Z :=
  '(y, s) ← readDigits 4 s 0;
  s ← expect "-" s;
  '(m, s) ← readDigits 2 s 0;
  s ← expect "-" s;
  '(d, s) ← readDigits 2 s 0;
  if negb ((1 <=? m) && (m <=? 12) && (1 <=? d) && (d <=? 31)) then None
  else
    let day := MakeDay y (m - 1) d in
    match s with
    | EmptyString => Some (MakeDate day 0)
    | _ =>
        s ← expect "T" s;
        '(hh, s) ← readDigits 2 s 0;
        s ← expect ":" s;
        '(mi, s) ← readDigits 2 s 0;
        s ← expect ":" s;
        '(ss, s) ← readDigits 2 s 0;
        s ← expect "." s;
        '(ms, s) ← readDigits 3 s 0;
        s ← expect "Z" s;
        match s with
        | EmptyString =>
            if (hh <=? 23) && (mi <=? 59) && (ss <=? 59)
            then Some (MakeDate day (hh * 3600000 + mi * 60000 + ss * 1000 + ms))
            else None
        | _ => None
        end
    end.

Arguments Day : simpl never.
Arguments TimeWithinDay : simpl never.
Arguments MakeDate : simpl never.
Arguments daysFromCivil : simpl never.
Arguments civilFromDays : simpl never.
Arguments MakeDay : simpl never.
Arguments setMonth : simpl never.
Arguments getMonth : simpl never.
Arguments getFullYear : simpl never.
Arguments newDateLocal : simpl never.
Arguments toISOString : simpl never.
Arguments parseISODate : simpl never.

(** The store's reading of a value bound to a DATE column. *)
Definition sqlDate (v : jsval) : option Z :=
  match v with
  | JNum n => Some n
  | JStr s => parseISODate s
  | JUndefined | JNull => None
  end.

(** ** The models and the store *)

Inductive TransactionType : Type := Income | Expense.

Global Instance TransactionType_eq_dec : EqDecision TransactionType.
Proof. solve_decision. Defined.

(** models/Transaction.js *)
Module Transaction.
Record t : Type := Build {
  id : Z;
  userId : Z;
  amount : Z;
  description : option string;
  date : Z;
  categoryId : Z;
  type : TransactionType
}.
End Transaction.

(** models/Category.js; a [userId] of [None] is SQL NULL, a global
    category. *)
Module Category.
Record t : Type := Build {
  id : Z;
  name : string;
  userId : option Z
}.
End Category.

(** models/AISuggestion.js *)
Module AISuggestion.
Record t : Type := Build {
  id : Z;
  userId : Z;
  prompt : string;
  response : string;
  createdAt : Z
}.
End AISuggestion.

Global Instance Transaction_eq_dec : EqDecision Transaction.t.
Proof. solve_decision. Defined.

Global Instance Category_eq_dec : EqDecision Category.t.
Proof. solve_decision. Defined.

Global Instance AISuggestion_eq_dec : EqDecision AISuggestion.t.
Proof. solve_decision. Defined.

(** The database.  Each table lists its rows in store order and has the
    counter of its auto-incremented key.  [users] holds the keys of the
    users table.  [enforceReferences] tells whether the database enforces
    the [references] declarations of the model definitions as foreign keys
    (without an ON DELETE action) or keeps them as plain columns. *)
Record Store : Type := {
  enforceReferences : bool;
  users : list Z;
  categories : list Category.t;
  transactions : list Transaction.t;
  suggestions : list AISuggestion.t;
  nextCategoryId : Z;
  nextTransactionId : Z;
  nextSuggestionId : Z
}.

(** What can be thrown: the store's rejection of a statement, or
    [new Error(message)]. *)
Inductive Thrown : Type :=
| NotNullViolation (attribute : string)
| InvalidInput (attribute : string)
| ForeignKeyViolation (table : string)
| Error (message : string).

(** The outcome of an awaited call. *)
Inductive Result (A : Type) : Type :=
| Ok (a : A)
| Throw (e : Thrown).
Arguments Ok {A} a.
Arguments Throw {A} e.

Global Instance Result_ret : MRet Result := @Ok.
Global Instance Result_bind : MBind Result := fun A B k r =>
  match r with
  | Ok a => k a
  | Throw e => Throw e
  end.

Definition isNullish (v : jsval) : bool :=
  match v with
  | JUndefined | JNull => true
  | _ => false
  end.

(** [allowNull: false] *)
Definition notNull (attribute : string) (v : jsval) : Result unit :=
  if isNullish v then Throw (NotNullViolation attribute) else Ok tt.

Definition coerce {A : Type} (attribute : string) (o : option A) : Result A :=
  match o with
  | Some a => Ok a
  | None => Throw (InvalidInput attribute)
  end.

(** DataTypes.ENUM('income', 'expense') *)
Definition sqlTransactionType (v : jsval) : option TransactionType :=
  match v with
  | JStr s =>
      if String.eqb s "income" then Some Income
      else if String.eqb s "expense" then Some Expense
      else None
  | _ => None
  end.

Definition showZ (n : Z) : string :=
  DecimalString.NilZero.string_of_int (Z.to_int n).

(** DataTypes.STRING with [allowNull: true] *)
Definition sqlString (v : jsval) : option string :=
  match v with
  | JUndefined | JNull => None
  | JNum n => Some (showZ n)
  | JStr s => Some s
  end.

Definition userExists (s : Store) (u : Z) : bool :=
  bool_decide (u ∈ users s).

Definition categoryExists (s : Store) (c : Z) : bool :=
  bool_decide (c ∈ Category.id <$> categories s).

Definition reference (s : Store) (table : string) (present : bool) : Result unit :=
  if enforceReferences s && negb present then Throw (ForeignKeyViolation table)
  else Ok tt.

(** The JSON body of a transaction request, attribute by attribute; an
    attribute the body lacks is [JUndefined]. *)
Module TransactionBody.
Record t : Type := Build {
  userId : jsval;
  type : jsval;
  amount : jsval;
  date : jsval;
  description : jsval;
  categoryId : jsval
}.
End TransactionBody.

Definition setTransactions (s : Store) (l : list Transaction.t) (next : Z) : Store :=
  {| enforceReferences := enforceReferences s;
     users := users s;
     categories := categories s;
     transactions := l;
     suggestions := suggestions s;
     nextCategoryId := nextCategoryId s;
     nextTransactionId := next;
     nextSuggestionId := nextSuggestionId s |}.

Definition setCategories (s : Store) (l : list Category.t) (next : Z) : Store :=
  {| enforceReferences := enforceReferences s;
     users := users s;
     categories := l;
     transactions := transactions s;
     suggestions := suggestions s;
     nextCategoryId := next;
     nextTransactionId := nextTransactionId s;
     nextSuggestionId := nextSuggestionId s |}.

Definition setSuggestions (s : Store) (l : list AISuggestion.t) (next : Z) : Store :=
  {| enforceReferences := enforceReferences s;
     users := users s;
     categories := categories s;
     transactions := transactions s;
     suggestions := l;
     nextCategoryId := nextCategoryId s;
     nextTransactionId := nextTransactionId s;
     nextSuggestionId := next |}.

(** [Transaction.create(body)]: the attributes are validated against the
    model definition (not null, type of the column, ENUM, references) and the
    row is inserted under the next key.  No validator looks at the sign of
    [amount].  The body holds the attributes of [TransactionBody]: a key of
    its own in the body and the length limit of [description] are outside
    the embedding. *)
Definition Transaction_create (b : TransactionBody.t) (s : Store)
  : Result (Transaction.t * Store) :=
  notNull "userId" (TransactionBody.userId b);;
  notNull "amount" (TransactionBody.amount b);;
  notNull "date" (TransactionBody.date b);;
  notNull "categoryId" (TransactionBody.categoryId b);;
  notNull "type" (TransactionBody.type b);;
  u ← coerce "userId" (sqlInteger (TransactionBody.userId b));
  a ← coerce "amount" (sqlFloat (TransactionBody.amount b));
  d ← coerce "date" (sqlDate (TransactionBody.date b));
  c ← coerce "categoryId" (sqlInteger (TransactionBody.categoryId b));
  k ← coerce "type" (sqlTransactionType (TransactionBody.type b));
  reference s "users" (userExists s u);;
  reference s "categories" (categoryExists s c);;
  let row :=
    {| Transaction.id := nextTransactionId s;
       Transaction.userId := u;
       Transaction.amount := a;
       Transaction.description := sqlString (TransactionBody.description b);
       Transaction.date := d;
       Transaction.categoryId := c;
       Transaction.type := k |} in
  Ok (row, setTransactions s (transactions s ++ [row]) (nextTransactionId s + 1)).

(** One attribute of [instance.update(body)]: an attribute the body lacks
    keeps its value, any other is validated and replaces it. *)
Definition updated {A : Type} (attribute : string) (read : jsval -> option A)
  (v : jsval) (old : A) : Result A :=
  match v with
  | JUndefined => Ok old
  | _ => notNull attribute v;; coerce attribute (read v)
  end.

(** [transaction.update(body)] on the row [t]; the key is not an attribute
    of the body. *)
Definition Transaction_update (t : Transaction.t) (b : TransactionBody.t) (s : Store)
  : Result (Transaction.t * Store) :=
  u ← updated "userId" sqlInteger (TransactionBody.userId b) (Transaction.userId t);
  a ← updated "amount" sqlFloat (TransactionBody.amount b) (Transaction.amount t);
  d ← updated "date" sqlDate (TransactionBody.date b) (Transaction.date t);
  c ← updated "categoryId" sqlInteger (TransactionBody.categoryId b) (Transaction.categoryId t);
  k ← updated "type" sqlTransactionType (TransactionBody.type b) (Transaction.type t);
  reference s "users" (userExists s u);;
  reference s "categories" (categoryExists s c);;
  let desc :=
    match TransactionBody.description b with
    | JUndefined => Transaction.description t
    | v => sqlString v
    end in
  let row :=
    {| Transaction.id := Transaction.id t;
       Transaction.userId := u;
       Transaction.amount := a;
       Transaction.description := desc;
       Transaction.date := d;
       Transaction.categoryId := c;
       Transaction.type := k |} in
  Ok (row,
      setTransactions s
        ((fun r => if Transaction.id r =? Transaction.id t then row else r)
           <$> transactions s)
        (nextTransactionId s)).

(** [transaction.destroy()] *)
Definition Transaction_destroy (t : Transaction.t) (s : Store) : Store :=
  setTransactions s
    (filter (fun r => Transaction.id r <> Transaction.id t) (transactions s))
    (nextTransactionId s).

(** [Transaction.findAll({ where: { userId } })] *)
Definition Transaction_findAll_userId (userId : jsval) (s : Store)
  : Result (list Transaction.t) :=
  u ← coerce "userId" (sqlInteger userId);
  Ok (filter (fun r => Transaction.userId r = u) (transactions s)).

(** [Transaction.findOne({ where: { id, userId } })]; [None] is [null]. *)
Definition Transaction_findOne (id userId : jsval) (s : Store)
  : Result (option Transaction.t) :=
  i ← coerce "id" (sqlInteger id);
  u ← coerce "userId" (sqlInteger userId);
  Ok (head (filter (fun r => Transaction.id r = i /\ Transaction.userId r = u)
                   (transactions s))).

(** [Category.findAll({ where: { [Op.or]: [{ userId: null }, { userId }] } })] *)
Definition Category_findAll_visible (userId : jsval) (s : Store)
  : Result (list Category.t) :=
  u ← coerce "userId" (sqlInteger userId);
  Ok (filter (fun c => Category.userId c = None \/ Category.userId c = Some u)
             (categories s)).

(** [Category.findOne({ where: { id } })] *)
Definition Category_findOne (id : jsval) (s : Store) : Result (option Category.t) :=
  i ← coerce "id" (sqlInteger id);
  Ok (head (filter (fun c => Category.id c = i) (categories s))).

(** [Category.create({ name, userId })] *)
Definition Category_create (name userId : jsval) (s : Store)
  : Result (Category.t * Store) :=
  notNull "name" name;;
  n ← coerce "name" (sqlString name);
  u ← (if isNullish userId then Ok None
       else v ← coerce "userId" (sqlInteger userId); Ok (Some v));
  reference s "users" (from_option (userExists s) true u);;
  let row :=
    {| Category.id := nextCategoryId s;
       Category.name := n;
       Category.userId := u |} in
  Ok (row, setCategories s (categories s ++ [row]) (nextCategoryId s + 1)).

Definition categoryReferenced (s : Store) (c : Z) : bool :=
  bool_decide (c ∈ Transaction.categoryId <$> transactions s).

(** [category.destroy()]: the rows of other tables are not touched; a
    database that enforces the reference from transactions rejects the
    statement while a transaction holds the key. *)
Definition Category_destroy (c : Category.t) (s : Store) : Result Store :=
  reference s "transactions" (negb (categoryReferenced s (Category.id c)));;
  Ok (setCategories s
        (filter (fun r => Category.id r <> Category.id c) (categories s))
        (nextCategoryId s)).

(** ** The controllers *)

Inductive Payload : Type :=
| ErrorJson (error : string)
| ErrorThrown (err : Thrown)
| TransactionJson (transaction : Transaction.t)
| TransactionsJson (transactions : list Transaction.t)
| CategoryJson (category : Category.t)
| CategoriesJson (categories : list Category.t)
| SummaryJson (income expenses balance : Z)
| SuggestionJson (record : AISuggestion.t)
| SuggestionsJson (rows : list AISuggestion.t)
| NoContent.

(** [res.status(status).json(json)] and [next(err)]. *)
Inductive Response : Type :=
| Respond (status : Z) (json : Payload)
| Next (err : Thrown).

Definition quote : string := String (ascii_of_nat 34) "".

(** [array.includes(v)] for an array of strings. *)
Definition includes (array : list string) (v : jsval) : bool :=
  match v with
  | JStr x => bool_decide (x ∈ array)
  | _ => false
  end.

(** controllers/transactionController.js *)

Definition createTransaction (body : TransactionBody.t) (s : Store)
  : Response * Store :=
  if negb (truthy (TransactionBody.userId body)) then
    (Respond 400 (ErrorJson "userId is required in the request body."), s)
  else
    let type := TransactionBody.type body in
    if negb (truthy type) || negb (includes ["income"; "expense"] type) then
      (Respond 400
         (ErrorJson ("Transaction type must be either " +:+ quote +:+ "income"
                       +:+ quote +:+ " or " +:+ quote +:+ "expense" +:+ quote +:+ ".")),
       s)
    else
      match Transaction_create body s with
      | Ok (transaction, s') => (Respond 201 (TransactionJson transaction), s')
      | Throw err => (Respond 400 (ErrorThrown err), s)
      end.

Definition getTransactions (userId : jsval) (s : Store) : Response :=
  if negb (truthy userId) then
    Respond 400 (ErrorJson "A userId query parameter is required.")
  else
    match Transaction_findAll_userId userId s with
    | Ok transactions => Respond 200 (TransactionsJson transactions)
    | Throw err => Respond 500 (ErrorThrown err)
    end.

Definition updateTransaction (id : string) (body : TransactionBody.t) (s : Store)
  : Response * Store :=
  let transactionId := JStr id in
  let userId := TransactionBody.userId body in
  if negb (truthy userId) then
    (Respond 400
       (ErrorJson "userId is required in the request body to verify ownership."), s)
  else
    match Transaction_findOne transactionId userId s with
    | Ok None =>
        (Respond 404
           (ErrorJson "Transaction not found or you do not have permission to edit it."),
         s)
    | Ok (Some transaction) =>
        match Transaction_update transaction body s with
        | Ok (updatedTransaction, s') =>
            (Respond 200 (TransactionJson updatedTransaction), s')
        | Throw err => (Respond 400 (ErrorThrown err), s)
        end
    | Throw err => (Respond 400 (ErrorThrown err), s)
    end.

Definition deleteTransaction (id : string) (userId : jsval) (s : Store)
  : Response * Store :=
  let transactionId := JStr id in
  if negb (truthy userId) then
    (Respond 400
       (ErrorJson "A userId query parameter is required to verify ownership."), s)
  else
    match Transaction_findOne transactionId userId s with
    | Ok None =>
        (Respond 404
           (ErrorJson "Transaction not found or you do not have permission to delete it."),
         s)
    | Ok (Some transaction) =>
        (Respond 204 NoContent, Transaction_destroy transaction s)
    | Throw err => (Respond 500 (ErrorThrown err), s)
    end.

(** [Transaction.findAll] with [userId] and
    [date: { [Op.between]: [from, to] }]: both bounds belong to the range. *)
Definition Transaction_findAll_between (userId : jsval) (from to : Z) (s : Store)
  : Result (list Transaction.t) :=
  u ← coerce "userId" (sqlInteger userId);
  Ok (filter (fun r => Transaction.userId r = u
                       /\ from <= Transaction.date r <= to)
             (transactions s)).

(** The [forEach] of [getMonthlySummary]: one pass with the two
    accumulators [(income, expenses)]. *)
Definition accumulate (acc : Z * Z) (tx : Transaction.t) : Z * Z :=
  match Transaction.type tx with
  | Income => (acc.1 + Transaction.amount tx, acc.2)
  | Expense => (acc.1, acc.2 + Transaction.amount tx)
  end.

(** [now] is the value of [new Date()], [tz] the server's zone. *)
Definition getMonthlySummary (tz now : Z) (userId : jsval) (s : Store) : Response :=
  if negb (truthy userId) then
    Respond 400 (ErrorJson "userId is required in query params.")
  else
    let startOfThisMonth := newDateLocal tz (getFullYear tz now) (getMonth tz now) 1 in
    let endOfToday := now in
    match Transaction_findAll_between userId startOfThisMonth endOfToday s with
    | Ok transactions =>
        let '(income, expenses) := foldl accumulate (0, 0) transactions in
        Respond 200 (SummaryJson income expenses (income - expenses))
    | Throw err => Respond 500 (ErrorThrown err)
    end.

(** [String(v)] *)
Definition ToString (v : jsval) : string :=
  match v with
  | JUndefined => "undefined"
  | JNull => "null"
  | JNum n => showZ n
  | JStr s => s
  end.

(** controllers/categoryController.js *)

Definition getCategories (userId : jsval) (s : Store) : Response :=
  if negb (truthy userId) then
    Respond 400 (ErrorJson "A userId query parameter is required.")
  else
    match Category_findAll_visible userId s with
    | Ok categories => Respond 200 (CategoriesJson categories)
    | Throw err => Respond 500 (ErrorThrown err)
    end.

Definition createCategory (name userId : jsval) (s : Store) : Response * Store :=
  if negb (truthy name) || negb (truthy userId) then
    (Respond 400 (ErrorJson "Both name and userId are required."), s)
  else
    match Category_create name userId s with
    | Ok (category, s') => (Respond 201 (CategoryJson category), s')
    | Throw err => (Respond 400 (ErrorThrown err), s)
    end.

Definition deleteCategory (id : string) (userId : jsval) (s : Store)
  : Response * Store :=
  let categoryId := JStr id in
  if negb (truthy userId) then
    (Respond 400
       (ErrorJson "A userId query parameter is required to verify ownership."), s)
  else
    match Category_findOne categoryId s with
    | Ok None => (Respond 404 (ErrorJson "Category not found."), s)
    | Ok (Some category) =>
        if negb (strictEq (Category.userId category) (parseInt (ToString userId))) then
          (Respond 403
             (ErrorJson "You do not have permission to delete this category."), s)
        else
          match Category_destroy category s with
          | Ok s' => (Respond 204 NoContent, s')
          | Throw err => (Respond 500 (ErrorThrown err), s)
          end
    | Throw err => (Respond 500 (ErrorThrown err), s)
    end.

(** ** The summary service (services/summaryService.js) *)

Module Summary.
Record t : Type := Build {
  income : Z;
  expense : Z;
  balance : Z
}.
End Summary.

(** A [where] entry [{ attribute: v }] on an INTEGER column: the value a row
    must hold.  [null] is the test IS NULL, which no value passes. *)
Definition whereInteger (attribute : string) (v : jsval) : Result (option Z) :=
  match v with
  | JNull => Ok None
  | _ => n ← coerce attribute (sqlInteger v); Ok (Some n)
  end.

(** [Transaction.findAll] with [userId] and
    [date: { [Op.gte]: startDate, [Op.lt]: endDate }]. *)
Definition Transaction_findAll_window (userId : jsval) (startDate endDate : Z)
  (s : Store) : Result (list Transaction.t) :=
  u ← whereInteger "userId" userId;
  Ok (filter (fun r => Some (Transaction.userId r) = u
                       /\ startDate <= Transaction.date r < endDate)
             (transactions s)).

(** [list.filter(t => t.type === type).reduce((sum, t) => sum + t.amount, 0)],
    on whole amounts (with the amounts as doubles: [Double.total]). *)
Definition total (type : TransactionType) (list : list Transaction.t) : Z :=
  foldl (fun sum t => sum + Transaction.amount t) 0
        (filter (fun t => Transaction.type t = type) list).

(** The body of [monthlySummary] from the query on, with the two dates of
    the window as arguments. *)
Definition summarize (userId : jsval) (startDate endDate : Z) (s : Store)
  : Result Summary.t :=
  list ← Transaction_findAll_window userId startDate endDate s;
  let income := total Income list in
  let expense := total Expense list in
  Ok {| Summary.income := income;
        Summary.expense := expense;
        Summary.balance := income - expense |}.

(** [monthlySummary(userId, month)]: the window starts at midnight UTC on
    the first of the month and ends one month later on the server's
    calendar.  A [month] that does not make a date gives an invalid date,
    which the query rejects. *)
Definition monthlySummary (tz : Z) (userId : jsval) (month : string) (s : Store)
  : Result Summary.t :=
  startDate ← coerce "date" (parseISODate (month +:+ "-01T00:00:00.000Z"));
  let endDate := setMonth tz startDate (getMonth tz startDate + 1) in
  summarize userId startDate endDate s.

(** [combine] of the specification: the component-wise sum. *)
Definition combine (a b : Summary.t) : Summary.t :=
  {| Summary.income := Summary.income a + Summary.income b;
     Summary.expense := Summary.expense a + Summary.expense b;
     Summary.balance := Summary.balance a + Summary.balance b |}.

(** ** The suggestion service (services/aiService.js) *)

(** JSON documents, for the provider's reply. *)
#[warnings="-register-all"]
Inductive json : Type :=
| JsonNull
| JsonBool (b : bool)
| JsonNumber (n : Z)
| JsonString (s : string)
| JsonArray (items : list json)
| JsonObject (members : list (string * json)).

(** What [axios.post] settles to: no response at all, a response whose
    status is not a success (axios rejects both), or a success with its
    parsed body. *)
Inductive AxiosOutcome : Type :=
| NetworkError
| HttpError (status : Z)
| HttpOk (data : json).

(** The member of an object under a key; of two members with one key the
    later one counts, as [JSON.parse] has it. *)
Fixpoint assoc (key : string) (members : list (string * json)) : option json :=
  match members with
  | [] => None
  | (k, v) :: rest =>
      match assoc key rest with
      | Some later => Some later
      | None => if String.eqb k key then Some v else None
      end
  end.

(** [v.key] for a value that is not [null] or [undefined]; [None] is
    [undefined].  Only objects have the members read here. *)
Definition member (key : string) (v : json) : option json :=
  match v with
  | JsonObject members => assoc key members
  | _ => None
  end.

(** [v[0]] *)
Definition first (v : json) : option json :=
  match v with
  | JsonArray items => head items
  | JsonObject members => assoc "0" members
  | JsonString (String c _) => Some (JsonString (String c ""))
  | _ => None
  end.

Fixpoint trimEnd (s : string) : string :=
  match s with
  | EmptyString => EmptyString
  | String c s' =>
      match trimEnd s' with
      | EmptyString => if isWhiteSpace c then EmptyString else String c EmptyString
      | rest => String c rest
      end
  end.

(** [s.trim()]: the white space and the line terminators go from both ends. *)
Definition trim (s : string) : string := trimEnd (skipWhiteSpace s).

(** [res.data.choices[0].message.content.trim()]; [None] when a step of the
    chain meets [undefined], [null] or a value without [trim], which throws
    a TypeError inside the [try]. *)
Definition content (data : json) : option string :=
  choices ← member "choices" data;
  choice ← first choices;
  message ← member "message" choice;
  c ← member "content" message;
  match c with
  | JsonString text => Some (trim text)
  | _ => None
  end.

(** [callLLM(prompt)]; [provider] is the external call.  Every failure
    inside the [try] is rethrown as the same error. *)
Definition callLLM (provider : jsval -> AxiosOutcome) (prompt : jsval)
  : Result string :=
  match provider prompt with
  | HttpOk data =>
      match content data with
      | Some text => Ok text
      | None => Throw (Error "LLM provider error")
      end
  | NetworkError | HttpError _ => Throw (Error "LLM provider error")
  end.

(** [AISuggestion.create({ userId, prompt, response })]; [createdAt]
    defaults to the current time. *)
Definition AISuggestion_create (now : Z) (userId prompt : jsval) (response : string)
  (s : Store) : Result (AISuggestion.t * Store) :=
  notNull "userId" userId;;
  notNull "prompt" prompt;;
  u ← coerce "userId" (sqlInteger userId);
  reference s "users" (userExists s u);;
  let record :=
    {| AISuggestion.id := nextSuggestionId s;
       AISuggestion.userId := u;
       AISuggestion.prompt := ToString prompt;
       AISuggestion.response := response;
       AISuggestion.createdAt := now |} in
  Ok (record, setSuggestions s (suggestions s ++ [record]) (nextSuggestionId s + 1)).

(** ORDER BY createdAt DESC, rows of equal time in store order. *)
Fixpoint insertDesc (r : AISuggestion.t) (l : list AISuggestion.t) : list AISuggestion.t :=
  match l with
  | [] => [r]
  | x :: l' =>
      if AISuggestion.createdAt x <=? AISuggestion.createdAt r then r :: l
      else x :: insertDesc r l'
  end.

Definition orderByCreatedAtDesc (l : list AISuggestion.t) : list AISuggestion.t :=
  foldr insertDesc [] l.

Module aiService.

(** [list(userId)] *)
Definition list (userId : jsval) (s : Store) : Result (list AISuggestion.t) :=
  u ← whereInteger "userId" userId;
  Ok (orderByCreatedAtDesc
        (filter (fun r => Some (AISuggestion.userId r) = u) (suggestions s))).

(** [generateAndSave(userId, prompt)] *)
Definition generateAndSave (provider : jsval -> AxiosOutcome) (now : Z)
  (userId prompt : jsval) (s : Store) : Result (AISuggestion.t * Store) :=
  response ← callLLM provider prompt;
  AISuggestion_create now userId prompt response s.

End aiService.

(** controllers/suggestionController.js *)

Definition getSuggestions (userId : jsval) (s : Store) : Response :=
  if negb (truthy userId) then
    Respond 400 (ErrorJson "userId query param required")
  else
    match aiService.list userId s with
    | Ok rows => Respond 200 (SuggestionsJson rows)
    | Throw err => Next err
    end.

(** [err.response?.data?.error || err.message || ...]: the errors thrown
    here have no [response], and [new Error(message)] keeps the message. *)
Definition generateAndSaveSuggestion (provider : jsval -> AxiosOutcome) (now : Z)
  (userId prompt : jsval) (s : Store) : Response * Store :=
  if negb (truthy prompt) then
    (Respond 400 (ErrorJson "Prompt is required"), s)
  else if negb (truthy userId) then
    (Respond 400 (ErrorJson "User ID is required"), s)
  else
    match aiService.generateAndSave provider now userId prompt s with
    | Ok (record, s') => (Respond 201 (SuggestionJson record), s')
    | Throw (Error message) =>
        (Next (Error (if String.eqb message ""
                      then "Failed to fetch/save AI suggestion" else message)), s)
    | Throw err => (Next err, s)
    end.

(** ** The report page (pages/reports/reports.component.ts)

    The page reads the categories and the transactions of the signed-in user
    through the two GET endpoints and aggregates them in [loadData].  An
    object used as a record from key to value is the finite map of its own
    properties; a category is taken not to be named like a member every
    object inherits. *)

Module ReportsComponent.
Record t : Type := Build {
  selectedMonth : string;
  monthlyData : Z * Z;
  incomeCategoryData : gmap string Z;
  expenseCategoryData : gmap string Z;
  transactions : list Transaction.t;
  categoryMap : gmap Z string
}.
End ReportsComponent.

(** [text.startsWith(searchString)] *)
Definition startsWith (text searchString : string) : bool :=
  String.prefix searchString text.

(** [t.date?.startsWith(selectedMonth)]: JSON carries the date as its ISO
    text. *)
Definition inSelectedMonth (selectedMonth : string) (t : Transaction.t) : bool :=
  startsWith (toISOString (Transaction.date t)) selectedMonth.

(** [categories.reduce((acc, cat) => { acc[cat.id] = cat.name; return acc }, {})] *)
Definition buildCategoryMap (categories : list Category.t) : gmap Z string :=
  foldl (fun acc cat => <[Category.id cat := Category.name cat]> acc) ∅ categories.

(** [this.categoryMap[t.categoryId] || 'Uncategorized'] *)
Definition categoryLabel (categoryMap : gmap Z string) (t : Transaction.t) : string :=
  match categoryMap !! Transaction.categoryId t with
  | Some name => if String.eqb name "" then "Uncategorized" else name
  | None => "Uncategorized"
  end.

(** One turn of the [forEach] that aggregates by category; the state is
    [(incomeCategoryData, expenseCategoryData)], two plain objects, read
    here as finite maps (which they are for the names of [ownName]). *)
Definition aggregate (categoryMap : gmap Z string)
  (data : gmap string Z * gmap string Z) (t : Transaction.t)
  : gmap string Z * gmap string Z :=
  let name := categoryLabel categoryMap t in
  match Transaction.type t with
  | Income =>
      (<[name := default 0 (data.1 !! name) + Transaction.amount t]> data.1, data.2)
  | Expense =>
      (data.1, <[name := default 0 (data.2 !! name) + Z.abs (Transaction.amount t)]> data.2)
  end.

(** [loadData()]; [userId] is [localStorage.getItem('userId')].  A request
    that does not answer 200 leaves the page as it is, since no error
    callback is given. *)
Definition loadData (userId : option string) (s : Store) (this : ReportsComponent.t)
  : ReportsComponent.t :=
  if negb (truthy (param userId)) then this
  else
    match getCategories (param userId) s with
    | Respond 200 (CategoriesJson categories) =>
        let categoryMap := buildCategoryMap categories in
        match getTransactions (param userId) s with
        | Respond 200 (TransactionsJson transactions) =>
            let filtered :=
              List.filter (inSelectedMonth (ReportsComponent.selectedMonth this))
                          transactions in
            let income :=
              foldl (fun sum t => sum + Transaction.amount t) 0
                    (filter (fun t => Transaction.type t = Income) filtered) in
            let expenses :=
              foldl (fun sum t => sum + Z.abs (Transaction.amount t)) 0
                    (filter (fun t => Transaction.type t = Expense) filtered) in
            let data := foldl (aggregate categoryMap) (∅, ∅) filtered in
            {| ReportsComponent.selectedMonth := ReportsComponent.selectedMonth this;
               ReportsComponent.monthlyData := (income, expenses);
               ReportsComponent.incomeCategoryData := data.1;
               ReportsComponent.expenseCategoryData := data.2;
               ReportsComponent.transactions := filtered;
               ReportsComponent.categoryMap := categoryMap |}
        | _ =>
            {| ReportsComponent.selectedMonth := ReportsComponent.selectedMonth this;
               ReportsComponent.monthlyData := ReportsComponent.monthlyData this;
               ReportsComponent.incomeCategoryData := ReportsComponent.incomeCategoryData this;
               ReportsComponent.expenseCategoryData := ReportsComponent.expenseCategoryData this;
               ReportsComponent.transactions := ReportsComponent.transactions this;
               ReportsComponent.categoryMap := categoryMap |}
        end
    | _ => this
    end.

(** A page that has not loaded anything yet. *)
Definition newReportsComponent (selectedMonth : string) : ReportsComponent.t :=
  {| ReportsComponent.selectedMonth := selectedMonth;
     ReportsComponent.monthlyData := (0, 0);
     ReportsComponent.incomeCategoryData := ∅;
     ReportsComponent.expenseCategoryData := ∅;
     ReportsComponent.transactions := [];
     ReportsComponent.categoryMap := ∅ |}.

(** The breakdown of the specification for one kind: the record the page
    holds for it after [loadData]. *)
Definition categoryBreakdown (userId : option string) (selectedMonth : string)
  (kind : TransactionType) (s : Store) : gmap string Z :=
  let page := loadData userId s (newReportsComponent selectedMonth) in
  match kind with
  | Income => ReportsComponent.incomeCategoryData page
  | Expense => ReportsComponent.expenseCategoryData page
  end.

(** The sum over all labels of a breakdown. *)
Definition sumOfLabels (data : gmap string Z) : Z :=
  map_fold (fun _ amount sum => sum + amount) 0 data.

(** [getCategoryName(id)] of the transactions page
    (pages/transactions/transactions.component.ts); [None] is an [id] that
    is [null] or [undefined]. *)
Definition getCategoryName (categories : list Category.t) (id : option Z) : string :=
  match id with
  | None => "N/A"
  | Some i =>
      match List.find (fun c => Category.id c =? i) categories with
      | Some cat => Category.name cat
      | None => "Unknown"
      end
  end.

(** ** The server as a state machine

    The requests that change the store, and the store after a sequence of
    them. *)

Inductive Request : Type :=
| PostTransaction (body : TransactionBody.t)
| PutTransaction (id : string) (body : TransactionBody.t)
| DeleteTransaction (id : string) (userId : jsval)
| PostCategory (name userId : jsval)
| DeleteCategory (id : string) (userId : jsval)
| PostSuggestion (provider : jsval -> AxiosOutcome) (now : Z) (userId prompt : jsval).

Definition handle (r : Request) (s : Store) : Response * Store :=
  match r with
  | PostTransaction body => createTransaction body s
  | PutTransaction id body => updateTransaction id body s
  | DeleteTransaction id userId => deleteTransaction id userId s
  | PostCategory name userId => createCategory name userId s
  | DeleteCategory id userId => deleteCategory id userId s
  | PostSuggestion provider now userId prompt =>
      generateAndSaveSuggestion provider now userId prompt s
  end.

Definition run (requests : list Request) (s : Store) : Store :=
  foldl (fun s r => (handle r s).2) s requests.

(** The primary keys of the two ledger tables: no key twice, and every key
    below the counter that hands out the next one. *)
Record keysOk (s : Store) : Prop := {
  categoryKeys : NoDup (Category.id <$> categories s);
  categoryKeysBelow : Forall (fun c => Category.id c < nextCategoryId s) (categories s);
  transactionKeys : NoDup (Transaction.id <$> transactions s);
  transactionKeysBelow :
    Forall (fun t => Transaction.id t < nextTransactionId s) (transactions s)
}.

(** ** Sample data *)

(** A database with its users and no other row. *)
Definition emptyStore (enforced : bool) (users : list Z) : Store :=
  {| enforceReferences := enforced;
     users := users;
     categories := [];
     transactions := [];
     suggestions := [];
     nextCategoryId := 1;
     nextTransactionId := 1;
     nextSuggestionId := 1 |}.

Definition sampleStore (enforced : bool) : Store :=
  {| enforceReferences := enforced;
     users := [1; 2];
     categories :=
       [ {| Category.id := 1; Category.name := "Salary"; Category.userId := None |};
         {| Category.id := 2; Category.name := "Food"; Category.userId := Some 1 |} ];
     transactions := [];
     suggestions := [];
     nextCategoryId := 3;
     nextTransactionId := 1;
     nextSuggestionId := 1 |}.

Definition sampleBody (userId type : string) (amount : Z) (date : string)
  (categoryId : Z) : TransactionBody.t :=
  {| TransactionBody.userId := JStr userId;
     TransactionBody.type := JStr type;
     TransactionBody.amount := JNum amount;
     TransactionBody.date := JStr date;
     TransactionBody.description := JUndefined;
     TransactionBody.categoryId := JNum categoryId |}.

(** The three requests of the specification's example, for user 1. *)
Definition julyRequests : list Request :=
  [ PostTransaction (sampleBody "1" "income" 1000 "2025-07-03" 1);
    PostTransaction (sampleBody "1" "expense" 150 "2025-07-10" 2);
    PostTransaction (sampleBody "1" "expense" 40 "2025-08-01" 2) ].

(** The rows they leave in the transactions table. *)
Definition julyIncome : Transaction.t :=
  {| Transaction.id := 1; Transaction.userId := 1; Transaction.amount := 1000;
     Transaction.description := None; Transaction.date := 1751500800000;
     Transaction.categoryId := 1; Transaction.type := Income |}.

Definition julyExpense : Transaction.t :=
  {| Transaction.id := 2; Transaction.userId := 1; Transaction.amount := 150;
     Transaction.description := None; Transaction.date := 1752105600000;
     Transaction.categoryId := 2; Transaction.type := Expense |}.

Definition augustExpense : Transaction.t :=
  {| Transaction.id := 3; Transaction.userId := 1; Transaction.amount := 40;
     Transaction.description := None; Transaction.date := 1754006400000;
     Transaction.categoryId := 2; Transaction.type := Expense |}.

(** The store they leave, [run julyRequests (sampleStore enforced)]. *)
Definition julyStore (enforced : bool) : Store :=
  {| enforceReferences := enforced;
     users := [1; 2];
     categories :=
       [ {| Category.id := 1; Category.name := "Salary"; Category.userId := None |};
         {| Category.id := 2; Category.name := "Food"; Category.userId := Some 1 |} ];
     transactions := [julyIncome; julyExpense; augustExpense];
     suggestions := [];
     nextCategoryId := 3;
     nextTransactionId := 4;
     nextSuggestionId := 1 |}.

(** An expense of user 1 dated 2025-08-01T00:00:00.000Z, not yet stored. *)
Definition expenseOnAugustFirst : Transaction.t :=
  {| Transaction.id := 4; Transaction.userId := 1; Transaction.amount := 40;
     Transaction.description := None; Transaction.date := 1754006400000;
     Transaction.categoryId := 2; Transaction.type := Expense |}.

(** The sample store after a POST of an expense with a negative amount. *)
Definition negativeExpenseStore : Store :=
  (createTransaction (sampleBody "1" "expense" (-150) "2025-07-01" 2)
                     (sampleStore true)).2.


(** ** The aggregates in the words of the specification *)

(** A transaction of user [u] dated in the half-open window from
    [windowStart] to [windowEnd]. *)
Definition inWindow (u windowStart windowEnd : Z) (t : Transaction.t) : Prop :=
  Transaction.userId t = u /\ windowStart <= Transaction.date t < windowEnd.

Global Instance inWindow_dec u a b t : Decision (inWindow u a b t).
Proof. unfold inWindow. apply _. Defined.

(** The sum of [f] over a list. *)
Definition sumZ {A : Type} (f : A -> Z) (l : list A) : Z :=
  foldr (fun x acc => f x + acc) 0 l.

(** The amount of a transaction when it is of the given kind, else 0. *)
Definition amountOfKind (kind : TransactionType) (t : Transaction.t) : Z :=
  if decide (Transaction.type t = kind) then Transaction.amount t else 0.

(** A provider call that did not deliver a text: no response, a response
    that is not a success, or a body without the expected text field. *)
Definition providerFailed (outcome : AxiosOutcome) : Prop :=
  match outcome with
  | NetworkError | HttpError _ => True
  | HttpOk data => content data = None
  end.

(** The store with one more transaction row at the end of the table. *)
Definition withTransaction (t : Transaction.t) (s : Store) : Store :=
  setTransactions s (transactions s ++ [t]) (nextTransactionId s).

(** A summary with one more transaction counted under its kind. *)
Definition counting (t : Transaction.t) (x : Summary.t) : Summary.t :=
  match Transaction.type t with
  | Income =>
      {| Summary.income := Summary.income x + Transaction.amount t;
         Summary.expense := Summary.expense x;
         Summary.balance := Summary.balance x + Transaction.amount t |}
  | Expense =>
      {| Summary.income := Summary.income x;
         Summary.expense := Summary.expense x + Transaction.amount t;
         Summary.balance := Summary.balance x - Transaction.amount t |}
  end.


(** The record a pair of breakdowns holds for a kind. *)
Definition ofKind (kind : TransactionType) (data : gmap string Z * gmap string Z)
  : gmap string Z :=
  match kind with
  | Income => data.1
  | Expense => data.2
  end.

(** ** Months as intervals of days

    The months of the calendar year that starts in March, numbered in one
    sequence: month [m] (1..12) of year [y] has index [12 * y + m - 3]. *)

Definition monthIndex (y m : Z) : Z := 12 * y + m - 3.

(** The day number of the first day of the month of index [k]. *)
Definition monthStart (k : Z) : Z :=
  let y' := k / 12 in
  let mp := k mod 12 in
  let era := y' / 400 in
  let yoe := y' - era * 400 in
  era * 146097 + (yoe * 365 + yoe / 4 - yoe / 100 + (153 * mp + 2) / 5) - 719468.

(** The text [YYYY-MM] of a month from its six digits. *)
Definition monthText (d1 d2 d3 d4 d5 d6 : Z) : string :=
  String (digitChar d1) (String (digitChar d2) (String (digitChar d3)
    (String (digitChar d4) (String "-" (String (digitChar d5)
      (String (digitChar d6) "")))))).

(** ** Amounts as doubles

    The column [amount] is a FLOAT and the sums of the code are additions
    of doubles, which round.  The whole numbers below 2^53 in magnitude are
    doubles and their sums below that bound are exact: where the amounts of
    the rows satisfy [exactSums], every sum of some of them, in any order,
    is the sum in [Z]. *)
Definition exactSums (l : list Transaction.t) : Prop :=
  sumZ (fun t => Z.abs (Transaction.amount t)) l < 2 ^ 53.

(** The double of a whole number: the number rounded to the nearest double,
    which is the number itself below 2^53 in magnitude. *)
Definition nearestDouble (n : Z) : SpecFloat.spec_float :=
  SpecFloat.binary_normalize FloatOps.prec FloatOps.emax n 0 false.

Definition asDouble (n : Z) : float := FloatOps.SF2Prim (nearestDouble n).

(** [p * 2^n]: a mantissa moved [n] binary places to the left. *)
Definition shifted (n : nat) (p : positive) : positive := Nat.iter n xO p.

(** The sums of [monthlySummary] with the amounts as the doubles they
    are. *)
Module Double.

(** A row of the transactions table as the sums read it. *)
Record Row : Type := {
  userId : Z;
  categoryId : Z;
  type : TransactionType;
  amount : float;
  date : Z
}.

Record Summary : Type := {
  income : float;
  expense : float;
  balance : float
}.

(** A row and a summary of the embedding, with their amounts as doubles. *)
Definition ofTransaction (t : Transaction.t) : Row :=
  {| userId := Transaction.userId t;
     categoryId := Transaction.categoryId t;
     type := Transaction.type t;
     amount := asDouble (Transaction.amount t);
     date := Transaction.date t |}.

Definition ofSummary (summary : Summary.t) : Summary :=
  {| income := asDouble (Summary.income summary);
     expense := asDouble (Summary.expense summary);
     balance := asDouble (Summary.balance summary) |}.

(** [list.filter(t => t.type === type).reduce((sum, t) => sum + t.amount, 0)] *)
Definition total (kind : TransactionType) (list : list Row) : float :=
  foldl (fun sum t => (sum + amount t)%float) 0%float
        (filter (fun t => type t = kind) list).

(** The body of [monthlySummary] from the query on, for the user [u] that
    the store reads from [userId] and the two dates of the window. *)
Definition summarize (u startDate endDate : Z) (table : list Row) : Summary :=
  let list := filter (fun r => userId r = u /\ startDate <= date r < endDate) table in
  let income := total Income list in
  let expense := total Expense list in
  {| income := income; expense := expense; balance := (income - expense)%float |}.

(** [monthlySummary(userId, month)] for a [month] that makes a date. *)
Definition monthlySummary (tz u : Z) (month : string) (table : list Row)
  : option Summary :=
  match parseISODate (month +:+ "-01T00:00:00.000Z") with
  | Some startDate =>
      let endDate := setMonth tz startDate (getMonth tz startDate + 1) in
      Some (summarize u startDate endDate table)
  | None => None
  end.

(** [combine] of the specification: the component-wise sum. *)
Definition combine (a b : Summary) : Summary :=
  {| income := (income a + income b)%float;
     expense := (expense a + expense b)%float;
     balance := (balance a + balance b)%float |}.

End Double.



(** ** Names that every object has

    The breakdowns are plain objects ([{}]): a name that [Object.prototype]
    has is found in them before anything was stored under it.  The finite
    maps of the embedding are those objects for the names outside this
    list. *)
Definition inheritedNames : list string :=
  [ "__proto__"; "constructor"; "hasOwnProperty"; "isPrototypeOf";
    "propertyIsEnumerable"; "toLocaleString"; "toString"; "valueOf";
    "__defineGetter__"; "__defineSetter__"; "__lookupGetter__"; "__lookupSetter__" ].

Definition ownName (name : string) : Prop := name ∉ inheritedNames.

Global Instance ownName_dec (name : string) : Decision (ownName name).
Proof. unfold ownName. apply _. Defined.

(** ** The breakdowns as plain objects of doubles

    [loadData] of the report page from the filter on, with the amounts as
    doubles and the two breakdowns as the plain objects they are. *)
Module Breakdown.

(** What a property of a breakdown holds: a number, or a value that is no
    number (the function or object that the name inherits, or the text that
    [+] makes of such a value and a number). *)
Inductive Entry : Type :=
| Num (x : float)
| Text.

(** [data[name]] on a plain object, which is kept as the finite map of its
    own properties: the own property, else what every object has under the
    name; [None] is [undefined]. *)
Definition get (data : gmap string Entry) (name : string) : option Entry :=
  match data !! name with
  | Some v => Some v
  | None => if decide (ownName name) then None else Some Text
  end.

(** [data[name] = v] for a [v] that is a number or a text: the setter of
    [__proto__] takes no such value and leaves the object as it is. *)
Definition set (data : gmap string Entry) (name : string) (v : Entry)
  : gmap string Entry :=
  if decide (name = "__proto__") then data else <[name := v]> data.

(** [(v || 0) + x]: [undefined], [0] and [NaN] are falsy; a value that is
    no number is truthy, and its sum with a number is a text. *)
Definition orZeroPlus (v : option Entry) (x : float) : Entry :=
  match v with
  | None => Num (0 + x)
  | Some (Num y) => Num ((if is_nan y || is_zero y then 0 else y) + x)
  | Some Text => Text
  end.

(** [this.categoryMap[t.categoryId] || 'Uncategorized'] *)
Definition label (categoryMap : gmap Z string) (row : Double.Row) : string :=
  match categoryMap !! Double.categoryId row with
  | Some name => if String.eqb name "" then "Uncategorized" else name
  | None => "Uncategorized"
  end.

(** One turn of the [forEach] that aggregates by category. *)
Definition aggregate (categoryMap : gmap Z string)
  (data : gmap string Entry * gmap string Entry) (row : Double.Row)
  : gmap string Entry * gmap string Entry :=
  let name := label categoryMap row in
  match Double.type row with
  | Income =>
      (set data.1 name (orZeroPlus (get data.1 name) (Double.amount row)), data.2)
  | Expense =>
      (data.1, set data.2 name (orZeroPlus (get data.2 name) (abs (Double.amount row))))
  end.

(** [monthlyData] after [loadData]: the income and the expenses of the
    filtered rows. *)
Definition monthlyData (filtered : list Double.Row) : float * float :=
  (foldl (fun sum row => (sum + Double.amount row)%float) 0%float
         (filter (fun row => Double.type row = Income) filtered),
   foldl (fun sum row => (sum + abs (Double.amount row))%float) 0%float
         (filter (fun row => Double.type row = Expense) filtered)).

(** A breakdown of the embedding, with its amounts as doubles. *)
Definition ofWhole (data : gmap string Z) : gmap string Entry :=
  (fun n => Num (asDouble n)) <$> data.

End Breakdown.

(** ** Properties of the rows

    Orders and invariants that the handlers keep. *)

(** A list of suggestions with the most recent first. *)
Definition newestFirst (rows : list AISuggestion.t) : Prop :=
  StronglySorted (fun a b => AISuggestion.createdAt b <= AISuggestion.createdAt a) rows.

(** The references that the model definitions declare, as a property of
    the rows: every transaction names a user and a category that exist,
    every category with an owner names a user that exists, and so does
    every suggestion. *)
Record refsOk (s : Store) : Prop := {
  transactionUsers :
    Forall (fun t => Transaction.userId t ∈ users s) (transactions s);
  transactionCategories :
    Forall (fun t => Transaction.categoryId t ∈ (Category.id <$> categories s))
           (transactions s);
  categoryUsers :
    Forall (fun c => forall u, Category.userId c = Some u -> u ∈ users s) (categories s);
  suggestionUsers :
    Forall (fun r => AISuggestion.userId r ∈ users s) (suggestions s)
}.

(** The number of days of the month of index [k]. *)
Definition daysInMonth (k : Z) : Z := monthStart (k + 1) - monthStart k.

(** ** The client *)

(** [s.split(separator)[0]]: the text before the first separator, all of
    [s] when it has none. *)
Fixpoint beforeFirst (separator : ascii) (s : string) : string :=
  match s with
  | EmptyString => EmptyString
  | String c s' =>
      if Ascii.eqb c separator then EmptyString
      else String c (beforeFirst separator s')
  end.

(** [getTodayDate()] of the transactions page
    (pages/transactions/transactions.component.ts); [now] is the value of
    [new Date()]. *)
Definition getTodayDate (now : Z) : string := beforeFirst "T" (toISOString now).

(** The JSON of a row as [res.json(transaction)] sends it, held by a client
    and used as the body of a request: numbers for the keys and the amount,
    the ISO text of the date, [null] for a description that is not there.
    The key itself travels in the route. *)
Definition Transaction_toJSON (t : Transaction.t) : TransactionBody.t :=
  {| TransactionBody.userId := JNum (Transaction.userId t);
     TransactionBody.type :=
       JStr (match Transaction.type t with
             | Income => "income"
             | Expense => "expense"
             end);
     TransactionBody.amount := JNum (Transaction.amount t);
     TransactionBody.date := JStr (toISOString (Transaction.date t));
     TransactionBody.description :=
       match Transaction.description t with
       | Some text => JStr text
       | None => JNull
       end;
     TransactionBody.categoryId := JNum (Transaction.categoryId t) |}.

(** ** The client: services *)

(** Whether a JSON value is truthy. *)
Definition jsonTruthy (v : json) : bool :=
  match v with
  | JsonNull => false
  | JsonBool b => b
  | JsonNumber n => negb (n =? 0)
  | JsonString s => negb (String.eqb s "")
  | JsonArray _ | JsonObject _ => true
  end.

(** [String(v)] for a JSON value, the text [localStorage.setItem] keeps. *)
Fixpoint jsonToString (v : json) : string :=
  match v with
  | JsonNull => "null"
  | JsonBool b => if b then "true" else "false"
  | JsonNumber n => showZ n
  | JsonString s => s
  | JsonArray items =>
      (fix join (l : list json) : string :=
         match l with
         | [] => ""
         | x :: rest =>
             let element :=
               match x with
               | JsonNull => ""
               | _ => jsonToString x
               end in
             match rest with
             | [] => element
             | _ => element +:+ "," +:+ join rest
             end
         end) items
  | JsonObject _ => "[object Object]"
  end.

(** services/auth.service.ts, [saveUserIdFromResponse(response)]: the new
    value of the [userId] entry of [localStorage]. *)
Definition saveUserIdFromResponse (response : json) (localStorage : option string)
  : option string :=
  if jsonTruthy response then
    match member "user" response with
    | Some user =>
        if jsonTruthy user then
          match member "id" user with
          | Some id => if jsonTruthy id then Some (jsonToString id) else localStorage
          | None => localStorage
          end
        else localStorage
    | None => localStorage
    end
  else localStorage.

(** What the subscriber of an HTTP call gets: the body of the answer
    through [next], or the answer that was not a success through
    [error]. *)
Inductive Observed (A : Type) : Type :=
| Emits (value : A)
| Fails (response : Response).
Arguments Emits {A} value.
Arguments Fails {A} response.

(** services/transaction.service.ts; [userId] is
    [localStorage.getItem('userId')]. *)
Module TransactionService.

Definition getTransactions (userId : option string) (s : Store)
  : Observed (list Transaction.t) :=
  if negb (truthy (param userId)) then Emits []
  else
    match getTransactions (param userId) s with
    | Respond 200 (TransactionsJson transactions) => Emits transactions
    | response => Fails response
    end.

(** The summary is the triple of income, expenses and balance. *)
Definition getSummary (tz now : Z) (userId : option string) (s : Store)
  : Observed (Z * Z * Z) :=
  if negb (truthy (param userId)) then Emits (0, 0, 0)
  else
    match getMonthlySummary tz now (param userId) s with
    | Respond 200 (SummaryJson income expenses balance) =>
        Emits (income, expenses, balance)
    | response => Fails response
    end.

End TransactionService.

(** ** The client: the report pages *)

(** pages/reports/category-report/category-report.component.ts.  The rows
    the server sends have no [category] member, so the name of a row is
    always looked up in [categoryMap].  The fields of the chart are left
    out. *)
Module CategoryReportComponent.
Record t : Type := Build {
  month : string;
  transactions : list Transaction.t;
  categoryData : gmap string Z;
  categories : list Category.t;
  categoryMap : gmap Z string;
  totalExpenses : Z
}.

Definition new (month : string) : t :=
  {| month := month; transactions := []; categoryData := ∅; categories := [];
     categoryMap := ∅; totalExpenses := 0 |}.

(** The callback of the [reduce] that fills [categoryData]. *)
Definition addExpense (categoryMap : gmap Z string) (acc : gmap string Z)
  (t : Transaction.t) : gmap string Z :=
  let catName := categoryLabel categoryMap t in
  <[catName := default 0 (acc !! catName) + Z.abs (Transaction.amount t)]> acc.

Definition ngOnChanges (userId : option string) (s : Store) (this : t) : t :=
  if negb (truthy (JStr (month this))) then this
  else if negb (truthy (param userId)) then this
  else
    match getCategories (param userId) s with
    | Respond 200 (CategoriesJson categories) =>
        let categoryMap := buildCategoryMap categories in
        match TransactionService.getTransactions userId s with
        | Emits data =>
            let transactions :=
              List.filter
                (fun t => bool_decide (Transaction.type t = Expense)
                          && inSelectedMonth (month this) t) data in
            let categoryData := foldl (addExpense categoryMap) ∅ transactions in
            {| month := month this;
               transactions := transactions;
               categoryData := categoryData;
               categories := categories;
               categoryMap := categoryMap;
               totalExpenses := sumOfLabels categoryData |}
        | Fails _ =>
            {| month := month this;
               transactions := transactions this;
               categoryData := categoryData this;
               categories := categories;
               categoryMap := categoryMap;
               totalExpenses := totalExpenses this |}
        end
    | _ => this
    end.

End CategoryReportComponent.

(** pages/reports/monthly-report/monthly-report.component.ts; the fields
    of the chart are left out. *)
Module MonthlyReportComponent.
Record t : Type := Build {
  selectedMonth : string;
  transactions : list Transaction.t;
  categories : list Category.t;
  categoryTotals : gmap string Z
}.

Definition new (selectedMonth : string) : t :=
  {| selectedMonth := selectedMonth; transactions := []; categories := [];
     categoryTotals := ∅ |}.

(** [getCategoryName(id)]; [None] is an [id] that is [null] or
    [undefined]. *)
Definition getCategoryName (categories : list Category.t) (id : option Z) : string :=
  match id with
  | None => "Uncategorized"
  | Some i =>
      match List.find (fun c => Category.id c =? i) categories with
      | Some found => Category.name found
      | None => "Uncategorized"
      end
  end.

(** The callback of the [reduce] that fills [categoryTotals]. *)
Definition addExpense (categories : list Category.t) (acc : gmap string Z)
  (t : Transaction.t) : gmap string Z :=
  match Transaction.type t with
  | Expense =>
      let catName := getCategoryName categories (Some (Transaction.categoryId t)) in
      <[catName := default 0 (acc !! catName) + Z.abs (Transaction.amount t)]> acc
  | Income => acc
  end.

Definition ngOnChanges (userId : option string) (s : Store) (this : t) : t :=
  if negb (truthy (JStr (selectedMonth this))) then this
  else if negb (truthy (param userId)) then this
  else
    match getCategories (param userId) s with
    | Respond 200 (CategoriesJson cats) =>
        match TransactionService.getTransactions userId s with
        | Emits data =>
            let transactions := List.filter (inSelectedMonth (selectedMonth this)) data in
            {| selectedMonth := selectedMonth this;
               transactions := transactions;
               categories := cats;
               categoryTotals := foldl (addExpense cats) ∅ transactions |}
        | Fails _ =>
            {| selectedMonth := selectedMonth this;
               transactions := transactions this;
               categories := cats;
               categoryTotals := categoryTotals this |}
        end
    | _ => this
    end.

End MonthlyReportComponent.

(** pages/dashboard/balance-chart/balance-chart.component.ts.  [months]
    holds the keys ([yyyy-MM]) and labels of the seven months of the chart,
    which the page gets from the date library. *)
Module BalanceChartComponent.
Record MonthData : Type := { key : string; label : string }.

Record ChartData : Type := {
  labels : list string;
  incomes : list Z;
  expenses : list Z
}.

(** The sum of the amounts of one type in the month of a key. *)
Definition monthTotal (type : TransactionType) (transactions : list Transaction.t)
  (m : MonthData) : Z :=
  foldl (fun sum t => sum + Transaction.amount t) 0
        (List.filter
           (fun t => bool_decide (Transaction.type t = type)
                     && startsWith (toISOString (Transaction.date t)) (key m))
           transactions).

(** [ngOnInit()]: the chart data after the transactions have arrived;
    [chartData] is what the page held. *)
Definition ngOnInit (months : list MonthData) (userId : option string) (s : Store)
  (chartData : ChartData) : ChartData :=
  match TransactionService.getTransactions userId s with
  | Emits transactions =>
      {| labels := label <$> months;
         incomes := monthTotal Income transactions <$> months;
         expenses := monthTotal Expense transactions <$> months |}
  | Fails _ => chartData
  end.

End BalanceChartComponent.

(** ** The client: the history of suggestions *)

(** The JSON of a suggestion as [res.json(rows)] sends it. *)
Definition AISuggestion_toJSON (r : AISuggestion.t) : json :=
  JsonObject
    [ ("id", JsonNumber (AISuggestion.id r));
      ("userId", JsonNumber (AISuggestion.userId r));
      ("prompt", JsonString (AISuggestion.prompt r));
      ("response", JsonString (AISuggestion.response r));
      ("createdAt", JsonString (toISOString (AISuggestion.createdAt r))) ].

(** [new Date(v).getTime()] for a member [v] of a JSON object; [None] is
    [undefined], which makes an invalid date, whose time is [NaN].  How the
    engine reads a value that is there is [dateOf]. *)
Definition getTimeOf (dateOf : json -> jsnum) (v : option json) : jsnum :=
  match v with
  | None => NaN
  | Some value => dateOf value
  end.

(** [a - b] on numbers. *)
Definition jsSub (a b : jsnum) : jsnum :=
  match a, b with
  | Num x, Num y => Num (x - y)
  | _, _ => NaN
  end.

(** [Array.prototype.sort(comparefn)]: a stable sort; a comparison that
    gives [NaN] counts as 0.  The elements are inserted from the right, each
    before the first element that it must not follow: the order that the
    language fixes whenever the comparison function is consistent. *)
Module Array.

Fixpoint insertSorted {A : Type} (comparefn : A -> A -> jsnum) (x : A) (sorted : list A)
  : list A :=
  match sorted with
  | [] => [x]
  | y :: rest =>
      match comparefn x y with
      | Num v => if 0 <? v then y :: insertSorted comparefn x rest else x :: sorted
      | NaN => x :: sorted
      end
  end.

Definition sort {A : Type} (comparefn : A -> A -> jsnum) (array : list A) : list A :=
  foldr (insertSorted comparefn) [] array.

End Array.

(** pages/ai-suggestions/ai-suggestions.component.ts,
    [loadPastSuggestions(userId)]: the new value of [pastSuggestions]. *)
Definition loadPastSuggestions (dateOf : json -> jsnum) (userId : string) (s : Store)
  (pastSuggestions : list json) : list json :=
  match getSuggestions (JStr userId) s with
  | Respond 200 (SuggestionsJson rows) =>
      Array.sort (fun a b => jsSub (getTimeOf dateOf (member "dateGenerated" b))
                             (getTimeOf dateOf (member "dateGenerated" a)))
           (AISuggestion_toJSON <$> rows)
  | _ => pastSuggestions
  end.

(** ** Sample suggestions *)

(** A reply of the provider with white space around its text, a no-break
    space first, and a provider that gives it to every prompt. *)
Definition sampleReply : json :=
  JsonObject
    [ ("choices",
       JsonArray
         [ JsonObject
             [ ("message",
                JsonObject [ ("role", JsonString "assistant");
                             ("content",
                              JsonString (String (ascii_of_nat 160)
                                                 " Spend less on food. ")) ]) ] ]) ].

Definition sampleProvider (prompt : jsval) : AxiosOutcome := HttpOk sampleReply.

(** The suggestions that two requests of user 1 leave, the first on the
    first of August 2025 and the second a day later. *)
Definition firstSuggestion : AISuggestion.t :=
  {| AISuggestion.id := 1; AISuggestion.userId := 1;
     AISuggestion.prompt := "How can I save?";
     AISuggestion.response := "Spend less on food.";
     AISuggestion.createdAt := 1754006400000 |}.

Definition secondSuggestion : AISuggestion.t :=
  {| AISuggestion.id := 2; AISuggestion.userId := 1;
     AISuggestion.prompt := "And then?";
     AISuggestion.response := "Spend less on food.";
     AISuggestion.createdAt := 1754092800000 |}.

(** The store of the example after the first request. *)
Definition historyStore : Store :=
  (generateAndSaveSuggestion sampleProvider 1754006400000 (JStr "1")
     (JStr "How can I save?") (julyStore true)).2.

(** * Properties *)

(** ** Helper lemmas *)

Lemma filter_none {A} (P : A -> Prop) `{!forall x, Decision (P x)} (l : list A) :
  (forall x, x ∈ l -> ~ P x) -> filter P l = [].
Proof.
  induction l as [|a l IH]; intros Hno; [done|].
  rewrite filter_cons_False.
  - apply IH. intros x Hx. apply Hno. by right.
  - apply Hno. by left.
Qed.

Lemma julyStore_run (enforced : bool) :
  run julyRequests (sampleStore enforced) = julyStore enforced.
Proof. destruct enforced; vm_compute; reflexivity. Qed.

(** ** Ownership of transactions *)

(** C1. [getTransactions] answers with exactly the transactions whose
    [userId] is the requesting user's, in store order; a transaction owned by
    another user is never in the answer. *)
Theorem getTransactions_only_own (s : Store) (userId : jsval) (B : Z) :
  truthy userId = true ->
  sqlInteger userId = Some B ->
  exists l,
    getTransactions userId s = Respond 200 (TransactionsJson l)
    /\ l = filter (fun t => Transaction.userId t = B) (transactions s)
    /\ (forall t, t ∈ l <-> t ∈ transactions s /\ Transaction.userId t = B)
    /\ (forall A t, Transaction.userId t = A -> A <> B -> t ∉ l).
Proof.
  intros Htruthy Hcoerce.
  exists (filter (fun t => Transaction.userId t = B) (transactions s)).
  split; [|split; [reflexivity|split]].
  - unfold getTransactions, Transaction_findAll_userId.
    rewrite Htruthy, Hcoerce. reflexivity.
  - intros t. rewrite list_elem_of_filter. tauto.
  - intros A t HA Hne Hin. apply list_elem_of_filter in Hin. lia.
Qed.

Lemma getTransactions_only_own_witness :
  exists l,
    getTransactions (JStr "1") (julyStore true) = Respond 200 (TransactionsJson l)
    /\ length l = 3%nat
    /\ (forall t, Transaction.userId t = 2 -> t ∉ l).
Proof.
  destruct (getTransactions_only_own (julyStore true) (JStr "1") 1)
    as (l & Hresp & Hl & _ & Hother); [reflexivity|reflexivity|].
  exists l. split; [exact Hresp|split].
  - rewrite Hl. reflexivity.
  - intros t Ht. apply (Hother 2 t Ht). lia.
Defined.

(** C3. When the transaction named by the route is absent, or is owned by
    a user other than the caller, [updateTransaction] answers with one and
    the same 404 response in both cases and the store is unchanged. *)
Theorem updateTransaction_not_found_or_forbidden
  (s : Store) (id : string) (body : TransactionBody.t) (i B : Z) :
  truthy (TransactionBody.userId body) = true ->
  sqlInteger (TransactionBody.userId body) = Some B ->
  sqlInteger (JStr id) = Some i ->
  (forall t, t ∈ transactions s -> Transaction.id t = i -> Transaction.userId t <> B) ->
  updateTransaction id body s =
    (Respond 404
       (ErrorJson "Transaction not found or you do not have permission to edit it."),
     s).
Proof.
  intros Htruthy HB Hi Hnone.
  unfold updateTransaction, Transaction_findOne.
  rewrite Htruthy, HB, Hi. simpl.
  rewrite filter_none; [reflexivity|].
  intros t Hin [Hid Hu]. exact (Hnone t Hin Hid Hu).
Qed.

Lemma updateTransaction_not_found_or_forbidden_witness :
  updateTransaction "99" (sampleBody "2" "expense" 5 "2025-07-03" 2) (julyStore true)
  = updateTransaction "1" (sampleBody "2" "expense" 5 "2025-07-03" 2) (julyStore true)
  /\ (updateTransaction "1" (sampleBody "2" "expense" 5 "2025-07-03" 2)
        (julyStore true)).2 = julyStore true.
Proof.
  assert (Habsent := updateTransaction_not_found_or_forbidden (julyStore true) "99"
            (sampleBody "2" "expense" 5 "2025-07-03" 2) 99 2 eq_refl eq_refl eq_refl).
  assert (Hother := updateTransaction_not_found_or_forbidden (julyStore true) "1"
            (sampleBody "2" "expense" 5 "2025-07-03" 2) 1 2 eq_refl eq_refl eq_refl).
  rewrite Habsent, Hother; [done| |];
    intros t Hin Hid; apply list_elem_of_In in Hin; vm_compute in Hin;
    destruct Hin as [<-|[<-|[<-|[]]]]; simpl in *; lia.
Defined.

(** ** Categories *)

Lemma filter_key_unique {A} (key : A -> Z) (l : list A) (x : A) :
  NoDup (key <$> l) -> x ∈ l -> filter (fun r => key r = key x) l = [x].
Proof.
  induction l as [|a l IH]; intros Hnd Hin.
  - by apply elem_of_nil in Hin.
  - rewrite fmap_cons in Hnd. apply NoDup_cons in Hnd as [Hfresh Hnd].
    apply elem_of_cons in Hin as [->|Hin].
    + rewrite filter_cons_True by done. f_equal.
      apply filter_none. intros y Hy Heq. apply Hfresh.
      rewrite <- Heq. by apply list_elem_of_fmap_2.
    + rewrite filter_cons_False; [by apply IH|].
      intros Heq. apply Hfresh. rewrite Heq. by apply list_elem_of_fmap_2.
Qed.

Lemma Category_findOne_key (s : Store) (id : string) (c : Category.t) :
  NoDup (Category.id <$> categories s) ->
  c ∈ categories s ->
  sqlInteger (JStr id) = Some (Category.id c) ->
  Category_findOne (JStr id) s = Ok (Some c).
Proof.
  intros Hnd Hin Hid. unfold Category_findOne. rewrite Hid. simpl.
  by rewrite (filter_key_unique Category.id _ c Hnd Hin).
Qed.

(** C10. Whoever asks, deleting a global category (one whose [userId] is
    null) is answered 403 and the category stays in the store: the
    comparison of a null owner with [parseInt(userId)] never succeeds. *)
Theorem deleteCategory_global_forbidden
  (s : Store) (id : string) (userId : jsval) (c : Category.t) :
  NoDup (Category.id <$> categories s) ->
  c ∈ categories s ->
  Category.userId c = None ->
  sqlInteger (JStr id) = Some (Category.id c) ->
  truthy userId = true ->
  deleteCategory id userId s =
    (Respond 403 (ErrorJson "You do not have permission to delete this category."), s)
  /\ c ∈ categories (deleteCategory id userId s).2.
Proof.
  intros Hnd Hin Hglobal Hid Htruthy.
  assert (deleteCategory id userId s =
    (Respond 403 (ErrorJson "You do not have permission to delete this category."), s))
    as Heq.
  { unfold deleteCategory. rewrite Htruthy. simpl.
    rewrite (Category_findOne_key s id c Hnd Hin Hid), Hglobal. reflexivity. }
  split; [exact Heq|]. rewrite Heq. exact Hin.
Qed.

Lemma deleteCategory_global_forbidden_witness :
  (deleteCategory "1" (JStr "1") (sampleStore false)).1 =
    Respond 403 (ErrorJson "You do not have permission to delete this category.")
  /\ {| Category.id := 1; Category.name := "Salary"; Category.userId := None |}
       ∈ categories (deleteCategory "1" (JStr "1") (sampleStore false)).2.
Proof.
  destruct (deleteCategory_global_forbidden (sampleStore false) "1" (JStr "1")
              {| Category.id := 1; Category.name := "Salary"; Category.userId := None |})
    as [Hresp Hkept].
  - compute_done.
  - compute_done.
  - reflexivity.
  - reflexivity.
  - reflexivity.
  - split; [by rewrite Hresp|exact Hkept].
Defined.

(** ** Suggestions *)

(** C4. When the provider call fails (no response, a response that is not
    a success, or a body without the text), [generateAndSave] throws the
    provider error, the controller passes it on, and no suggestion is
    stored: the table and every user's history are what they were. *)
Theorem generate_provider_failure_persists_nothing
  (provider : jsval -> AxiosOutcome) (now : Z) (userId prompt : jsval) (s : Store) :
  truthy prompt = true ->
  truthy userId = true ->
  providerFailed (provider prompt) ->
  aiService.generateAndSave provider now userId prompt s
    = Throw (Error "LLM provider error")
  /\ generateAndSaveSuggestion provider now userId prompt s
    = (Next (Error "LLM provider error"), s)
  /\ (forall u rows rows',
        aiService.list u s = Ok rows ->
        aiService.list u (generateAndSaveSuggestion provider now userId prompt s).2
          = Ok rows' ->
        length rows' = length rows).
Proof.
  intros Hprompt Huser Hfail.
  assert (callLLM provider prompt = Throw (Error "LLM provider error")) as Hcall.
  { unfold callLLM. destruct (provider prompt) as [| |data]; simpl in Hfail;
      [reflexivity|reflexivity|]. by rewrite Hfail. }
  assert (aiService.generateAndSave provider now userId prompt s
          = Throw (Error "LLM provider error")) as Hgen.
  { unfold aiService.generateAndSave. by rewrite Hcall. }
  assert (generateAndSaveSuggestion provider now userId prompt s
          = (Next (Error "LLM provider error"), s)) as Hctl.
  { unfold generateAndSaveSuggestion. by rewrite Hprompt, Huser, Hgen. }
  split; [exact Hgen|split; [exact Hctl|]].
  intros u rows rows' Hbefore Hafter. rewrite Hctl in Hafter. simpl in Hafter.
  congruence.
Qed.

Lemma generate_provider_failure_persists_nothing_witness :
  (generateAndSaveSuggestion (fun _ => HttpOk (JsonObject [("choices", JsonArray [])]))
     1754006400000 (JStr "1") (JStr "How can I save more?") (sampleStore true))
  = (Next (Error "LLM provider error"), sampleStore true).
Proof.
  apply (generate_provider_failure_persists_nothing
           (fun _ => HttpOk (JsonObject [("choices", JsonArray [])]))
           1754006400000 (JStr "1") (JStr "How can I save more?") (sampleStore true));
    reflexivity.
Defined.

(** ** Whole numbers as doubles

    The additions of doubles that are whole numbers below 2^53 in
    magnitude, with a sum below 2^53, are exact. *)

Lemma shifted_S (n : nat) (p : positive) : shifted (S n) p = xO (shifted n p).
Proof. reflexivity. Qed.

Lemma shifted_Z (n : nat) (p : positive) : Z.pos (shifted n p) = Z.pos p * 2 ^ Z.of_nat n.
Proof.
  induction n as [|n IH]; [simpl; lia|].
  rewrite Nat2Z.inj_succ, Z.pow_succ_r by lia. rewrite shifted_S.
  rewrite Pos2Z.inj_xO, IH. lia.
Qed.

Lemma digits_shifted (n : nat) (p : positive) :
  Z.pos (SpecFloat.digits2_pos (shifted n p))
  = Z.pos (SpecFloat.digits2_pos p) + Z.of_nat n.
Proof.
  induction n as [|n IH]; [simpl; lia|].
  rewrite shifted_S. cbn [SpecFloat.digits2_pos]. rewrite Pos2Z.inj_succ, IH.
  rewrite Nat2Z.inj_succ. lia.
Qed.

Lemma digits_bound (p : positive) :
  2 ^ (Z.pos (SpecFloat.digits2_pos p) - 1) <= Z.pos p
  < 2 ^ Z.pos (SpecFloat.digits2_pos p).
Proof.
  induction p as [p IH|p IH|]; cbn [SpecFloat.digits2_pos]; [| |simpl; lia].
  all: rewrite Pos2Z.inj_succ.
  all: replace (Z.succ (Z.pos (SpecFloat.digits2_pos p)) - 1)
         with (Z.pos (SpecFloat.digits2_pos p)) by lia.
  all: rewrite Z.pow_succ_r by lia.
  all: replace (2 ^ Z.pos (SpecFloat.digits2_pos p))
         with (2 * 2 ^ (Z.pos (SpecFloat.digits2_pos p) - 1)) in *
         by (rewrite <- Z.pow_succ_r by lia; f_equal; lia).
  all: lia.
Qed.

Lemma digits_le (p : positive) :
  Z.pos p < 2 ^ 53 -> Z.pos (SpecFloat.digits2_pos p) <= 53.
Proof.
  intros Hp. destruct (digits_bound p) as [Hlow _].
  destruct (Z.le_gt_cases (Z.pos (SpecFloat.digits2_pos p)) 53) as [|Hgt]; [done|].
  assert (2 ^ 53 <= 2 ^ (Z.pos (SpecFloat.digits2_pos p) - 1))
    by (apply Z.pow_le_mono_r; lia).
  lia.
Qed.

Lemma iter_pos_nat {A} (f : A -> A) (q : positive) (x : A) :
  SpecFloat.iter_pos f q x = Nat.iter (Pos.to_nat q) f x.
Proof.
  revert x. induction q as [q IH|q IH|]; intros x; cbn [SpecFloat.iter_pos].
  - rewrite !IH, Pos2Nat.inj_xI.
    replace (S (2 * Pos.to_nat q)) with (Pos.to_nat q + S (Pos.to_nat q))%nat by lia.
    by rewrite Nat.iter_add, Nat.iter_succ_r.
  - rewrite !IH, Pos2Nat.inj_xO.
    replace (2 * Pos.to_nat q)%nat with (Pos.to_nat q + Pos.to_nat q)%nat by lia.
    by rewrite Nat.iter_add.
  - reflexivity.
Qed.

Lemma shr_shifted (n : nat) (p : positive) :
  Nat.iter n SpecFloat.shr_1
    {| SpecFloat.shr_m := Z.pos (shifted n p); SpecFloat.shr_r := false;
       SpecFloat.shr_s := false |}
  = {| SpecFloat.shr_m := Z.pos p; SpecFloat.shr_r := false; SpecFloat.shr_s := false |}.
Proof.
  induction n as [|n IH]; [done|].
  rewrite Nat.iter_succ_r, shifted_S. cbn [SpecFloat.shr_1 orb]. exact IH.
Qed.

Lemma shifted_add (a b : nat) (p : positive) :
  shifted a (shifted b p) = shifted (a + b) p.
Proof. unfold shifted. by rewrite Nat.iter_add. Qed.

Lemma iter_xO_shifted (q p : positive) : Pos.iter xO p q = shifted (Pos.to_nat q) p.
Proof. by rewrite Pos2Nat.inj_iter. Qed.

Lemma fexp_normal (e : Z) :
  1 <= e -> SpecFloat.fexp FloatOps.prec FloatOps.emax e = e - 53.
Proof.
  intros He. unfold SpecFloat.fexp, SpecFloat.emin.
  change FloatOps.prec with 53. change FloatOps.emax with 1024. lia.
Qed.

(** A mantissa of [53 + r] digits whose last [r] digits are 0 is rounded to
    its first 53 digits, exactly. *)
Lemma binary_round_aux_shifted (sx : bool) (p : positive) (r : nat) :
  let d := Z.pos (SpecFloat.digits2_pos p) in
  d <= 53 ->
  SpecFloat.binary_round_aux FloatOps.prec FloatOps.emax sx
    (Z.pos (shifted (r + Z.to_nat (53 - d)) p)) (d - 53 - Z.of_nat r) SpecFloat.loc_Exact
  = SpecFloat.S754_finite sx (shifted (Z.to_nat (53 - d)) p) (d - 53).
Proof.
  intros d Hd.
  assert (Z.pos (SpecFloat.digits2_pos (shifted (Z.to_nat (53 - d)) p)) = 53) as Hfull.
  { rewrite digits_shifted. fold d. lia. }
  assert (SpecFloat.shr_fexp FloatOps.prec FloatOps.emax
            (Z.pos (shifted (r + Z.to_nat (53 - d)) p)) (d - 53 - Z.of_nat r)
            SpecFloat.loc_Exact
          = ({| SpecFloat.shr_m := Z.pos (shifted (Z.to_nat (53 - d)) p);
                SpecFloat.shr_r := false; SpecFloat.shr_s := false |}, d - 53)) as Hfirst.
  { unfold SpecFloat.shr_fexp. cbn [SpecFloat.Zdigits2 SpecFloat.shr_record_of_loc].
    rewrite digits_shifted. fold d. rewrite fexp_normal by lia.
    replace (d + Z.of_nat (r + Z.to_nat (53 - d)) + (d - 53 - Z.of_nat r) - 53
             - (d - 53 - Z.of_nat r)) with (Z.of_nat r) by lia.
    unfold SpecFloat.shr. destruct r as [|r].
    - cbn [Z.of_nat]. f_equal. lia.
    - change (Z.of_nat (S r)) with (Z.pos (Pos.of_succ_nat r)). cbv iota.
      rewrite iter_pos_nat, SuccNat2Pos.id_succ.
      rewrite <- shifted_add, shr_shifted. f_equal. lia. }
  assert (SpecFloat.shr_fexp FloatOps.prec FloatOps.emax
            (Z.pos (shifted (Z.to_nat (53 - d)) p)) (d - 53) SpecFloat.loc_Exact
          = ({| SpecFloat.shr_m := Z.pos (shifted (Z.to_nat (53 - d)) p);
                SpecFloat.shr_r := false; SpecFloat.shr_s := false |}, d - 53)) as Hsecond.
  { unfold SpecFloat.shr_fexp. cbn [SpecFloat.Zdigits2 SpecFloat.shr_record_of_loc].
    rewrite Hfull, fexp_normal by lia.
    replace (53 + (d - 53) - 53 - (d - 53)) with 0 by lia. reflexivity. }
  unfold SpecFloat.binary_round_aux. rewrite Hfirst.
  cbn [SpecFloat.shr_m SpecFloat.loc_of_shr_record SpecFloat.round_nearest_even].
  rewrite Hsecond. cbn [SpecFloat.shr_m].
  change FloatOps.prec with 53. change FloatOps.emax with 1024.
  destruct (Z.leb_spec (d - 53) (1024 - 53)); [done|lia].
Qed.

(** The whole number [p * 2^n * 2^(-n)] below 2^53 is rounded to itself. *)
Lemma binary_round_shifted (sx : bool) (p : positive) (n : nat) :
  let d := Z.pos (SpecFloat.digits2_pos p) in
  d <= 53 ->
  SpecFloat.binary_round FloatOps.prec FloatOps.emax sx (shifted n p) (- Z.of_nat n)
  = SpecFloat.S754_finite sx (shifted (Z.to_nat (53 - d)) p) (d - 53).
Proof.
  intros d Hd. unfold SpecFloat.binary_round.
  rewrite digits_shifted. fold d. rewrite fexp_normal by lia.
  unfold SpecFloat.shl_align.
  destruct (d + Z.of_nat n + - Z.of_nat n - 53 - - Z.of_nat n) as [|q|q] eqn:Hq.
  - replace (- Z.of_nat n) with (d - 53 - Z.of_nat 0) by lia.
    replace n with (0 + Z.to_nat (53 - d))%nat at 1 by lia.
    by apply binary_round_aux_shifted.
  - replace (- Z.of_nat n) with (d - 53 - Z.of_nat (Pos.to_nat q))
      by (rewrite positive_nat_Z; lia).
    replace n with (Pos.to_nat q + Z.to_nat (53 - d))%nat at 1 by lia.
    by apply binary_round_aux_shifted.
  - rewrite iter_xO_shifted, shifted_add.
    replace (d + Z.of_nat n + - Z.of_nat n - 53) with (d - 53 - Z.of_nat 0) by lia.
    replace (Pos.to_nat q + n)%nat with (0 + Z.to_nat (53 - d))%nat by lia.
    by apply binary_round_aux_shifted.
Qed.


Lemma pos_abs (n : Z) : n <> 0 -> Z.pos (Z.to_pos (Z.abs n)) = Z.abs n.
Proof. intros Hn. rewrite Z2Pos.id; lia. Qed.

Lemma digits_whole (n : Z) :
  n <> 0 -> Z.abs n < 2 ^ 53 ->
  Z.pos (SpecFloat.digits2_pos (Z.to_pos (Z.abs n))) <= 53.
Proof. intros Hn Hlt. apply digits_le. by rewrite pos_abs. Qed.

Lemma normalize_shifted (n : Z) (k : nat) :
  n <> 0 -> Z.abs n < 2 ^ 53 ->
  let p := Z.to_pos (Z.abs n) in
  let d := Z.pos (SpecFloat.digits2_pos p) in
  SpecFloat.binary_normalize FloatOps.prec FloatOps.emax (n * 2 ^ Z.of_nat k)
    (- Z.of_nat k) false
  = SpecFloat.S754_finite (n <? 0) (shifted (Z.to_nat (53 - d)) p) (d - 53).
Proof.
  intros Hn Hlt p d. pose proof (digits_whole n Hn Hlt) as Hd. fold p d in Hd.
  destruct n as [|q|q]; [done| |].
  - replace (Z.pos q * 2 ^ Z.of_nat k) with (Z.pos (shifted k q)) by apply shifted_Z.
    cbn [SpecFloat.binary_normalize]. change (Z.pos q <? 0) with false.
    by apply binary_round_shifted.
  - replace (Z.neg q * 2 ^ Z.of_nat k) with (Z.neg (shifted k q))
      by (rewrite <- !Pos2Z.opp_pos, shifted_Z; lia).
    cbn [SpecFloat.binary_normalize]. change (Z.neg q <? 0) with true.
    by apply binary_round_shifted.
Qed.

Lemma normalize_whole (n : Z) :
  n <> 0 -> Z.abs n < 2 ^ 53 ->
  let p := Z.to_pos (Z.abs n) in
  let d := Z.pos (SpecFloat.digits2_pos p) in
  nearestDouble n = SpecFloat.S754_finite (n <? 0) (shifted (Z.to_nat (53 - d)) p) (d - 53).
Proof.
  intros Hn Hlt. pose proof (normalize_shifted n 0 Hn Hlt) as H.
  cbn [Z.of_nat Z.opp] in H. by rewrite Z.pow_0_r, Z.mul_1_r in H.
Qed.

Lemma normalize_valid (n : Z) :
  Z.abs n < 2 ^ 53 ->
  SpecFloat.valid_binary FloatOps.prec FloatOps.emax (nearestDouble n) = true.
Proof.
  intros Hlt. destruct (Z.eq_dec n 0) as [->|Hn]; [done|].
  rewrite (normalize_whole n Hn Hlt). pose proof (digits_whole n Hn Hlt) as Hd.
  cbn [SpecFloat.valid_binary]. unfold SpecFloat.bounded, SpecFloat.canonical_mantissa.
  rewrite digits_shifted, fexp_normal by lia.
  change FloatOps.prec with 53. change FloatOps.emax with 1024.
  apply andb_true_intro. split; [apply Z.eqb_eq|apply Z.leb_le]; lia.
Qed.

Lemma shl_align_value (m : positive) (e ez : Z) :
  ez <= e ->
  Z.pos (SpecFloat.shl_align m e ez).1 = Z.pos m * 2 ^ (e - ez).
Proof.
  intros He. unfold SpecFloat.shl_align.
  destruct (ez - e) as [|q|q] eqn:Hq; cbn [fst].
  - replace (e - ez) with 0 by lia. lia.
  - lia.
  - rewrite iter_xO_shifted, shifted_Z, positive_nat_Z. do 2 f_equal. lia.
Qed.

Lemma cond_Zopp_sign (n : Z) :
  SpecFloat.cond_Zopp (n <? 0) (Z.abs n) = n.
Proof. unfold SpecFloat.cond_Zopp. destruct (Z.ltb_spec n 0); lia. Qed.

(** The mantissa of a whole number, aligned to an exponent [ez] at or below
    its own, is the number times [2^(-ez)], with its sign. *)
Lemma aligned_whole (n ez : Z) :
  n <> 0 -> Z.abs n < 2 ^ 53 ->
  let p := Z.to_pos (Z.abs n) in
  let d := Z.pos (SpecFloat.digits2_pos p) in
  ez <= d - 53 ->
  SpecFloat.cond_Zopp (n <? 0)
    (Z.pos (SpecFloat.shl_align (shifted (Z.to_nat (53 - d)) p) (d - 53) ez).1)
  = n * 2 ^ (- ez).
Proof.
  intros Hn Hlt p d Hez. pose proof (digits_whole n Hn Hlt) as Hd. fold p d in Hd.
  rewrite shl_align_value, shifted_Z by done. unfold p. rewrite pos_abs by done.
  rewrite Z2Nat.id by lia. rewrite <- Z.mul_assoc, <- Z.pow_add_r by lia.
  replace (53 - d + (d - 53 - ez)) with (- ez) by lia.
  unfold SpecFloat.cond_Zopp. destruct (Z.ltb_spec n 0); lia.
Qed.

Lemma SFadd_whole (a b : Z) :
  Z.abs a < 2 ^ 53 -> Z.abs b < 2 ^ 53 -> Z.abs (a + b) < 2 ^ 53 ->
  SpecFloat.SFadd FloatOps.prec FloatOps.emax (nearestDouble a) (nearestDouble b) = nearestDouble (a + b).
Proof.
  intros Ha Hb Hab.
  destruct (Z.eq_dec a 0) as [->|Hna].
  { destruct (Z.eq_dec b 0) as [->|Hnb]; [done|].
    rewrite Z.add_0_l, (normalize_whole b Hnb Hb). reflexivity. }
  destruct (Z.eq_dec b 0) as [->|Hnb].
  { rewrite Z.add_0_r, (normalize_whole a Hna Ha). reflexivity. }
  rewrite (normalize_whole a Hna Ha), (normalize_whole b Hnb Hb).
  pose proof (digits_whole a Hna Ha) as Hda. pose proof (digits_whole b Hnb Hb) as Hdb.
  cbn [SpecFloat.SFadd].
  set (ez := Z.min _ _).
  rewrite (aligned_whole a ez Hna Ha), (aligned_whole b ez Hnb Hb) by (unfold ez; lia).
  assert (ez <= 0) as Hez by (unfold ez; lia).
  rewrite <- Z.mul_add_distr_r.
  assert (- ez = Z.of_nat (Z.to_nat (- ez))) as Hk by lia.
  replace ez with (- Z.of_nat (Z.to_nat (- ez))) at 2 by lia.
  rewrite Hk at 1.
  destruct (Z.eq_dec (a + b) 0) as [Hzero|Hnz].
  - rewrite Hzero. reflexivity.
  - rewrite (normalize_shifted (a + b) _ Hnz Hab).
    by rewrite (normalize_whole (a + b) Hnz Hab).
Qed.

Lemma SFsub_whole (a b : Z) :
  Z.abs a < 2 ^ 53 -> Z.abs b < 2 ^ 53 -> Z.abs (a - b) < 2 ^ 53 ->
  SpecFloat.SFsub FloatOps.prec FloatOps.emax (nearestDouble a) (nearestDouble b) = nearestDouble (a - b).
Proof.
  intros Ha Hb Hab.
  destruct (Z.eq_dec b 0) as [->|Hnb].
  { rewrite Z.sub_0_r. destruct (Z.eq_dec a 0) as [->|Hna]; [done|].
    rewrite (normalize_whole a Hna Ha). reflexivity. }
  destruct (Z.eq_dec a 0) as [->|Hna].
  { rewrite Z.sub_0_l, (normalize_whole b Hnb Hb).
    rewrite (normalize_whole (- b)) by lia.
    cbn [SpecFloat.SFsub SpecFloat.binary_normalize]. rewrite Z.abs_opp.
    f_equal. destruct (Z.ltb_spec b 0), (Z.ltb_spec (- b) 0); try done; lia. }
  rewrite (normalize_whole a Hna Ha), (normalize_whole b Hnb Hb).
  pose proof (digits_whole a Hna Ha) as Hda. pose proof (digits_whole b Hnb Hb) as Hdb.
  cbn [SpecFloat.SFsub].
  set (ez := Z.min _ _).
  rewrite (aligned_whole a ez Hna Ha), (aligned_whole b ez Hnb Hb) by (unfold ez; lia).
  assert (ez <= 0) as Hez by (unfold ez; lia).
  rewrite <- Z.mul_sub_distr_r.
  assert (- ez = Z.of_nat (Z.to_nat (- ez))) as Hk by lia.
  replace ez with (- Z.of_nat (Z.to_nat (- ez))) at 2 by lia.
  rewrite Hk at 1.
  destruct (Z.eq_dec (a - b) 0) as [Hzero|Hnz].
  - rewrite Hzero. reflexivity.
  - rewrite (normalize_shifted (a - b) _ Hnz Hab).
    by rewrite (normalize_whole (a - b) Hnz Hab).
Qed.

Lemma SFabs_whole (a : Z) :
  Z.abs a < 2 ^ 53 -> SpecFloat.SFabs (nearestDouble a) = nearestDouble (Z.abs a).
Proof.
  intros Ha. destruct (Z.eq_dec a 0) as [->|Hna]; [done|].
  rewrite (normalize_whole a Hna Ha), (normalize_whole (Z.abs a)) by lia.
  cbn [SpecFloat.SFabs]. rewrite Z.abs_idemp.
  f_equal. symmetry. apply Z.ltb_ge. lia.
Qed.

(** Sums, differences and magnitudes of whole numbers below 2^53, as
    doubles. *)
Lemma asDouble_add (a b : Z) :
  Z.abs a < 2 ^ 53 -> Z.abs b < 2 ^ 53 -> Z.abs (a + b) < 2 ^ 53 ->
  (asDouble a + asDouble b)%float = asDouble (a + b).
Proof.
  intros Ha Hb Hab. apply FloatAxioms.Prim2SF_inj.
  rewrite FloatAxioms.add_spec. unfold asDouble.
  rewrite !FloatAxioms.Prim2SF_SF2Prim by by apply normalize_valid.
  by apply SFadd_whole.
Qed.

Lemma asDouble_sub (a b : Z) :
  Z.abs a < 2 ^ 53 -> Z.abs b < 2 ^ 53 -> Z.abs (a - b) < 2 ^ 53 ->
  (asDouble a - asDouble b)%float = asDouble (a - b).
Proof.
  intros Ha Hb Hab. apply FloatAxioms.Prim2SF_inj.
  rewrite FloatAxioms.sub_spec. unfold asDouble.
  rewrite !FloatAxioms.Prim2SF_SF2Prim by by apply normalize_valid.
  by apply SFsub_whole.
Qed.

Lemma asDouble_abs (a : Z) :
  Z.abs a < 2 ^ 53 -> abs (asDouble a) = asDouble (Z.abs a).
Proof.
  intros Ha. apply FloatAxioms.Prim2SF_inj.
  rewrite FloatAxioms.abs_spec. unfold asDouble.
  rewrite !FloatAxioms.Prim2SF_SF2Prim by (apply normalize_valid; lia).
  by apply SFabs_whole.
Qed.

(** ** Summaries *)

Lemma foldl_sumZ {A} (f : A -> Z) (l : list A) (a : Z) :
  foldl (fun sum x => sum + f x) a l = a + sumZ f l.
Proof.
  revert a. induction l as [|x l IH]; intros a; simpl; [lia|].
  rewrite IH. lia.
Qed.

Lemma sumZ_app {A} (f : A -> Z) (l k : list A) :
  sumZ f (l ++ k) = sumZ f l + sumZ f k.
Proof. induction l as [|x l IH]; simpl; lia. Qed.

Lemma total_sumZ (kind : TransactionType) (l : list Transaction.t) :
  total kind l = sumZ (amountOfKind kind) l.
Proof.
  unfold total. rewrite foldl_sumZ. simpl.
  induction l as [|t l IH]; [done|].
  rewrite filter_cons. simpl. unfold amountOfKind at 1.
  destruct (decide (Transaction.type t = kind)); simpl; lia.
Qed.


Lemma whereInteger_coerced (attribute : string) (v : jsval) (u : Z) :
  sqlInteger v = Some u -> whereInteger attribute v = Ok (Some u).
Proof. intros H. destruct v; simpl in *; try done; by rewrite H. Qed.

Lemma Transaction_findAll_window_spec (userId : jsval) (u a b : Z) (s : Store) :
  sqlInteger userId = Some u ->
  Transaction_findAll_window userId a b s
  = Ok (filter (inWindow u a b) (transactions s)).
Proof.
  intros Hu. unfold Transaction_findAll_window.
  rewrite (whereInteger_coerced _ _ _ Hu). simpl. f_equal.
  apply list_filter_iff. intros t. unfold inWindow. split.
  - intros [[= ->] ?]. done.
  - intros [-> ?]. done.
Qed.


(** ** Summaries on whole amounts, in doubles *)

Lemma Prim2SF_asDouble (n : Z) :
  Z.abs n < 2 ^ 53 -> FloatOps.Prim2SF (asDouble n) = nearestDouble n.
Proof. intros Hn. apply FloatAxioms.Prim2SF_SF2Prim. by apply normalize_valid. Qed.

Lemma SFeqb_whole (a b : Z) :
  Z.abs a < 2 ^ 53 -> Z.abs b < 2 ^ 53 ->
  SpecFloat.SFeqb (nearestDouble a) (nearestDouble b) = true -> a = 0 <-> b = 0.
Proof.
  intros Ha Hb. destruct (Z.eq_dec a 0) as [->|Hna], (Z.eq_dec b 0) as [->|Hnb];
    [done| | |done].
  - rewrite (normalize_whole b Hnb Hb). unfold SpecFloat.SFeqb. simpl.
    by destruct (b <? 0).
  - rewrite (normalize_whole a Hna Ha). unfold SpecFloat.SFeqb. simpl.
    by destruct (a <? 0).
Qed.

Lemma SFeqb_refl_whole (a : Z) :
  Z.abs a < 2 ^ 53 -> SpecFloat.SFeqb (nearestDouble a) (nearestDouble a) = true.
Proof.
  intros Ha. destruct (Z.eq_dec a 0) as [->|Hna]; [done|].
  rewrite (normalize_whole a Hna Ha). unfold SpecFloat.SFeqb.
  cbn [SpecFloat.SFcompare]. rewrite Z.compare_refl, Pos.compare_cont_refl.
  by destruct (a <? 0).
Qed.

(** A whole number is no [NaN], and it is falsy only if it is 0. *)
Lemma orZero_whole (n : Z) :
  Z.abs n < 2 ^ 53 ->
  (if is_nan (asDouble n) || is_zero (asDouble n) then 0%float else asDouble n)
  = asDouble n.
Proof.
  intros Hn. unfold is_nan, is_zero. change zero with (asDouble 0).
  rewrite !FloatAxioms.eqb_spec, !Prim2SF_asDouble by (done || (simpl; lia)).
  rewrite SFeqb_refl_whole by done. cbn [negb orb].
  destruct (SpecFloat.SFeqb (nearestDouble n) (nearestDouble 0)) eqn:Heq; [|done].
  apply SFeqb_whole in Heq; [|done|simpl; lia].
  by rewrite (proj2 Heq eq_refl).
Qed.

Lemma sumZ_cons {A} (f : A -> Z) (x : A) (l : list A) :
  sumZ f (x :: l) = f x + sumZ f l.
Proof. reflexivity. Qed.

Lemma sumZ_abs_nonneg {A} (f : A -> Z) (l : list A) :
  0 <= sumZ (fun x => Z.abs (f x)) l.
Proof. induction l as [|x l IH]; [done|]. rewrite sumZ_cons. lia. Qed.

Lemma sumZ_abs_filter {A} (f : A -> Z) (P : A -> Prop) `{!forall x, Decision (P x)}
  (l : list A) :
  sumZ (fun x => Z.abs (f x)) (filter P l) <= sumZ (fun x => Z.abs (f x)) l.
Proof.
  induction l as [|x l IH]; [done|]. rewrite filter_cons.
  destruct (decide (P x)); rewrite ?sumZ_cons; lia.
Qed.

Lemma foldl_abs_bound {A} (f : A -> Z) (l : list A) (acc : Z) :
  Z.abs (foldl (fun sum x => sum + f x) acc l)
  <= Z.abs acc + sumZ (fun x => Z.abs (f x)) l.
Proof.
  revert acc. induction l as [|x l IH]; intros acc; [simpl; unfold sumZ; simpl; lia|].
  cbn [foldl]. rewrite sumZ_cons. specialize (IH (acc + f x)). lia.
Qed.

(** A [reduce] that adds doubles which are whole numbers, where the
    magnitudes sum to less than 2^53: every addition is exact. *)
Lemma foldl_add_whole {A} (f : A -> Z) (g : A -> float) (l : list A) (acc : Z) :
  Forall (fun x => g x = asDouble (f x)) l ->
  Z.abs acc + sumZ (fun x => Z.abs (f x)) l < 2 ^ 53 ->
  foldl (fun sum x => (sum + g x)%float) (asDouble acc) l
  = asDouble (foldl (fun sum x => sum + f x) acc l).
Proof.
  revert acc. induction l as [|x l IH]; intros acc Hg Hbound; [done|].
  apply Forall_cons in Hg as [Hx Hg]. rewrite sumZ_cons in Hbound.
  pose proof (sumZ_abs_nonneg f l) as Hpos.
  cbn [foldl]. rewrite Hx, asDouble_add by lia. apply IH; [done|]. lia.
Qed.

Lemma filter_fmap_list {A B} (f : A -> B) (P : B -> Prop) `{!forall y, Decision (P y)}
  (l : list A) :
  filter P (f <$> l) = f <$> filter (fun x => P (f x)) l.
Proof.
  induction l as [|x l IH]; [done|]. rewrite fmap_cons, !filter_cons.
  destruct (decide (P (f x))); by rewrite ?fmap_cons, IH.
Qed.

Lemma foldl_fmap_list {A B C} (f : A -> B) (g : C -> B -> C) (l : list A) (acc : C) :
  foldl g acc (f <$> l) = foldl (fun c x => g c (f x)) acc l.
Proof. revert acc. induction l as [|x l IH]; intros acc; [done|]. apply IH. Qed.

(** The totals of [monthlySummary] on whole amounts. *)
Lemma Double_total_whole (kind : TransactionType) (l : list Transaction.t) :
  exactSums l ->
  Double.total kind (Double.ofTransaction <$> l) = asDouble (total kind l).
Proof.
  intros Hexact. unfold Double.total, total.
  rewrite filter_fmap_list, foldl_fmap_list. cbn [Double.type Double.ofTransaction].
  change 0%float with (asDouble 0).
  apply (foldl_add_whole Transaction.amount
           (fun t => Double.amount (Double.ofTransaction t))).
  - by apply Forall_forall.
  - pose proof (sumZ_abs_filter Transaction.amount
                  (fun t => Transaction.type t = kind) l).
    unfold exactSums in Hexact. simpl. lia.
Qed.

Lemma total_bound (kind : TransactionType) (l : list Transaction.t) :
  Z.abs (total kind l) <= sumZ (fun t => Z.abs (Transaction.amount t)) l.
Proof.
  unfold total.
  pose proof (foldl_abs_bound Transaction.amount
                (filter (fun t => Transaction.type t = kind) l) 0).
  pose proof (sumZ_abs_filter Transaction.amount (fun t => Transaction.type t = kind) l).
  simpl in *. lia.
Qed.

Lemma totals_bound (l : list Transaction.t) :
  Z.abs (total Income l) + Z.abs (total Expense l)
  <= sumZ (fun t => Z.abs (Transaction.amount t)) l.
Proof.
  unfold total. induction l as [|t l IH]; [done|].
  rewrite !filter_cons, sumZ_cons.
  pose proof (foldl_sumZ Transaction.amount) as Hfold.
  rewrite !Hfold in *.
  destruct (Transaction.type t); repeat case_decide; try done;
    rewrite ?sumZ_cons; lia.
Qed.

(** The doubles of some whole numbers; above 2^53 a whole number need not
    be a double. *)
Lemma asDouble_samples :
  asDouble 0 = 0%float /\ asDouble 150 = 150%float /\ asDouble (-40) = (-40)%float
  /\ asDouble (2 ^ 53 - 1) = 9007199254740991%float
  /\ asDouble (2 ^ 53 + 1) = asDouble (2 ^ 53).
Proof. repeat split; vm_compute; reflexivity. Qed.

Lemma summarize_of_window (userId : jsval) (u a b : Z) (s : Store) :
  sqlInteger userId = Some u ->
  let window := filter (inWindow u a b) (transactions s) in
  summarize userId a b s
  = Ok {| Summary.income := total Income window;
          Summary.expense := total Expense window;
          Summary.balance := total Income window - total Expense window |}.
Proof.
  intros Hu. unfold summarize. by rewrite (Transaction_findAll_window_spec _ _ _ _ _ Hu).
Qed.

Lemma Double_summarize_window (u a b : Z) (table : list Transaction.t) :
  let window := filter (inWindow u a b) table in
  Double.summarize u a b (Double.ofTransaction <$> table)
  = {| Double.income := Double.total Income (Double.ofTransaction <$> window);
       Double.expense := Double.total Expense (Double.ofTransaction <$> window);
       Double.balance := (Double.total Income (Double.ofTransaction <$> window)
                          - Double.total Expense (Double.ofTransaction <$> window))%float |}.
Proof.
  intros window. unfold Double.summarize. rewrite filter_fmap_list.
  cbn [Double.userId Double.date Double.ofTransaction].
  by replace (filter _ table) with window by (by apply list_filter_iff).
Qed.

(** The summary of the code on whole amounts whose magnitudes sum to less
    than 2^53: its three doubles are the three whole numbers of the
    embedding. *)
Lemma Double_summarize_whole (userId : jsval) (u a b : Z) (s : Store)
  (summary : Summary.t) :
  sqlInteger userId = Some u ->
  exactSums (filter (inWindow u a b) (transactions s)) ->
  summarize userId a b s = Ok summary ->
  Double.summarize u a b (Double.ofTransaction <$> transactions s)
  = Double.ofSummary summary.
Proof.
  intros Hu Hexact. rewrite (summarize_of_window _ _ _ _ _ Hu). intros [= <-].
  rewrite Double_summarize_window. rewrite !Double_total_whole by done.
  unfold Double.ofSummary. cbn [Summary.income Summary.expense Summary.balance].
  pose proof (totals_bound (filter (inWindow u a b) (transactions s))) as Hbound.
  unfold exactSums in Hexact. by rewrite asDouble_sub by lia.
Qed.






Lemma summarize_sums (userId : jsval) (u a b : Z) (s : Store) :
  sqlInteger userId = Some u ->
  summarize userId a b s
  = Ok {| Summary.income :=
            sumZ (amountOfKind Income) (filter (inWindow u a b) (transactions s));
          Summary.expense :=
            sumZ (amountOfKind Expense) (filter (inWindow u a b) (transactions s));
          Summary.balance :=
            sumZ (amountOfKind Income) (filter (inWindow u a b) (transactions s))
            - sumZ (amountOfKind Expense) (filter (inWindow u a b) (transactions s)) |}.
Proof.
  intros Hu. unfold summarize. rewrite (Transaction_findAll_window_spec _ _ _ _ _ Hu).
  simpl. by rewrite !total_sumZ.
Qed.



(** ** The sign of stored amounts *)

Lemma Transaction_findOne_elem (id userId : jsval) (s : Store) (t : Transaction.t) :
  Transaction_findOne id userId s = Ok (Some t) ->
  t ∈ transactions s
  /\ sqlInteger id = Some (Transaction.id t)
  /\ sqlInteger userId = Some (Transaction.userId t).
Proof.
  unfold Transaction_findOne.
  destruct (sqlInteger id) as [i|]; simpl; [|done].
  destruct (sqlInteger userId) as [u|]; simpl; [|done].
  intros [= Hhead]. apply head_Some_elem_of in Hhead.
  apply list_elem_of_filter in Hhead as [[-> ->] Hin]. done.
Qed.

Lemma createTransaction_created (body : TransactionBody.t) (s s' : Store)
  (t : Transaction.t) :
  createTransaction body s = (Respond 201 (TransactionJson t), s') ->
  sqlFloat (TransactionBody.amount body) = Some (Transaction.amount t)
  /\ sqlInteger (TransactionBody.userId body) = Some (Transaction.userId t)
  /\ Transaction.id t = nextTransactionId s
  /\ transactions s' = (transactions s ++ [t])
  /\ nextTransactionId s' = nextTransactionId s + 1
  /\ categories s' = categories s
  /\ nextCategoryId s' = nextCategoryId s.
Proof.
  unfold createTransaction, Transaction_create.
  destruct (truthy (TransactionBody.userId body)); simpl; [|done].
  destruct (truthy (TransactionBody.type body)); simpl; [|done].
  destruct (includes _ _); simpl; [|done].
  repeat (match goal with
          | |- context [notNull ?a ?v] => destruct (notNull a v) as [[]|]; simpl; [|done]
          | |- context [coerce ?a ?o] =>
              let x := fresh "x" in
              let E := fresh "E" in
              destruct o as [x|] eqn:E; simpl; [|done]
          | |- context [reference ?s ?a ?b] => destruct (reference s a b) as [[]|]; simpl; [|done]
          end).
  intros [= <- <-]. simpl. done.
Qed.

Lemma createTransaction_cases (body : TransactionBody.t) (s : Store) :
  (exists t s', createTransaction body s = (Respond 201 (TransactionJson t), s'))
  \/ (createTransaction body s).2 = s.
Proof.
  unfold createTransaction.
  destruct (negb (truthy (TransactionBody.userId body))); [by right|].
  destruct (_ || _); [by right|].
  destruct (Transaction_create body s) as [[t s']|e]; simpl; [|by right].
  left. by exists t, s'.
Qed.

Lemma updated_value {A} (attribute : string) (read : jsval -> option A)
  (v : jsval) (old new : A) :
  updated attribute read v old = Ok new ->
  (v = JUndefined /\ new = old) \/ read v = Some new.
Proof.
  unfold updated. destruct v; simpl.
  - intros [= ->]. by left.
  - done.
  - destruct (read (JNum n)); simpl; [|done]. intros [= ->]. by right.
  - destruct (read (JStr s)); simpl; [|done]. intros [= ->]. by right.
Qed.

Lemma updateTransaction_updated (id : string) (body : TransactionBody.t)
  (s s' : Store) (t : Transaction.t) :
  updateTransaction id body s = (Respond 200 (TransactionJson t), s') ->
  exists old,
    old ∈ transactions s
    /\ Transaction.id t = Transaction.id old
    /\ ((TransactionBody.amount body = JUndefined
         /\ Transaction.amount t = Transaction.amount old)
        \/ sqlFloat (TransactionBody.amount body) = Some (Transaction.amount t))
    /\ transactions s'
       = (fun r => if Transaction.id r =? Transaction.id old then t else r)
           <$> transactions s
    /\ nextTransactionId s' = nextTransactionId s
    /\ categories s' = categories s
    /\ nextCategoryId s' = nextCategoryId s.
Proof.
  unfold updateTransaction.
  destruct (negb (truthy (TransactionBody.userId body))); [done|].
  destruct (Transaction_findOne _ _ s) as [[old|]|e] eqn:Hfind; [|done|done].
  apply Transaction_findOne_elem in Hfind as [Hin _].
  unfold Transaction_update.
  destruct (updated "userId" _ _ _) as [u|]; simpl; [|done].
  destruct (updated "amount" _ _ _) as [a|] eqn:Ha; simpl; [|done].
  destruct (updated "date" _ _ _) as [d|]; simpl; [|done].
  destruct (updated "categoryId" _ _ _) as [c|]; simpl; [|done].
  destruct (updated "type" _ _ _) as [k|]; simpl; [|done].
  destruct (reference s "users" _) as [[]|]; simpl; [|done].
  destruct (reference s "categories" _) as [[]|]; simpl; [|done].
  intros [= <- <-]. exists old. simpl.
  apply updated_value in Ha. done.
Qed.

Lemma updateTransaction_cases (id : string) (body : TransactionBody.t) (s : Store) :
  (exists t s', updateTransaction id body s = (Respond 200 (TransactionJson t), s'))
  \/ (updateTransaction id body s).2 = s.
Proof.
  unfold updateTransaction.
  destruct (negb (truthy (TransactionBody.userId body))); [by right|].
  destruct (Transaction_findOne _ _ s) as [[old|]|e]; [|by right|by right].
  destruct (Transaction_update old body s) as [[t s']|e]; simpl; [|by right].
  left. by exists t, s'.
Qed.




(** ** Deleting a category *)

Lemma deleteCategory_transactions (id : string) (userId : jsval) (s : Store) :
  transactions (deleteCategory id userId s).2 = transactions s.
Proof.
  unfold deleteCategory, Category_destroy.
  repeat case_match; simplify_eq/=; try done.
  all: destruct (reference s _ _) as [[]|]; simplify_eq/=. all: done.
Qed.

Lemma deleteCategory_deleted (id : string) (userId : jsval) (s s' : Store) :
  deleteCategory id userId s = (Respond 204 NoContent, s') ->
  exists category,
    category ∈ categories s
    /\ sqlInteger (JStr id) = Some (Category.id category)
    /\ categories s'
       = filter (fun r => Category.id r <> Category.id category) (categories s)
    /\ nextCategoryId s' = nextCategoryId s.
Proof.
  unfold deleteCategory.
  destruct (negb (truthy userId)); [done|].
  destruct (Category_findOne (JStr id) s) as [[category|]|e] eqn:Hfind; [|done|done].
  destruct (negb (strictEq _ _)); [done|].
  unfold Category_destroy.
  destruct (reference s _ _) as [[]|]; simpl; [|done].
  intros [= <-].
  unfold Category_findOne in Hfind.
  destruct (sqlInteger (JStr id)) as [i|] eqn:Hid; simpl in Hfind; [|done].
  injection Hfind as Hhead. apply head_Some_elem_of in Hhead.
  apply list_elem_of_filter in Hhead as [Hi Hin].
  exists category. rewrite Hi. done.
Qed.

Lemma deleteCategory_cases (id : string) (userId : jsval) (s : Store) :
  (exists s', deleteCategory id userId s = (Respond 204 NoContent, s'))
  \/ (deleteCategory id userId s).2 = s.
Proof.
  unfold deleteCategory.
  destruct (negb (truthy userId)); [by right|].
  destruct (Category_findOne (JStr id) s) as [[category|]|e]; [|by right|by right].
  destruct (negb (strictEq _ _)); [by right|].
  destruct (Category_destroy category s) as [s'|e]; [|by right].
  left. by exists s'.
Qed.

Lemma handle_categories (r : Request) (s : Store) :
  let s' := (handle r s).2 in
  (categories s' = categories s /\ nextCategoryId s' = nextCategoryId s)
  \/ (exists row,
        categories s' = (categories s ++ [row])
        /\ Category.id row = nextCategoryId s
        /\ nextCategoryId s' = nextCategoryId s + 1)
  \/ (exists c,
        categories s' = filter (fun r => Category.id r <> c) (categories s)
        /\ nextCategoryId s' = nextCategoryId s).
Proof.
  destruct r; simpl.
  - destruct (createTransaction_cases body s) as [(t & s' & Hc)| ->]; [|by left].
    rewrite Hc. apply createTransaction_created in Hc as (_ & _ & _ & _ & _ & ? & ?).
    by left.
  - destruct (updateTransaction_cases id body s) as [(t & s' & Hu)| ->]; [|by left].
    rewrite Hu. apply updateTransaction_updated in Hu as (? & _ & _ & _ & _ & _ & ? & ?).
    by left.
  - unfold deleteTransaction. repeat case_match; simplify_eq/=; by left.
  - unfold createCategory, Category_create.
    destruct (_ || _); [by left|].
    destruct (notNull "name" name) as [[]|]; simpl; [|by left].
    destruct (coerce "name" _) as [n|]; simpl; [|by left].
    destruct (if isNullish userId then _ else _) as [u|]; simpl; [|by left].
    destruct (reference s _ _) as [[]|]; simpl; [|by left].
    right. left. eexists. simpl. done.
  - destruct (deleteCategory_cases id userId s) as [[s' Hd]| ->]; [|by left].
    rewrite Hd. apply deleteCategory_deleted in Hd as (category & _ & _ & ? & ?).
    right. right. by exists (Category.id category).
  - unfold generateAndSaveSuggestion.
    destruct (negb (truthy prompt)); [by left|].
    destruct (negb (truthy userId)); [by left|].
    unfold aiService.generateAndSave, AISuggestion_create.
    destruct (callLLM provider prompt) as [response|[]]; simpl; try (by left).
    destruct (notNull "userId" userId) as [[]|[]]; simpl; try (by left).
    destruct (notNull "prompt" prompt) as [[]|[]]; simpl; try (by left).
    destruct (coerce "userId" _) as [u|[]]; simpl; try (by left).
    destruct (reference s _ _) as [[]|[]]; simpl; by left.
Qed.



Lemma foldl_insert_lookup_None (l : list Category.t) (m : gmap Z string) (k : Z) :
  foldl (fun acc cat => <[Category.id cat := Category.name cat]> acc) m l !! k = None
  <-> m !! k = None /\ k ∉ (Category.id <$> l).
Proof.
  revert m. induction l as [|c l IH]; intros m; simpl.
  - split; [intros ?; split; [done|apply not_elem_of_nil]|by intros [? _]].
  - rewrite IH, lookup_insert_None, not_elem_of_cons.
    split; [intros [[? ?] ?]|intros [? [? ?]]]; repeat split; done.
Qed.

Lemma buildCategoryMap_lookup_None (l : list Category.t) (k : Z) :
  buildCategoryMap l !! k = None <-> k ∉ (Category.id <$> l).
Proof.
  unfold buildCategoryMap. rewrite foldl_insert_lookup_None, lookup_empty. tauto.
Qed.







(** ** The calendar *)

Lemma monthStart_normal (era yoe mp : Z) :
  0 <= yoe < 400 -> 0 <= mp < 12 ->
  monthStart (12 * (era * 400 + yoe) + mp)
  = era * 146097 + (yoe * 365 + yoe / 4 - yoe / 100 + (153 * mp + 2) / 5) - 719468.
Proof.
  intros Hy Hm. unfold monthStart.
  replace ((12 * (era * 400 + yoe) + mp) / 12) with (era * 400 + yoe)
    by (Z.div_mod_to_equations; lia).
  replace ((12 * (era * 400 + yoe) + mp) mod 12) with mp
    by (Z.div_mod_to_equations; lia).
  replace ((era * 400 + yoe) / 400) with era by (Z.div_mod_to_equations; lia).
  replace (era * 400 + yoe - era * 400) with yoe by lia. reflexivity.
Qed.

Lemma daysFromCivil_monthStart (y m d : Z) :
  1 <= m <= 12 -> daysFromCivil y m d = monthStart (monthIndex y m) + d - 1.
Proof.
  intros Hm. unfold daysFromCivil, monthStart, monthIndex.
  destruct (Z.leb_spec m 2), (Z.ltb_spec 2 m); try lia.
  - replace ((12 * y + m - 3) / 12) with (y - 1) by (Z.div_mod_to_equations; lia).
    replace ((12 * y + m - 3) mod 12) with (m + 9) by (Z.div_mod_to_equations; lia).
    lia.
  - replace ((12 * y + m - 3) / 12) with y by (Z.div_mod_to_equations; lia).
    replace ((12 * y + m - 3) mod 12) with (m - 3) by (Z.div_mod_to_equations; lia).
    lia.
Qed.

Lemma monthStart_step (k : Z) : monthStart k < monthStart (k + 1).
Proof. unfold monthStart. Z.div_mod_to_equations. lia. Qed.

Lemma monthStart_mono (k k' : Z) : k <= k' -> monthStart k <= monthStart k'.
Proof.
  intros Hle. replace k' with (k + (k' - k)) by lia.
  assert (0 <= k' - k) as Hn by lia. generalize (k' - k) Hn. clear.
  apply natlike_ind; [rewrite Z.add_0_r; lia|].
  intros x Hx IH. pose proof (monthStart_step (k + x)).
  replace (k + Z.succ x) with (k + x + 1) by lia. lia.
Qed.

(** The year of an era of 400 years from the day of the era. *)
Lemma yearOfEra_bounds (doe : Z) :
  0 <= doe < 146097 ->
  let yoe := (doe - doe / 1460 + doe / 36524 - doe / 146096) / 365 in
  0 <= yoe <= 399
  /\ yoe * 365 + yoe / 4 - yoe / 100 <= doe
  /\ (yoe < 399 -> doe < (yoe + 1) * 365 + (yoe + 1) / 4 - (yoe + 1) / 100).
Proof. intros Hdoe yoe. subst yoe. Z.div_mod_to_equations. lia. Qed.

(** The month of the March-based year from the day of that year. *)
Lemma monthOfYear_bounds (doy : Z) :
  0 <= doy <= 365 ->
  let mp := (5 * doy + 2) / 153 in
  0 <= mp <= 11
  /\ (153 * mp + 2) / 5 <= doy
  /\ (mp < 11 -> doy < (153 * (mp + 1) + 2) / 5).
Proof. intros Hdoy mp. subst mp. Z.div_mod_to_equations. lia. Qed.

(** A day lies in the month [civilFromDays] gives it: on the day of the
    month it gives, and before the first day of the next month. *)
Lemma civilFromDays_spec (z y m d : Z) :
  civilFromDays z = (y, m, d) ->
  1 <= m <= 12 /\ 1 <= d
  /\ monthStart (monthIndex y m) + d - 1 = z
  /\ z < monthStart (monthIndex y m + 1).
Proof.
  unfold civilFromDays, monthIndex.
  set (z' := z + 719468). set (era := z' / 146097). set (doe := z' - era * 146097).
  set (yoe := (doe - doe / 1460 + doe / 36524 - doe / 146096) / 365).
  set (doy := doe - (365 * yoe + yoe / 4 - yoe / 100)).
  set (mp := (5 * doy + 2) / 153).
  intros Hcivil.
  assert (0 <= doe < 146097) as Hdoe by (subst doe era; Z.div_mod_to_equations; lia).
  destruct (yearOfEra_bounds doe Hdoe) as (Hy & HD & HD'). fold yoe in Hy, HD, HD'.
  assert (0 <= doy <= 365) as Hdoy.
  { subst doy. destruct (Z.eq_dec yoe 399) as [E|E].
    - rewrite E in *. change (399 / 4) with 99 in *. change (399 / 100) with 3 in *. lia.
    - pose proof (HD' ltac:(lia)) as Hnext. revert Hnext. Z.div_mod_to_equations. lia. }
  destruct (monthOfYear_bounds doy Hdoy) as (Hmp & HM & HM'). fold mp in Hmp, HM, HM'.
  assert (12 * y + m - 3 = 12 * (era * 400 + yoe) + mp) as Hk.
  { destruct (Z.ltb_spec mp 10); injection Hcivil as <- <- <-;
      destruct (Z.leb_spec (mp + 3) 2), (Z.leb_spec (mp - 9) 2); lia. }
  rewrite Hk, monthStart_normal by lia.
  assert (z = era * 146097 + doe - 719468) as Hz by (subst doe z'; lia).
  split; [destruct (Z.ltb_spec mp 10); injection Hcivil as <- <- <-; lia|].
  split; [injection Hcivil as <- <- <-; lia|].
  split; [injection Hcivil as <- <- <-; subst doy; lia|].
  destruct (Z.eq_dec mp 11) as [Emp|Emp].
  - destruct (Z.eq_dec yoe 399) as [Ey|Ey].
    + replace (12 * (era * 400 + yoe) + mp + 1) with (12 * ((era + 1) * 400 + 0) + 0)
        by lia.
      rewrite monthStart_normal by lia. Z.div_mod_to_equations. lia.
    + replace (12 * (era * 400 + yoe) + mp + 1) with (12 * (era * 400 + (yoe + 1)) + 0)
        by lia.
      rewrite monthStart_normal by lia.
      pose proof (HD' ltac:(lia)) as Hnext. revert Hnext. Z.div_mod_to_equations. lia.
  - replace (12 * (era * 400 + yoe) + mp + 1) with (12 * (era * 400 + yoe) + (mp + 1))
      by lia.
    rewrite monthStart_normal by lia.
    pose proof (HM' ltac:(lia)). subst doy. lia.
Qed.

(** A day is of month [m] of year [y] exactly when it lies from the first
    day of that month up to, and not including, the first day of the
    next. *)
Lemma yearMonth_window (z y m : Z) :
  1 <= m <= 12 ->
  (civilFromDays z).1 = (y, m)
  <-> monthStart (monthIndex y m) <= z < monthStart (monthIndex y m + 1).
Proof.
  intros Hm. destruct (civilFromDays z) as [[y' m'] d'] eqn:E. simpl.
  apply civilFromDays_spec in E as (Hm' & Hd & Hz & Hlt).
  unfold monthIndex in *. split.
  - intros [= <- <-]. lia.
  - intros [Hlo Hhi].
    assert (12 * y' + m' - 3 = 12 * y + m - 3) as Hk; [|f_equal; lia].
    destruct (Z.lt_trichotomy (12 * y' + m' - 3) (12 * y + m - 3)) as [Hc|[Hc|Hc]];
      [|done|].
    + pose proof (monthStart_mono (12 * y' + m' - 3 + 1) (12 * y + m - 3) ltac:(lia)).
      lia.
    + pose proof (monthStart_mono (12 * y + m - 3 + 1) (12 * y' + m' - 3) ltac:(lia)).
      lia.
Qed.

Lemma MakeDay_monthStart (year month date : Z) :
  MakeDay year month date = monthStart (12 * year + month - 2) + date - 1.
Proof.
  unfold MakeDay.
  rewrite daysFromCivil_monthStart by (Z.div_mod_to_equations; lia).
  replace (monthIndex (year + month / 12) (month mod 12 + 1))
    with (12 * year + month - 2)
    by (unfold monthIndex; Z.div_mod_to_equations; lia).
  lia.
Qed.

Lemma civilFromDays_monthStart (y m : Z) :
  1 <= m <= 12 -> civilFromDays (monthStart (monthIndex y m)) = (y, m, 1).
Proof.
  intros Hm.
  destruct (civilFromDays (monthStart (monthIndex y m))) as [[y' m'] d'] eqn:E.
  pose proof (proj2 (yearMonth_window (monthStart (monthIndex y m)) y m Hm)) as Hym.
  rewrite E in Hym. simpl in Hym.
  pose proof (monthStart_step (monthIndex y m)).
  injection (Hym ltac:(lia)) as -> ->.
  apply civilFromDays_spec in E as (_ & _ & Hz & _).
  do 2 f_equal. lia.
Qed.

(** ** The bounds of the summary windows *)

(** West of Greenwich the first of the month at midnight UTC is still the
    last day of the month before, and [setMonth] carries its day into the
    month after: for February 2025 and a server five hours behind UTC the
    window of [monthlySummary] ends on the fourth of March. *)
Example monthlySummary_endDate_west_of_UTC :
  parseISODate "2025-02-01T00:00:00.000Z" = Some 1738368000000
  /\ toISOString (setMonth (-18000000) 1738368000000
                           (getMonth (-18000000) 1738368000000 + 1))
     = "2025-03-04T00:00:00.000Z".
Proof. split; vm_compute; reflexivity. Qed.

Lemma startOfThisMonth_le_now (tz now : Z) :
  ~ (0 <= getFullYear tz now <= 99) ->
  newDateLocal tz (getFullYear tz now) (getMonth tz now) 1 <= now.
Proof.
  unfold newDateLocal, getFullYear, getMonth, YearFromTime, MonthFromTime.
  unfold LocalTime, UTC, MakeDate.
  destruct (civilFromDays (Day (now + tz))) as [[y m] d] eqn:E. simpl.
  intros Hyear. apply civilFromDays_spec in E as (Hm & Hd & Hz & _).
  destruct (Z.leb_spec 0 y), (Z.leb_spec y 99); simpl; try lia;
    rewrite MakeDay_monthStart;
    replace (12 * y + (m - 1) - 2) with (monthIndex y m) by (unfold monthIndex; lia);
    revert Hz; unfold Day, msPerDay; Z.div_mod_to_equations; lia.
Qed.

Lemma foldl_accumulate (l : list Transaction.t) (acc : Z * Z) :
  foldl accumulate acc l
  = (acc.1 + sumZ (amountOfKind Income) l, acc.2 + sumZ (amountOfKind Expense) l).
Proof.
  revert acc. induction l as [|t l IH]; intros [i e]; simpl.
  - f_equal; lia.
  - rewrite IH. unfold accumulate, amountOfKind.
    destruct (Transaction.type t); simpl; f_equal; lia.
Qed.

Lemma getMonthlySummary_sums (tz now : Z) (userId : jsval) (u : Z) (s : Store) :
  truthy userId = true ->
  sqlInteger userId = Some u ->
  let monthToDate :=
    filter (fun r => Transaction.userId r = u
                     /\ newDateLocal tz (getFullYear tz now) (getMonth tz now) 1
                        <= Transaction.date r <= now)
           (transactions s) in
  getMonthlySummary tz now userId s
  = Respond 200
      (SummaryJson (sumZ (amountOfKind Income) monthToDate)
                   (sumZ (amountOfKind Expense) monthToDate)
                   (sumZ (amountOfKind Income) monthToDate
                    - sumZ (amountOfKind Expense) monthToDate)).
Proof.
  intros Htruthy Hu. unfold getMonthlySummary, Transaction_findAll_between.
  rewrite Htruthy, Hu. cbn [negb coerce mbind Result_bind].
  rewrite foldl_accumulate. reflexivity.
Qed.

Lemma filter_snoc_True {A} (P : A -> Prop) `{!forall x, Decision (P x)}
  (l : list A) (x : A) :
  P x -> filter P (l ++ [x]) = filter P l ++ [x].
Proof. intros HP. rewrite filter_app. f_equal. by rewrite filter_cons_True. Qed.

Lemma filter_snoc_False {A} (P : A -> Prop) `{!forall x, Decision (P x)}
  (l : list A) (x : A) :
  ~ P x -> filter P (l ++ [x]) = filter P l.
Proof.
  intros HP. rewrite filter_app, filter_cons_False by done.
  by rewrite filter_nil, app_nil_r.
Qed.

(** C2, as the code has it.  The window of [summarize] is half-open: a
    transaction of the user dated exactly at its start is counted, one dated
    exactly at its end is not.  The range of [getMonthlySummary], from the
    start of the current month to now, includes both of its bounds: a
    transaction dated exactly now is counted.  (The current year is taken
    outside 0..99, which [new Date(year, month, 1)] reads as 1900 + year.) *)
Theorem summary_window_bounds (userId : jsval) (u : Z) (t : Transaction.t) (s : Store) :
  sqlInteger userId = Some u ->
  Transaction.userId t = u ->
  (forall startDate endDate,
     startDate < endDate ->
     (Transaction.date t = startDate ->
      summarize userId startDate endDate (withTransaction t s)
      = (x ← summarize userId startDate endDate s; Ok (counting t x)))
     /\ (Transaction.date t = endDate ->
         summarize userId startDate endDate (withTransaction t s)
         = summarize userId startDate endDate s))
  /\ (forall tz now,
        truthy userId = true ->
        ~ (0 <= getFullYear tz now <= 99) ->
        Transaction.date t = now ->
        exists income expenses,
          getMonthlySummary tz now userId s
          = Respond 200 (SummaryJson income expenses (income - expenses))
          /\ getMonthlySummary tz now userId (withTransaction t s)
             = Respond 200
                 (SummaryJson (income + amountOfKind Income t)
                              (expenses + amountOfKind Expense t)
                              (income + amountOfKind Income t
                               - (expenses + amountOfKind Expense t)))).
Proof.
  intros Hu Howner. split.
  - intros startDate endDate Horder. split; intros Hdate.
    + rewrite !(summarize_sums _ _ _ _ _ Hu).
      cbn [mbind Result_bind withTransaction setTransactions transactions].
      rewrite !filter_snoc_True by (unfold inWindow; lia).
      rewrite !sumZ_app. unfold counting, sumZ. cbn [foldr]. unfold amountOfKind.
      destruct (Transaction.type t); simpl; do 2 f_equal; lia.
    + rewrite !(summarize_sums _ _ _ _ _ Hu).
      cbn [withTransaction setTransactions transactions].
      by rewrite !filter_snoc_False by (unfold inWindow; lia).
  - intros tz now Htruthy Hyear Hdate.
    pose proof (startOfThisMonth_le_now tz now Hyear) as Hstart.
    eexists _, _. split; [by apply getMonthlySummary_sums|].
    rewrite (getMonthlySummary_sums _ _ _ _ _ Htruthy Hu).
    cbn [withTransaction setTransactions transactions].
    rewrite !filter_snoc_True by lia.
    rewrite !sumZ_app. unfold sumZ. cbn [foldr]. do 2 f_equal; lia.
Qed.

Lemma summary_window_bounds_witness :
  summarize (JStr "1") 1754006400000 1756684800000
    (withTransaction expenseOnAugustFirst (sampleStore true))
  = Ok {| Summary.income := 0; Summary.expense := 40; Summary.balance := -40 |}
  /\ summarize (JStr "1") 1751328000000 1754006400000
       (withTransaction expenseOnAugustFirst (sampleStore true))
     = Ok {| Summary.income := 0; Summary.expense := 0; Summary.balance := 0 |}
  /\ getMonthlySummary 0 1754006400000 (JStr "1")
       (withTransaction expenseOnAugustFirst (sampleStore true))
     = Respond 200 (SummaryJson 0 40 (-40)).
Proof.
  destruct (summary_window_bounds (JStr "1") 1 expenseOnAugustFirst (sampleStore true)
              eq_refl eq_refl) as [Hwindow Hrange].
  split; [|split].
  - destruct (Hwindow 1754006400000 1756684800000 ltac:(lia)) as [Hstart _].
    rewrite Hstart; reflexivity.
  - destruct (Hwindow 1751328000000 1754006400000 ltac:(lia)) as [_ Hend].
    rewrite Hend; reflexivity.
  - destruct (Hrange 0 1754006400000 eq_refl) as (income & expenses & Hbefore & Hafter);
      [change (getFullYear 0 1754006400000) with 2025; lia|reflexivity|].
    rewrite Hafter. vm_compute in Hbefore. injection Hbefore as <- <-. reflexivity.
Defined.

(** C2 fails as stated for the month-to-date summary: a transaction dated
    exactly at the end of its range, the current time, is counted.  At
    2025-08-01T00:00:00.000Z the summary of the example's store reports the
    expense of 40 that is dated at that very instant. *)
Lemma getMonthlySummary_counts_window_end :
  Transaction.date augustExpense = 1754006400000
  /\ augustExpense ∈ transactions (julyStore true)
  /\ getMonthlySummary 0 1754006400000 (JStr "1") (julyStore true)
     = Respond 200 (SummaryJson 0 40 (-40))
  /\ ~ (forall (tz now : Z) (userId : jsval) (s : Store) (t : Transaction.t),
          Transaction.date t = now ->
          getMonthlySummary tz now userId (withTransaction t s)
          = getMonthlySummary tz now userId s).
Proof.
  split; [reflexivity|]. split; [compute_done|]. split; [vm_compute; reflexivity|].
  intros Hclaim.
  specialize (Hclaim 0 1754006400000 (JStr "1") (sampleStore true)
                expenseOnAugustFirst eq_refl).
  vm_compute in Hclaim. discriminate Hclaim.
Qed.


(** ** The breakdown per category *)

Lemma sumOfLabels_empty : sumOfLabels ∅ = 0.
Proof. unfold sumOfLabels. by rewrite map_fold_empty. Qed.

Lemma sumOfLabels_insert_fresh (data : gmap string Z) (name : string) (a : Z) :
  data !! name = None ->
  sumOfLabels (<[name := a]> data) = sumOfLabels data + a.
Proof.
  intros Hfresh. unfold sumOfLabels.
  rewrite map_fold_insert_L; [done| |done].
  intros. lia.
Qed.

(** [data[name] = (data[name] || 0) + amount] adds [amount] to the sum over
    all labels. *)
Lemma sumOfLabels_add (data : gmap string Z) (name : string) (a : Z) :
  sumOfLabels (<[name := default 0 (data !! name) + a]> data) = sumOfLabels data + a.
Proof.
  destruct (data !! name) as [v|] eqn:Hlookup; simpl.
  - rewrite <- insert_delete_eq.
    rewrite sumOfLabels_insert_fresh by apply lookup_delete_eq.
    assert (sumOfLabels data = sumOfLabels (delete name data) + v) as ->; [|lia].
    unfold sumOfLabels.
    by rewrite (map_fold_delete_L _ _ name v data) by (try done; intros; lia).
  - by rewrite sumOfLabels_insert_fresh.
Qed.

Lemma sumOfLabels_aggregate (categoryMap : gmap Z string)
  (l : list Transaction.t) (data : gmap string Z * gmap string Z) :
  sumOfLabels (foldl (aggregate categoryMap) data l).1
  = sumOfLabels data.1 + sumZ (amountOfKind Income) l
  /\ sumOfLabels (foldl (aggregate categoryMap) data l).2
     = sumOfLabels data.2 + sumZ (fun t => Z.abs (amountOfKind Expense t)) l.
Proof.
  revert data. induction l as [|t l IH]; intros data.
  - simpl. lia.
  - cbn [foldl sumZ foldr]. destruct (IH (aggregate categoryMap data t)) as [-> ->].
    unfold aggregate, amountOfKind, sumZ.
    destruct (Transaction.type t); simpl; rewrite sumOfLabels_add; lia.
Qed.

Lemma filter_bool {A} (p : A -> bool) (l : list A) :
  List.filter p l = filter (fun x => p x = true) l.
Proof.
  induction l as [|x l IH]; [done|].
  simpl. rewrite filter_cons. destruct (p x) eqn:E.
  - rewrite decide_True by done. by f_equal.
  - rewrite decide_False by congruence. done.
Qed.

Lemma sumZ_ext {A} (f g : A -> Z) (l : list A) :
  (forall x, x ∈ l -> f x = g x) -> sumZ f l = sumZ g l.
Proof.
  induction l as [|x l IH]; intros Hfg; [done|].
  unfold sumZ in *. simpl. rewrite Hfg by left. rewrite IH; [done|].
  intros y Hy. apply Hfg. by right.
Qed.

(** ** The text of dates *)

Lemma digitOf_Some (c : ascii) (d : Z) :
  digitOf c = Some d -> 0 <= d <= 9 /\ c = digitChar d.
Proof.
  unfold digitOf, digitChar, codeOf.
  destruct (Z.leb_spec 48 (Z.of_nat (nat_of_ascii c))),
           (Z.leb_spec (Z.of_nat (nat_of_ascii c)) 57); simpl; try done.
  intros [= <-]. split; [lia|].
  rewrite Z.mod_small by lia.
  replace (48 + (Z.of_nat (nat_of_ascii c) - 48)) with (Z.of_nat (nat_of_ascii c)) by lia.
  by rewrite Nat2Z.id, ascii_nat_embedding.
Qed.

Lemma digitChar_eq_iff (a b : Z) :
  0 <= a <= 9 -> (digitChar a = digitChar b <-> a = b mod 10).
Proof.
  intros Ha. unfold digitChar. split.
  - intros E. apply (f_equal nat_of_ascii) in E.
    rewrite !nat_ascii_embedding in E by (pose proof (Z.mod_pos_bound a 10); pose proof (Z.mod_pos_bound b 10); lia).
    rewrite Z.mod_small in E by lia.
    pose proof (Z.mod_pos_bound b 10). lia.
  - intros ->. by rewrite Z.mod_mod.
Qed.

Lemma digitChar_not_sign (d : Z) : digitChar d <> "-"%char /\ digitChar d <> "+"%char.
Proof.
  unfold digitChar. pose proof (Z.mod_pos_bound d 10 ltac:(lia)).
  split; intros E; apply (f_equal nat_of_ascii) in E;
    rewrite nat_ascii_embedding in E by lia;
    [change (nat_of_ascii "-") with 45%nat in E
    |change (nat_of_ascii "+") with 43%nat in E]; lia.
Qed.

Lemma readDigits_length (n : nat) (s : string) (acc v : Z) (rest : string) :
  readDigits n s acc = Some (v, rest) ->
  String.length s = (n + String.length rest)%nat.
Proof.
  revert s acc. induction n as [|n IH]; intros s acc; simpl.
  - by intros [= _ ->].
  - destruct s as [|c s]; [done|]. destruct (digitOf c); [|done].
    intros H. apply IH in H. simpl. lia.
Qed.

Lemma expect_length (c : ascii) (s rest : string) :
  expect c s = Some rest -> String.length s = S (String.length rest).
Proof.
  destruct s as [|c' s]; simpl; [done|]. destruct (Ascii.eqb c c'); [|done].
  by intros [= ->].
Qed.

Lemma parseISODate_length (s : string) (t : Z) :
  parseISODate s = Some t -> String.length s = 10%nat \/ String.length s = 24%nat.
Proof.
  unfold parseISODate. intros H.
  repeat match type of H with
  | context [readDigits ?n ?s ?a] =>
      let E := fresh "E" in
      destruct (readDigits n s a) as [[? ?]|] eqn:E;
      cbn [mbind option_bind] in H; [|discriminate];
      apply readDigits_length in E
  | context [expect ?c ?s] =>
      let E := fresh "E" in
      destruct (expect c s) as [?|] eqn:E;
      cbn [mbind option_bind] in H; [|discriminate];
      apply expect_length in E
  | (if ?b then _ else _) = _ => destruct b; [try discriminate|try discriminate]
  | match ?s with EmptyString => _ | String _ _ => _ end = _ =>
      destruct s; [try discriminate|try discriminate]
  end.
  all: simpl in *; lia.
Qed.

Lemma append_length (s1 s2 : string) :
  String.length (s1 +:+ s2) = (String.length s1 + String.length s2)%nat.
Proof. induction s1 as [|c s1 IH]; simpl; [done|]. by rewrite IH. Qed.

Lemma parseISODate_month (month : string) (start : Z) :
  parseISODate (month +:+ "-01T00:00:00.000Z") = Some start ->
  exists d1 d2 d3 d4 d5 d6,
    (0 <= d1 <= 9 /\ 0 <= d2 <= 9 /\ 0 <= d3 <= 9 /\ 0 <= d4 <= 9
     /\ 0 <= d5 <= 9 /\ 0 <= d6 <= 9)
    /\ month = monthText d1 d2 d3 d4 d5 d6
    /\ 1 <= d5 * 10 + d6 <= 12
    /\ start
       = MakeDate (MakeDay (((d1 * 10 + d2) * 10 + d3) * 10 + d4) (d5 * 10 + d6 - 1) 1) 0.
Proof.
  intros H. pose proof (parseISODate_length _ _ H) as Hlen.
  rewrite append_length in Hlen. simpl in Hlen.
  assert (String.length month = 7%nat) as Hseven by lia. clear Hlen.
  do 8 (destruct month as [|? month]; [try discriminate Hseven|]);
    [|discriminate Hseven].
  clear Hseven. unfold parseISODate in H.
  change (String ?a ?s +:+ ?t) with (String a (s +:+ t)) in H.
  repeat change (String ?a ?s +:+ ?t) with (String a (s +:+ t)) in H.
  change ("" +:+ ?t) with t in H.
  cbn [readDigits mbind option_bind expect] in H.
  repeat match type of H with
  | context [digitOf ?c] =>
      is_var c;
      let d := fresh "d" in
      let E := fresh "E" in
      destruct (digitOf c) as [d|] eqn:E;
      cbn [readDigits mbind option_bind expect String.append] in H; [|discriminate];
      apply digitOf_Some in E as [? ->]
  | context [Ascii.eqb "-" ?c] =>
      is_var c;
      let E := fresh "E" in
      destruct (Ascii.eqb "-" c) eqn:E;
      cbn [readDigits mbind option_bind expect String.append] in H; [|discriminate];
      apply Ascii.eqb_eq in E as <-
  end.
  simpl in H.
  match type of H with
  | (if negb ?b then _ else _) = _ => destruct b eqn:Hrange; simpl in H; [|discriminate]
  end.
  injection H as <-.
  exists d, d0, d1, d2, d3, d4.
  split; [tauto|]. split; [reflexivity|].
  split; [lia|].
  change (codeOf "0") with 48. change (codeOf "1") with 49.
  reflexivity.
Qed.

Ltac norm_append :=
  repeat first
    [ progress change (String ?a ?s +:+ ?r) with (String a (s +:+ r))
    | progress change ("" +:+ ?r) with r ].

Lemma prefix_String (a b : ascii) (s1 s2 : string) :
  String.prefix (String a s1) (String b s2) = true
  <-> a = b /\ String.prefix s1 s2 = true.
Proof.
  simpl. destruct (ascii_dec a b) as [->|Hne]; [tauto|].
  split; [discriminate|]. intros [? _]. done.
Qed.

Lemma padDigits_4 (v : Z) :
  padDigits 4 v
  = String (digitChar (v / 10 / 10 / 10)) (String (digitChar (v / 10 / 10))
      (String (digitChar (v / 10)) (String (digitChar v) ""))).
Proof. reflexivity. Qed.

Lemma padDigits_2 (v : Z) :
  padDigits 2 v = String (digitChar (v / 10)) (String (digitChar v) "").
Proof. reflexivity. Qed.

(** The ISO text of a time starts with the text of a month exactly when
    the time is of that month, in UTC. *)
Lemma startsWith_month (t d1 d2 d3 d4 d5 d6 : Z) :
  0 <= d1 <= 9 -> 0 <= d2 <= 9 -> 0 <= d3 <= 9 -> 0 <= d4 <= 9 ->
  0 <= d5 <= 9 -> 0 <= d6 <= 9 ->
  startsWith (toISOString t) (monthText d1 d2 d3 d4 d5 d6) = true
  <-> (civilFromDays (Day t)).1
      = (((d1 * 10 + d2) * 10 + d3) * 10 + d4, d5 * 10 + d6).
Proof.
  intros H1 H2 H3 H4 H5 H6. unfold startsWith, toISOString, monthText.
  destruct (civilFromDays (Day t)) as [[y m] d] eqn:E.
  apply civilFromDays_spec in E as (Hm & _). cbn [fst].
  destruct ((0 <=? y) && (y <=? 9999)) eqn:Hrange.
  - rewrite padDigits_4, padDigits_2.
    norm_append.
    rewrite !prefix_String, !digitChar_eq_iff by done.
    split.
    + intros (E1 & E2 & E3 & E4 & _ & E5 & E6 & _). f_equal.
      * revert E1 E2 E3 E4. Z.div_mod_to_equations. lia.
      * revert E5 E6. Z.div_mod_to_equations. lia.
    + intros [= -> ->]. repeat split; try done; Z.div_mod_to_equations; lia.
  - split.
    + destruct (y <? 0); norm_append; rewrite prefix_String; intros [Hc _];
        by destruct (digitChar_not_sign d1) as [? ?].
    + intros [= -> ->]. lia.
Qed.


Lemma Day_monthStart (k : Z) :
  Day (monthStart k * msPerDay) = monthStart k
  /\ TimeWithinDay (monthStart k * msPerDay) = 0.
Proof.
  unfold Day, TimeWithinDay, msPerDay. split.
  - by rewrite Z.div_mul.
  - by rewrite Z.mod_mul.
Qed.

(** With the server in UTC, the window of [monthlySummary] for month [m] of
    year [y] runs from the first day of the month to the first day of the
    next. *)
Lemma monthlySummary_window (y m : Z) :
  1 <= m <= 12 ->
  let startDate := MakeDate (MakeDay y (m - 1) 1) 0 in
  startDate = monthStart (monthIndex y m) * msPerDay
  /\ setMonth 0 startDate (getMonth 0 startDate + 1)
     = monthStart (monthIndex y m + 1) * msPerDay.
Proof.
  intros Hm startDate.
  assert (startDate = monthStart (monthIndex y m) * msPerDay) as Hstart.
  { unfold startDate, MakeDate. rewrite MakeDay_monthStart.
    replace (12 * y + (m - 1) - 2) with (monthIndex y m) by (unfold monthIndex; lia).
    lia. }
  split; [exact Hstart|]. rewrite Hstart.
  destruct (Day_monthStart (monthIndex y m)) as [HDay Htime].
  unfold setMonth, getMonth, LocalTime, UTC, YearFromTime, MonthFromTime, DateFromTime.
  rewrite Z.add_0_r, HDay, Htime, (civilFromDays_monthStart y m Hm). cbn [fst snd].
  unfold MakeDate. rewrite MakeDay_monthStart.
  replace (12 * y + (m - 1 + 1) - 2) with (monthIndex y m + 1)
    by (unfold monthIndex; lia).
  lia.
Qed.

(** The report page's test on the ISO text selects the transactions of the
    window of [monthlySummary] for the same month. *)
Lemma inSelectedMonth_window (month : string) (startDate : Z) (t : Transaction.t) :
  parseISODate (month +:+ "-01T00:00:00.000Z") = Some startDate ->
  inSelectedMonth month t = true
  <-> startDate <= Transaction.date t
      < setMonth 0 startDate (getMonth 0 startDate + 1).
Proof.
  intros Hparse.
  apply parseISODate_month in Hparse
    as (d1 & d2 & d3 & d4 & d5 & d6 & (H1 & H2 & H3 & H4 & H5 & H6) & -> & Hm & ->).
  destruct (monthlySummary_window (((d1 * 10 + d2) * 10 + d3) * 10 + d4)
              (d5 * 10 + d6) Hm) as [-> ->].
  unfold inSelectedMonth. rewrite startsWith_month by done.
  rewrite (yearMonth_window _ _ _ Hm).
  unfold Day, msPerDay. split; intros Hw; revert Hw; Z.div_mod_to_equations; lia.
Qed.

Lemma sqlInteger_truthy (u : string) (n : Z) :
  sqlInteger (JStr u) = Some n -> truthy (JStr u) = true.
Proof. destruct u; [discriminate|done]. Qed.

Lemma loadData_loaded (u : string) (n : Z) (selectedMonth : string) (s : Store) :
  sqlInteger (JStr u) = Some n ->
  let categoryMap :=
    buildCategoryMap
      (filter (fun c => Category.userId c = None \/ Category.userId c = Some n)
              (categories s)) in
  let filtered :=
    List.filter (inSelectedMonth selectedMonth)
      (filter (fun t => Transaction.userId t = n) (transactions s)) in
  loadData (Some u) s (newReportsComponent selectedMonth)
  = {| ReportsComponent.selectedMonth := selectedMonth;
       ReportsComponent.monthlyData :=
         (foldl (fun sum t => sum + Transaction.amount t) 0
                (filter (fun t => Transaction.type t = Income) filtered),
          foldl (fun sum t => sum + Z.abs (Transaction.amount t)) 0
                (filter (fun t => Transaction.type t = Expense) filtered));
       ReportsComponent.incomeCategoryData :=
         (foldl (aggregate categoryMap) (∅, ∅) filtered).1;
       ReportsComponent.expenseCategoryData :=
         (foldl (aggregate categoryMap) (∅, ∅) filtered).2;
       ReportsComponent.transactions := filtered;
       ReportsComponent.categoryMap := categoryMap |}.
Proof.
  intros Hu. pose proof (sqlInteger_truthy u n Hu) as Htruthy.
  unfold loadData, getCategories, getTransactions,
    Category_findAll_visible, Transaction_findAll_userId.
  cbn [param]. rewrite Htruthy, Hu. reflexivity.
Qed.

Lemma foldl_abs_sumZ (l : list Transaction.t) :
  foldl (fun sum t => sum + Z.abs (Transaction.amount t)) 0
        (filter (fun t => Transaction.type t = Expense) l)
  = sumZ (fun t => Z.abs (amountOfKind Expense t)) l.
Proof.
  rewrite (foldl_sumZ (fun t => Z.abs (Transaction.amount t))). simpl.
  induction l as [|t l IH]; [done|].
  rewrite filter_cons. unfold sumZ in *. cbn [foldr]. unfold amountOfKind at 1.
  destruct (decide (Transaction.type t = Expense)); simpl; lia.
Qed.

Lemma selectedMonth_filter (month : string) (n startDate : Z) (l : list Transaction.t) :
  parseISODate (month +:+ "-01T00:00:00.000Z") = Some startDate ->
  List.filter (inSelectedMonth month) (filter (fun t => Transaction.userId t = n) l)
  = filter (inWindow n startDate (setMonth 0 startDate (getMonth 0 startDate + 1))) l.
Proof.
  intros Hparse. rewrite filter_bool, list_filter_filter.
  apply list_filter_iff. intros t. unfold inWindow.
  rewrite (inSelectedMonth_window month startDate t Hparse). tauto.
Qed.

(** With the server in UTC, the sums of the labels of the two breakdowns
    and the totals of the summary, in the integers of the embedding. *)
Lemma breakdown_sums_in_UTC (u month : string) (s : Store) (summary : Summary.t) :
  monthlySummary 0 (JStr u) month s = Ok summary ->
  let page := loadData (Some u) s (newReportsComponent month) in
  sumOfLabels (categoryBreakdown (Some u) month Income s) = Summary.income summary
  /\ sumOfLabels (categoryBreakdown (Some u) month Expense s)
     = (ReportsComponent.monthlyData page).2
  /\ ((forall t, t ∈ ReportsComponent.transactions page ->
                 Transaction.type t = Expense -> 0 <= Transaction.amount t) ->
      sumOfLabels (categoryBreakdown (Some u) month Expense s)
      = Summary.expense summary).
Proof.
  intros Hsummary page. subst page. unfold monthlySummary in Hsummary.
  destruct (parseISODate (month +:+ "-01T00:00:00.000Z")) as [startDate|] eqn:Hparse;
    [|discriminate].
  cbn [coerce mbind Result_bind] in Hsummary.
  destruct (sqlInteger (JStr u)) as [n|] eqn:Hu.
  2: { unfold summarize, Transaction_findAll_window, whereInteger in Hsummary.
       rewrite Hu in Hsummary. discriminate. }
  rewrite (summarize_sums _ _ _ _ _ Hu) in Hsummary. injection Hsummary as <-.
  unfold categoryBreakdown. rewrite (loadData_loaded u n month s Hu).
  cbn [ReportsComponent.incomeCategoryData ReportsComponent.expenseCategoryData
       ReportsComponent.monthlyData ReportsComponent.transactions Summary.income
       Summary.expense snd].
  rewrite (selectedMonth_filter month n startDate _ Hparse).
  set (window := filter _ (transactions s)).
  destruct (sumOfLabels_aggregate
              (buildCategoryMap
                 (filter (fun c => Category.userId c = None \/ Category.userId c = Some n)
                         (categories s)))
              window (∅, ∅)) as [Hincome Hexpense].
  cbn [fst snd] in Hincome, Hexpense. rewrite sumOfLabels_empty in Hincome, Hexpense.
  split; [rewrite Hincome; lia|]. split.
  - rewrite Hexpense, foldl_abs_sumZ. lia.
  - intros Hpositive. rewrite Hexpense, Z.add_0_l. apply sumZ_ext.
    intros t Ht. unfold amountOfKind.
    destruct (decide (Transaction.type t = Expense)); [|done].
    apply Z.abs_eq. by apply Hpositive.
Qed.

(** C7 fails as stated: for an expense stored with a negative amount the
    expense breakdown sums to 150 while the summary of the same month
    reports an expense of -150. *)
Lemma breakdown_differs_from_summary :
  monthlySummary 0 (JStr "1") "2025-07" negativeExpenseStore
  = Ok {| Summary.income := 0; Summary.expense := -150; Summary.balance := 150 |}
  /\ sumOfLabels (categoryBreakdown (Some "1") "2025-07" Expense negativeExpenseStore)
     = 150
  /\ ~ (forall (u month : string) (s : Store) (summary : Summary.t),
          monthlySummary 0 (JStr u) month s = Ok summary ->
          sumOfLabels (categoryBreakdown (Some u) month Expense s)
          = Summary.expense summary).
Proof.
  assert (monthlySummary 0 (JStr "1") "2025-07" negativeExpenseStore
          = Ok {| Summary.income := 0; Summary.expense := -150; Summary.balance := 150 |})
    as Hsummary by (vm_compute; reflexivity).
  assert (sumOfLabels (categoryBreakdown (Some "1") "2025-07" Expense negativeExpenseStore)
          = 150)
    as Hbreakdown by (vm_compute; reflexivity).
  split; [exact Hsummary|]. split; [exact Hbreakdown|].
  intros Hclaim. specialize (Hclaim _ _ _ _ Hsummary). rewrite Hbreakdown in Hclaim.
  discriminate Hclaim.
Qed.

(** ** The keys of the ledger tables *)

Lemma fmap_replace_key {A} (key : A -> Z) (l : list A) (k : Z) (new : A) :
  key new = k ->
  key <$> ((fun r => if key r =? k then new else r) <$> l) = key <$> l.
Proof.
  intros Hkey. rewrite <- list_fmap_compose. apply list_fmap_ext.
  intros i x _. simpl. destruct (Z.eqb_spec (key x) k); congruence.
Qed.

Lemma keys_snoc {A} (key : A -> Z) (l : list A) (x : A) (next : Z) :
  NoDup (key <$> l) -> Forall (fun r => key r < next) l -> key x = next ->
  NoDup (key <$> (l ++ [x])) /\ Forall (fun r => key r < next + 1) (l ++ [x]).
Proof.
  intros Hnd Hbelow Hx. split.
  - rewrite fmap_app. apply NoDup_app. split; [done|]. split; [|apply NoDup_singleton].
    intros k Hk Hk'. apply list_elem_of_singleton in Hk'. subst k.
    apply list_elem_of_fmap in Hk as (y & Hy & Hin).
    pose proof (proj1 (Forall_forall _ _) Hbelow y Hin) as Hlt. simpl in Hlt. lia.
  - apply Forall_app. split; [|apply Forall_singleton; lia].
    eapply Forall_impl; [exact Hbelow|]. intros y Hy. simpl in *. lia.
Qed.

Lemma keys_filter {A} (key : A -> Z) (P : A -> Prop) `{!forall x, Decision (P x)}
  (l : list A) (next : Z) :
  NoDup (key <$> l) -> Forall (fun r => key r < next) l ->
  NoDup (key <$> filter P l) /\ Forall (fun r => key r < next) (filter P l).
Proof.
  intros Hnd Hbelow. split.
  - induction l as [|x l IH]; [done|].
    rewrite fmap_cons in Hnd. apply NoDup_cons in Hnd as [Hx Hnd].
    apply Forall_cons in Hbelow as [_ Hbelow].
    rewrite filter_cons. destruct (decide (P x)); [|by apply IH].
    rewrite fmap_cons. apply NoDup_cons. split; [|by apply IH].
    intros Hin. apply Hx. apply list_elem_of_fmap in Hin as (y & -> & Hy).
    apply list_elem_of_filter in Hy as [_ Hy]. by apply list_elem_of_fmap_2.
  - apply Forall_forall. intros x Hx. apply list_elem_of_filter in Hx as [_ Hx].
    by apply (proj1 (Forall_forall _ _) Hbelow).
Qed.

Lemma handle_transactions (r : Request) (s : Store) :
  let s' := (handle r s).2 in
  (transactions s' = transactions s /\ nextTransactionId s' = nextTransactionId s)
  \/ (exists row,
        transactions s' = transactions s ++ [row]
        /\ Transaction.id row = nextTransactionId s
        /\ nextTransactionId s' = nextTransactionId s + 1)
  \/ (exists old new,
        Transaction.id new = Transaction.id old
        /\ transactions s'
           = (fun r => if Transaction.id r =? Transaction.id old then new else r)
               <$> transactions s
        /\ nextTransactionId s' = nextTransactionId s)
  \/ (exists k,
        transactions s' = filter (fun r => Transaction.id r <> k) (transactions s)
        /\ nextTransactionId s' = nextTransactionId s).
Proof.
  destruct r; simpl.
  - destruct (createTransaction_cases body s) as [(t & s' & Hc)| ->]; [|by left].
    rewrite Hc. apply createTransaction_created in Hc as (_ & _ & ? & ? & ? & _).
    right. left. by exists t.
  - destruct (updateTransaction_cases id body s) as [(t & s' & Hu)| ->]; [|by left].
    rewrite Hu. apply updateTransaction_updated in Hu as (old & _ & ? & _ & ? & ? & _).
    right. right. left. by exists old, t.
  - unfold deleteTransaction.
    destruct (negb (truthy userId)); [by left|].
    destruct (Transaction_findOne _ _ s) as [[t|]|e]; [|by left|by left].
    right. right. right. by exists (Transaction.id t).
  - unfold createCategory, Category_create.
    destruct (_ || _); [by left|].
    destruct (notNull "name" name) as [[]|]; simpl; [|by left].
    destruct (coerce "name" _) as [n|]; simpl; [|by left].
    destruct (if isNullish userId then _ else _) as [u|]; simpl; [|by left].
    destruct (reference s _ _) as [[]|]; simpl; by left.
  - left. rewrite deleteCategory_transactions. split; [done|].
    destruct (deleteCategory_cases id userId s) as [[s' Hd]| ->]; [|done].
    rewrite Hd. unfold deleteCategory, Category_destroy in Hd.
    repeat case_match; simplify_eq/=; try done.
    destruct (reference s _ _) as [[]|]; simplify_eq/=; done.
  - unfold generateAndSaveSuggestion.
    destruct (negb (truthy prompt)); [by left|].
    destruct (negb (truthy userId)); [by left|].
    unfold aiService.generateAndSave, AISuggestion_create.
    destruct (callLLM provider prompt) as [response|[]]; simpl; try (by left).
    destruct (notNull "userId" userId) as [[]|[]]; simpl; try (by left).
    destruct (notNull "prompt" prompt) as [[]|[]]; simpl; try (by left).
    destruct (coerce "userId" _) as [u|[]]; simpl; try (by left).
    destruct (reference s _ _) as [[]|[]]; simpl; by left.
Qed.

Lemma keys_replace_below {A} (key : A -> Z) (l : list A) (k next : Z) (new : A) :
  key new = k -> Forall (fun r => key r < next) l ->
  Forall (fun r => key r < next) ((fun r => if key r =? k then new else r) <$> l).
Proof.
  intros Hkey Hbelow. apply Forall_fmap. eapply Forall_impl; [exact Hbelow|].
  intros x Hx. simpl in *. destruct (Z.eqb_spec (key x) k); lia.
Qed.

(** The keys stay well formed under every request, so a store that the
    server has built from an empty database satisfies [keysOk]. *)
Lemma handle_keysOk (r : Request) (s : Store) : keysOk s -> keysOk (handle r s).2.
Proof.
  intros [Hc Hcb Ht Htb].
  destruct (handle_categories r s)
    as [[Ec Enc]|[(row & Ec & Hrow & Enc)|(c & Ec & Enc)]];
  destruct (handle_transactions r s)
    as [[Et Ent]|[(trow & Et & Htrow & Ent)|[(old & new & Hid & Et & Ent)|(k & Et & Ent)]]];
  constructor; rewrite ?Ec, ?Enc, ?Et, ?Ent;
  first
    [ done
    | by eapply proj1, (keys_snoc Category.id)
    | by eapply proj2, (keys_snoc Category.id)
    | by eapply proj1, (keys_snoc Transaction.id)
    | by eapply proj2, (keys_snoc Transaction.id)
    | by eapply proj1, (keys_filter Category.id)
    | by eapply proj2, (keys_filter Category.id)
    | by eapply proj1, (keys_filter Transaction.id)
    | by eapply proj2, (keys_filter Transaction.id)
    | by rewrite (fmap_replace_key Transaction.id)
    | by apply (keys_replace_below Transaction.id)
    | eapply Forall_impl; [eassumption|]; intros x Hx; simpl in *; lia ].
Qed.

Lemma run_keysOk (requests : list Request) (s : Store) :
  keysOk s -> keysOk (run requests s).
Proof.
  revert s. induction requests as [|r requests IH]; intros s Hs; [done|].
  simpl. apply IH. by apply handle_keysOk.
Qed.

Lemma reachable_keysOk (enforced : bool) (users : list Z) (requests : list Request) :
  keysOk (run requests (emptyStore enforced users)).
Proof.
  apply run_keysOk. constructor; simpl; constructor.
Qed.

(** X1. Where the database enforces the reference from transactions to
    categories, the owner's DELETE of a category that a transaction still
    names is rejected by the store: the answer is 500 and no row changes. *)
Lemma deleteCategory_referenced_rejected
  (s : Store) (id : string) (userId : jsval) (c : Category.t) (u : Z) :
  enforceReferences s = true ->
  NoDup (Category.id <$> categories s) ->
  c ∈ categories s ->
  sqlInteger (JStr id) = Some (Category.id c) ->
  truthy userId = true ->
  Category.userId c = Some u ->
  parseInt (ToString userId) = Num u ->
  Category.id c ∈ (Transaction.categoryId <$> transactions s) ->
  deleteCategory id userId s
  = (Respond 500 (ErrorThrown (ForeignKeyViolation "transactions")), s).
Proof.
  intros Henforced Hnd Hin Hid Htruthy Howner Hparse Href.
  unfold deleteCategory. rewrite Htruthy. cbn [negb].
  rewrite (Category_findOne_key s id c Hnd Hin Hid), Howner, Hparse.
  cbn [strictEq]. rewrite Z.eqb_refl. cbn [negb].
  unfold Category_destroy, reference, categoryReferenced.
  rewrite Henforced, bool_decide_eq_true_2 by done. reflexivity.
Qed.

Lemma deleteCategory_referenced_rejected_witness :
  deleteCategory "2" (JStr "1") (julyStore true)
  = (Respond 500 (ErrorThrown (ForeignKeyViolation "transactions")), julyStore true).
Proof.
  apply (deleteCategory_referenced_rejected (julyStore true) "2" (JStr "1")
           {| Category.id := 2; Category.name := "Food"; Category.userId := Some 1 |} 1).
  - reflexivity.
  - compute_done.
  - compute_done.
  - vm_compute. reflexivity.
  - reflexivity.
  - reflexivity.
  - vm_compute. reflexivity.
  - compute_done.
Defined.

(** The transactions page names the category of such a transaction
    differently: [getCategoryName] answers Unknown for a key that no loaded
    category has. *)
Lemma getCategoryName_orphan (categories : list Category.t) (c : Z) :
  c ∉ (Category.id <$> categories) ->
  getCategoryName categories (Some c) = "Unknown".
Proof.
  intros Hgone. unfold getCategoryName.
  induction categories as [|x l IH]; [done|].
  rewrite fmap_cons, not_elem_of_cons in Hgone. destruct Hgone as [Hne Hgone].
  simpl. destruct (Z.eqb_spec (Category.id x) c) as [Heq|_]; [congruence|].
  by apply IH.
Qed.

(** ** The server's time zone *)

(** The window of [monthlySummary] for July 2025 in a server zone from
    twelve hours behind UTC to fourteen hours ahead: it ends on the first of
    August east of Greenwich and on the thirty-first of July west of it. *)
Lemma julyWindow_any_zone (tz : Z) :
  -43200000 <= tz <= 50400000 ->
  setMonth tz 1751328000000 (getMonth tz 1751328000000 + 1)
  = if tz <? 0 then 1753920000000 else 1754006400000.
Proof.
  intros Hzone.
  unfold setMonth, getMonth, LocalTime, UTC, YearFromTime, MonthFromTime, DateFromTime.
  destruct (Z.ltb_spec tz 0) as [Hwest|Heast].
  - replace (Day (1751328000000 + tz)) with 20269
      by (unfold Day, msPerDay; Z.div_mod_to_equations; lia).
    replace (TimeWithinDay (1751328000000 + tz)) with (86400000 + tz)
      by (unfold TimeWithinDay, msPerDay; Z.div_mod_to_equations; lia).
    change (civilFromDays 20269) with (2025, 6, 30). cbn [fst snd].
    change (MakeDay 2025 (6 - 1 + 1) 30) with 20299.
    unfold MakeDate, msPerDay. lia.
  - replace (Day (1751328000000 + tz)) with 20270
      by (unfold Day, msPerDay; Z.div_mod_to_equations; lia).
    replace (TimeWithinDay (1751328000000 + tz)) with tz
      by (unfold TimeWithinDay, msPerDay; Z.div_mod_to_equations; lia).
    change (civilFromDays 20270) with (2025, 7, 1). cbn [fst snd].
    change (MakeDay 2025 (7 - 1 + 1) 1) with 20301.
    unfold MakeDate, msPerDay. lia.
Qed.

(** The summary of July 2025 in the example does not depend on the
    server's zone. *)
Lemma julySummary_any_zone (tz : Z) (enforced : bool) :
  -43200000 <= tz <= 50400000 ->
  monthlySummary tz (JStr "1") "2025-07" (julyStore enforced)
  = Ok {| Summary.income := 1000; Summary.expense := 150; Summary.balance := 850 |}.
Proof.
  intros Hzone. unfold monthlySummary.
  change (parseISODate ("2025-07" +:+ "-01T00:00:00.000Z")) with (Some 1751328000000).
  cbn [coerce mbind Result_bind]. rewrite (julyWindow_any_zone tz Hzone).
  destruct (tz <? 0), enforced; vm_compute; reflexivity.
Qed.

(** * The handlers, request by request *)

(** ** Rows and their keys *)

Lemma filter_ext_in {A} (P Q : A -> Prop) `{!forall x, Decision (P x)}
  `{!forall x, Decision (Q x)} (l : list A) :
  (forall x, x ∈ l -> (P x <-> Q x)) -> filter P l = filter Q l.
Proof.
  induction l as [|a l IH]; intros Hext; [done|].
  rewrite !filter_cons.
  assert (filter P l = filter Q l) as ->.
  { apply IH. intros x Hx. apply Hext. by right. }
  destruct (decide (P a)) as [Hp|Hp], (decide (Q a)) as [Hq|Hq]; try done.
  - exfalso. apply Hq. apply (Hext a); [by left|done].
  - exfalso. apply Hp. apply (Hext a); [by left|done].
Qed.

Lemma key_determines_row {A} (key : A -> Z) (l : list A) (x r : A) :
  NoDup (key <$> l) -> x ∈ l -> r ∈ l -> key r = key x -> r = x.
Proof.
  intros Hnd Hx Hr Heq.
  assert (r ∈ filter (fun r => key r = key x) l) as Hr'
    by (by apply list_elem_of_filter).
  rewrite (filter_key_unique key _ x Hnd Hx) in Hr'.
  by apply list_elem_of_singleton in Hr'.
Qed.

Lemma filter_other_keys {A} `{EqDecision A} (key : A -> Z) (l : list A) (x : A) :
  NoDup (key <$> l) -> x ∈ l ->
  filter (fun r => key r <> key x) l = filter (fun r => r <> x) l.
Proof.
  intros Hnd Hin. apply filter_ext_in. intros r Hr.
  split; [congruence|]. intros Hne Heq. apply Hne.
  by apply (key_determines_row key l).
Qed.

Lemma filter_all {A} (P : A -> Prop) `{!forall x, Decision (P x)} (l : list A) :
  (forall x, x ∈ l -> P x) -> filter P l = l.
Proof.
  induction l as [|a l IH]; intros Hall; [done|].
  rewrite filter_cons_True by (apply Hall; by left).
  f_equal. apply IH. intros x Hx. apply Hall. by right.
Qed.

Lemma filter_length_remove {A} (key : A -> Z) (l : list A) (x : A) :
  NoDup (key <$> l) -> x ∈ l ->
  (length (filter (fun r => key r <> key x) l) + 1 = length l)%nat.
Proof.
  induction l as [|a l IH]; intros Hnd Hin; [by apply elem_of_nil in Hin|].
  rewrite fmap_cons in Hnd. apply NoDup_cons in Hnd as [Hfresh Hnd].
  apply elem_of_cons in Hin as [->|Hin].
  - rewrite filter_cons_False by (intros H; by apply H).
    rewrite filter_all; [simpl; lia|].
    intros y Hy Heq. apply Hfresh. rewrite <- Heq. by apply list_elem_of_fmap_2.
  - rewrite filter_cons_True.
    + simpl. rewrite <- (IH Hnd Hin). lia.
    + intros Heq. apply Hfresh. rewrite Heq. by apply list_elem_of_fmap_2.
Qed.

Lemma Transaction_findOne_key (s : Store) (id userId : jsval) (t : Transaction.t) :
  NoDup (Transaction.id <$> transactions s) ->
  t ∈ transactions s ->
  sqlInteger id = Some (Transaction.id t) ->
  sqlInteger userId = Some (Transaction.userId t) ->
  Transaction_findOne id userId s = Ok (Some t).
Proof.
  intros Hnd Hin Hid Hu. unfold Transaction_findOne. rewrite Hid, Hu. simpl.
  assert (filter (fun r => Transaction.id r = Transaction.id t
                           /\ Transaction.userId r = Transaction.userId t)
                 (transactions s) = [t]) as ->; [|done].
  rewrite <- (filter_key_unique Transaction.id _ t Hnd Hin).
  apply filter_ext_in. intros r Hr. split; [tauto|].
  intros Heq. split; [done|].
  by rewrite (key_determines_row Transaction.id _ t r Hnd Hin Hr Heq).
Qed.

Lemma Transaction_findOne_absent (s : Store) (id userId : jsval) (i u : Z) :
  sqlInteger id = Some i ->
  sqlInteger userId = Some u ->
  (forall t, t ∈ transactions s -> Transaction.id t = i -> Transaction.userId t <> u) ->
  Transaction_findOne id userId s = Ok None.
Proof.
  intros Hid Hu Hnone. unfold Transaction_findOne. rewrite Hid, Hu. simpl.
  rewrite filter_none; [done|]. intros t Hin [Hi Ht]. exact (Hnone t Hin Hi Ht).
Qed.

Lemma deleteTransaction_absent
  (s : Store) (id : string) (userId : jsval) (i B : Z) :
  truthy userId = true ->
  sqlInteger userId = Some B ->
  sqlInteger (JStr id) = Some i ->
  (forall t, t ∈ transactions s -> Transaction.id t = i -> Transaction.userId t <> B) ->
  deleteTransaction id userId s
  = (Respond 404
       (ErrorJson "Transaction not found or you do not have permission to delete it."),
     s).
Proof.
  intros Htruthy HB Hi Hnone. unfold deleteTransaction. rewrite Htruthy. cbn [negb].
  by rewrite (Transaction_findOne_absent s (JStr id) userId i B Hi HB Hnone).
Qed.

(** X2. A DELETE that names a transaction which is absent, or is owned by
    another user, is answered by one and the same 404 and changes nothing. *)
Theorem deleteTransaction_not_found_or_forbidden
  (s : Store) (id : string) (userId : jsval) (i B : Z) :
  truthy userId = true ->
  sqlInteger userId = Some B ->
  sqlInteger (JStr id) = Some i ->
  (forall t, t ∈ transactions s -> Transaction.id t = i -> Transaction.userId t <> B) ->
  deleteTransaction id userId s
  = (Respond 404
       (ErrorJson "Transaction not found or you do not have permission to delete it."),
     s).
Proof. apply deleteTransaction_absent. Qed.

Lemma deleteTransaction_not_found_or_forbidden_witness :
  deleteTransaction "99" (JStr "2") (julyStore true)
  = deleteTransaction "1" (JStr "2") (julyStore true)
  /\ (deleteTransaction "1" (JStr "2") (julyStore true)).2 = julyStore true.
Proof.
  assert (Habsent := deleteTransaction_not_found_or_forbidden (julyStore true) "99"
            (JStr "2") 99 2 eq_refl eq_refl eq_refl).
  assert (Hother := deleteTransaction_not_found_or_forbidden (julyStore true) "1"
            (JStr "2") 1 2 eq_refl eq_refl eq_refl).
  rewrite Habsent, Hother; [done| |];
    intros t Hin Hid; apply list_elem_of_In in Hin; vm_compute in Hin;
    destruct Hin as [<-|[<-|[<-|[]]]]; simpl in *; lia.
Defined.

Lemma deleteTransaction_deleted (id : string) (userId : jsval) (s : Store)
  (t : Transaction.t) :
  NoDup (Transaction.id <$> transactions s) ->
  t ∈ transactions s ->
  truthy userId = true ->
  sqlInteger userId = Some (Transaction.userId t) ->
  sqlInteger (JStr id) = Some (Transaction.id t) ->
  deleteTransaction id userId s = (Respond 204 NoContent, Transaction_destroy t s).
Proof.
  intros Hnd Hin Htruthy Hu Hid. unfold deleteTransaction. rewrite Htruthy. cbn [negb].
  by rewrite (Transaction_findOne_key s (JStr id) userId t Hnd Hin Hid Hu).
Qed.

(** X3. The owner's DELETE of a stored transaction is answered 204 and
    removes that row and no other: the rows that remain are the others, in
    their order, the categories are as they were, and the same DELETE sent
    again is answered 404. *)
Theorem deleteTransaction_removes_that_row
  (s : Store) (id : string) (userId : jsval) (t : Transaction.t) :
  NoDup (Transaction.id <$> transactions s) ->
  t ∈ transactions s ->
  truthy userId = true ->
  sqlInteger userId = Some (Transaction.userId t) ->
  sqlInteger (JStr id) = Some (Transaction.id t) ->
  let s' := (deleteTransaction id userId s).2 in
  (deleteTransaction id userId s).1 = Respond 204 NoContent
  /\ transactions s' = filter (fun r => r <> t) (transactions s)
  /\ (length (transactions s') + 1 = length (transactions s))%nat
  /\ categories s' = categories s
  /\ suggestions s' = suggestions s
  /\ deleteTransaction id userId s'
     = (Respond 404
          (ErrorJson "Transaction not found or you do not have permission to delete it."),
        s').
Proof.
  intros Hnd Hin Htruthy Hu Hid s'. subst s'.
  rewrite (deleteTransaction_deleted id userId s t Hnd Hin Htruthy Hu Hid).
  cbn [fst snd]. unfold Transaction_destroy. cbn [transactions setTransactions
    categories suggestions].
  split; [done|]. split; [by apply (filter_other_keys Transaction.id)|].
  split; [by apply (filter_length_remove Transaction.id)|].
  split; [done|]. split; [done|].
  apply (deleteTransaction_absent _ id userId (Transaction.id t)
           (Transaction.userId t) Htruthy Hu Hid).
  cbn [transactions setTransactions]. intros r Hr Heq.
  apply list_elem_of_filter in Hr as [Hne _]. done.
Qed.

Lemma deleteTransaction_removes_that_row_witness :
  (deleteTransaction "2" (JStr "1") (julyStore true)).1 = Respond 204 NoContent
  /\ transactions (deleteTransaction "2" (JStr "1") (julyStore true)).2
     = [julyIncome; augustExpense].
Proof.
  destruct (deleteTransaction_removes_that_row (julyStore true) "2" (JStr "1")
              julyExpense) as (Hresp & Hrows & _).
  - compute_done.
  - compute_done.
  - reflexivity.
  - reflexivity.
  - reflexivity.
  - split; [exact Hresp|]. rewrite Hrows. vm_compute. reflexivity.
Defined.

(** ** Writes of one user and the rows of another *)

Lemma updateTransaction_owner (id : string) (body : TransactionBody.t)
  (s s' : Store) (t : Transaction.t) :
  updateTransaction id body s = (Respond 200 (TransactionJson t), s') ->
  exists old,
    old ∈ transactions s
    /\ sqlInteger (JStr id) = Some (Transaction.id old)
    /\ sqlInteger (TransactionBody.userId body) = Some (Transaction.userId old)
    /\ Transaction.id t = Transaction.id old
    /\ Transaction.userId t = Transaction.userId old
    /\ transactions s'
       = (fun r => if Transaction.id r =? Transaction.id old then t else r)
           <$> transactions s.
Proof.
  unfold updateTransaction.
  destruct (truthy (TransactionBody.userId body)) eqn:Htruthy; cbn [negb]; [|done].
  destruct (Transaction_findOne _ _ s) as [[old|]|e] eqn:Hfind; [|done|done].
  apply Transaction_findOne_elem in Hfind as (Hin & Hid & Hu).
  unfold Transaction_update.
  destruct (updated "userId" _ _ _) as [u|] eqn:Hupd; simpl; [|done].
  destruct (updated "amount" _ _ _) as [a|]; simpl; [|done].
  destruct (updated "date" _ _ _) as [d|]; simpl; [|done].
  destruct (updated "categoryId" _ _ _) as [c|]; simpl; [|done].
  destruct (updated "type" _ _ _) as [k|]; simpl; [|done].
  destruct (reference s "users" _) as [[]|]; simpl; [|done].
  destruct (reference s "categories" _) as [[]|]; simpl; [|done].
  intros [= <- <-]. exists old. simpl.
  apply updated_value in Hupd as [[Hundef _]|Hread].
  - rewrite Hundef in Htruthy. done.
  - rewrite Hread in Hu. injection Hu as ->. done.
Qed.

Lemma fmap_replace_same {A B} (key : A -> Z) (f : A -> B) (l : list A) (old new : A) :
  NoDup (key <$> l) -> old ∈ l -> f new = f old ->
  f <$> ((fun r => if key r =? key old then new else r) <$> l) = f <$> l.
Proof.
  intros Hnd Hin Hf. rewrite <- list_fmap_compose. apply list_fmap_ext.
  intros i x Hx. simpl. destruct (Z.eqb_spec (key x) (key old)) as [Heq|]; [|done].
  apply list_elem_of_lookup_2 in Hx.
  by rewrite (key_determines_row key l old x Hnd Hin Hx Heq).
Qed.

(** X4. A PUT never changes the key or the owner of a row, whatever the
    body holds: the [userId] of the body is the owner the row was looked up
    with. *)
Theorem updateTransaction_keeps_key_and_owner
  (s : Store) (id : string) (body : TransactionBody.t) :
  NoDup (Transaction.id <$> transactions s) ->
  let s' := (updateTransaction id body s).2 in
  Transaction.id <$> transactions s' = Transaction.id <$> transactions s
  /\ Transaction.userId <$> transactions s' = Transaction.userId <$> transactions s.
Proof.
  intros Hnd s'. subst s'.
  destruct (updateTransaction_cases id body s) as [(t & s' & Hu)| ->]; [|done].
  rewrite Hu. cbn [snd].
  apply updateTransaction_owner in Hu as (old & Hin & _ & _ & Hid & Howner & ->).
  split; by apply fmap_replace_same.
Qed.

Lemma updateTransaction_keeps_key_and_owner_witness :
  Transaction.userId
    <$> transactions
          (updateTransaction "2"
             {| TransactionBody.userId := JStr "1";
                TransactionBody.type := JUndefined;
                TransactionBody.amount := JNum 175;
                TransactionBody.date := JUndefined;
                TransactionBody.description := JStr "Dinner";
                TransactionBody.categoryId := JUndefined |}
             (julyStore true)).2
  = [1; 1; 1].
Proof.
  destruct (updateTransaction_keeps_key_and_owner (julyStore true) "2"
              {| TransactionBody.userId := JStr "1";
                 TransactionBody.type := JUndefined;
                 TransactionBody.amount := JNum 175;
                 TransactionBody.date := JUndefined;
                 TransactionBody.description := JStr "Dinner";
                 TransactionBody.categoryId := JUndefined |}) as [_ Howners].
  - compute_done.
  - rewrite Howners. reflexivity.
Defined.

Lemma filter_replace_other {A} (key : A -> Z) (P : A -> Prop)
  `{!forall x, Decision (P x)} (l : list A) (old new : A) :
  NoDup (key <$> l) -> old ∈ l -> ~ P old -> ~ P new ->
  filter P ((fun r => if key r =? key old then new else r) <$> l) = filter P l.
Proof.
  intros Hnd Hin Hold Hnew.
  assert (forall k : list A, (forall x, x ∈ k -> x ∈ l) ->
            filter P ((fun r => if key r =? key old then new else r) <$> k)
            = filter P k) as Hgen; [|by apply Hgen].
  induction k as [|a k IH]; intros Hsub; [done|].
  rewrite fmap_cons, !filter_cons, IH by (intros x Hx; apply Hsub; by right).
  destruct (Z.eqb_spec (key a) (key old)) as [Heq|Hne]; [|done].
  rewrite (key_determines_row key l old a Hnd Hin (Hsub a ltac:(by left)) Heq).
  by rewrite !decide_False.
Qed.

(** X5. What one user writes leaves the transactions of every other user
    as they were: a POST, PUT or DELETE whose [userId] the store reads as
    the number of a user [A] changes no row of another user [B], and no
    request about categories or suggestions changes a transaction at all. *)
Theorem writes_leave_other_users_transactions (s : Store) (A B : Z) :
  NoDup (Transaction.id <$> transactions s) ->
  A <> B ->
  let rowsOf (s : Store) := filter (fun t => Transaction.userId t = B) (transactions s) in
  (forall body,
     sqlInteger (TransactionBody.userId body) = Some A ->
     rowsOf (createTransaction body s).2 = rowsOf s)
  /\ (forall id body,
        sqlInteger (TransactionBody.userId body) = Some A ->
        rowsOf (updateTransaction id body s).2 = rowsOf s)
  /\ (forall id userId,
        sqlInteger userId = Some A ->
        rowsOf (deleteTransaction id userId s).2 = rowsOf s)
  /\ (forall name userId, transactions (createCategory name userId s).2 = transactions s)
  /\ (forall id userId, transactions (deleteCategory id userId s).2 = transactions s)
  /\ (forall provider now userId prompt,
        transactions (generateAndSaveSuggestion provider now userId prompt s).2
        = transactions s).
Proof.
  intros Hnd Hne rowsOf. subst rowsOf. cbv beta. repeat split.
  - intros body HA.
    assert (sqlInteger (TransactionBody.userId body) <> Some B) as Hother
      by (rewrite HA; congruence).
    destruct (createTransaction_cases body s) as [(t & s' & Hc)| ->]; [|done].
    rewrite Hc. cbn [snd].
    apply createTransaction_created in Hc as (_ & Hu & _ & -> & _).
    apply filter_snoc_False. intros Heq. apply Hother. by rewrite Hu, Heq.
  - intros id body HA.
    assert (sqlInteger (TransactionBody.userId body) <> Some B) as Hother
      by (rewrite HA; congruence).
    destruct (updateTransaction_cases id body s) as [(t & s' & Hu)| ->]; [|done].
    rewrite Hu. cbn [snd].
    apply updateTransaction_owner in Hu as (old & Hin & _ & Howner & _ & Hsame & ->).
    apply (filter_replace_other Transaction.id); [done|done| |].
    + intros Heq. apply Hother. by rewrite Howner, Heq.
    + intros Heq. apply Hother. by rewrite Howner, <- Hsame, Heq.
  - intros id userId HA.
    assert (sqlInteger userId <> Some B) as Hother by (rewrite HA; congruence).
    unfold deleteTransaction.
    destruct (negb (truthy userId)); [done|].
    destruct (Transaction_findOne _ _ s) as [[t|]|e] eqn:Hfind; [|done|done].
    apply Transaction_findOne_elem in Hfind as (Hin & _ & Hu).
    cbn [snd]. unfold Transaction_destroy. cbn [transactions setTransactions].
    rewrite list_filter_filter. apply filter_ext_in. intros r Hr.
    split; [tauto|]. intros Hr'. split; [done|]. intros Heq.
    apply Hother. rewrite Hu.
    by rewrite <- (key_determines_row Transaction.id _ t r Hnd Hin Hr Heq), Hr'.
  - intros name userId.
    unfold createCategory, Category_create.
    destruct (_ || _); [done|].
    destruct (notNull "name" name) as [[]|]; simpl; [|done].
    destruct (coerce "name" _) as [n|]; simpl; [|done].
    destruct (if isNullish userId then _ else _) as [u|]; simpl; [|done].
    destruct (reference s _ _) as [[]|]; simpl; done.
  - intros id userId. apply deleteCategory_transactions.
  - intros provider now userId prompt.
    unfold generateAndSaveSuggestion.
    destruct (negb (truthy prompt)); [done|].
    destruct (negb (truthy userId)); [done|].
    unfold aiService.generateAndSave, AISuggestion_create.
    destruct (callLLM provider prompt) as [response|[]]; simpl; try done.
    destruct (notNull "userId" userId) as [[]|[]]; simpl; try done.
    destruct (notNull "prompt" prompt) as [[]|[]]; simpl; try done.
    destruct (coerce "userId" _) as [u|[]]; simpl; try done.
    destruct (reference s _ _) as [[]|[]]; simpl; done.
Qed.

Lemma writes_leave_other_users_transactions_witness :
  filter (fun t => Transaction.userId t = 1)
         (transactions (deleteTransaction "2" (JStr "2") (julyStore true)).2)
  = [julyIncome; julyExpense; augustExpense].
Proof.
  destruct (writes_leave_other_users_transactions (julyStore true) 2 1)
    as (_ & _ & Hdelete & _).
  - compute_done.
  - lia.
  - rewrite (Hdelete "2" (JStr "2")); [|reflexivity]. vm_compute. reflexivity.
Defined.

(** ** Creating a transaction *)

Lemma reference_Ok (s : Store) (table : string) (present : bool) :
  reference s table present = Ok tt <-> (enforceReferences s = true -> present = true).
Proof.
  unfold reference. destruct (enforceReferences s), present; simpl; split; try done.
  intros H. by specialize (H eq_refl).
Qed.

(** X7. After a transaction was created, the next listing of its owner
    holds the rows that were listed before and the new row, and the listing
    of every user that the store reads as another number is what it was. *)
Theorem created_transaction_is_listed
  (body : TransactionBody.t) (s s' : Store) (t : Transaction.t) :
  createTransaction body s = (Respond 201 (TransactionJson t), s') ->
  sqlInteger (TransactionBody.userId body) = Some (Transaction.userId t)
  /\ (exists l l',
        getTransactions (TransactionBody.userId body) s = Respond 200 (TransactionsJson l)
        /\ getTransactions (TransactionBody.userId body) s'
           = Respond 200 (TransactionsJson l')
        /\ l' ≡ₚ t :: l)
  /\ (forall other o,
        sqlInteger other = Some o ->
        o <> Transaction.userId t ->
        getTransactions other s' = getTransactions other s).
Proof.
  intros Hc.
  assert (truthy (TransactionBody.userId body) = true) as Htruthy.
  { unfold createTransaction in Hc.
    by destruct (truthy (TransactionBody.userId body)). }
  apply createTransaction_created in Hc as (_ & Hu & _ & Hrows & _).
  split; [done|]. split.
  - exists (filter (fun r => Transaction.userId r = Transaction.userId t) (transactions s)).
    eexists. unfold getTransactions, Transaction_findAll_userId.
    rewrite Htruthy, Hu, Hrows. cbn [negb coerce mbind Result_bind].
    split; [done|]. split; [done|].
    rewrite filter_snoc_True by done. by rewrite Permutation_app_comm.
  - intros other o Ho Hne. unfold getTransactions, Transaction_findAll_userId.
    destruct (negb (truthy other)); [done|].
    rewrite Ho. cbn [coerce mbind Result_bind].
    rewrite Hrows, filter_snoc_False; [done|]. congruence.
Qed.

Lemma created_transaction_is_listed_witness :
  exists l l',
    getTransactions (JStr "1") (sampleStore true) = Respond 200 (TransactionsJson l)
    /\ getTransactions (JStr "1")
         (createTransaction (sampleBody "1" "income" 1000 "2025-07-03" 1)
                            (sampleStore true)).2
       = Respond 200 (TransactionsJson l')
    /\ l' ≡ₚ julyIncome :: l.
Proof.
  destruct (created_transaction_is_listed (sampleBody "1" "income" 1000 "2025-07-03" 1)
              (sampleStore true)
              (createTransaction (sampleBody "1" "income" 1000 "2025-07-03" 1)
                                 (sampleStore true)).2 julyIncome)
    as (_ & Hlisted & _).
  - vm_compute. reflexivity.
  - exact Hlisted.
Defined.

(** ** Categories *)

(** X8. [getCategories] lists the global categories and those of the
    caller, in store order, and never a category that another user owns. *)
Theorem getCategories_global_and_own (s : Store) (userId : jsval) (u : Z) :
  truthy userId = true ->
  sqlInteger userId = Some u ->
  exists l,
    getCategories userId s = Respond 200 (CategoriesJson l)
    /\ l = filter (fun c => Category.userId c = None \/ Category.userId c = Some u)
                  (categories s)
    /\ (forall c, c ∈ l
                  <-> c ∈ categories s
                      /\ (Category.userId c = None \/ Category.userId c = Some u))
    /\ (forall c v, c ∈ l -> Category.userId c = Some v -> v = u).
Proof.
  intros Htruthy Hu. eexists. split; [|split; [reflexivity|split]].
  - unfold getCategories, Category_findAll_visible. by rewrite Htruthy, Hu.
  - intros c. rewrite list_elem_of_filter. tauto.
  - intros c v Hc Hv. apply list_elem_of_filter in Hc as [[Hg|Ho] _]; congruence.
Qed.

Lemma getCategories_global_and_own_witness :
  exists l,
    getCategories (JStr "2") (sampleStore true) = Respond 200 (CategoriesJson l)
    /\ l = [ {| Category.id := 1; Category.name := "Salary"; Category.userId := None |} ].
Proof.
  destruct (getCategories_global_and_own (sampleStore true) (JStr "2") 2 eq_refl eq_refl)
    as (l & Hresp & Hl & _).
  exists l. split; [exact Hresp|]. rewrite Hl. vm_compute. reflexivity.
Defined.

Lemma showZ_nonempty (n : Z) : showZ n <> "".
Proof.
  unfold showZ. destruct (Z.to_int n) as [d|d]; simpl; [|done].
  unfold NilZero.string_of_uint. destruct d; done.
Qed.

Lemma createCategory_created (name userId : jsval) (s s' : Store) (c : Category.t) :
  createCategory name userId s = (Respond 201 (CategoryJson c), s') ->
  exists u,
    truthy userId = true
    /\ sqlInteger userId = Some u
    /\ Category.userId c = Some u
    /\ Category.id c = nextCategoryId s
    /\ sqlString name = Some (Category.name c)
    /\ Category.name c <> ""
    /\ (enforceReferences s = true -> u ∈ users s)
    /\ s' = setCategories s (categories s ++ [c]) (nextCategoryId s + 1).
Proof.
  unfold createCategory, Category_create.
  destruct (truthy name) eqn:Hname; cbn [negb orb]; [|done].
  destruct (truthy userId) eqn:Huser; cbn [negb]; [|done].
  destruct (notNull "name" name) as [[]|]; simpl; [|done].
  destruct (sqlString name) as [n|] eqn:Hn; simpl; [|done].
  destruct (isNullish userId) eqn:Hnull; [by destruct userId|].
  destruct (sqlInteger userId) as [u|]; simpl; [|done].
  destruct (reference s _ _) as [[]|] eqn:Href; simpl; [|done].
  intros [= <- <-]. exists u. simpl. repeat split; try done.
  - destruct name as [| |k|x]; simpl in *; try done.
    + injection Hn as <-. apply showZ_nonempty.
    + injection Hn as <-. by destruct x.
  - intros He. apply reference_Ok in Href; [|done].
    by apply bool_decide_eq_true in Href.
Qed.

Lemma createCategory_cases (name userId : jsval) (s : Store) :
  (exists c s', createCategory name userId s = (Respond 201 (CategoryJson c), s'))
  \/ (createCategory name userId s).2 = s.
Proof.
  unfold createCategory.
  destruct (_ || _); [by right|].
  destruct (Category_create name userId s) as [[c s']|e]; [|by right].
  left. by exists c, s'.
Qed.

(** X9. A category that was created belongs to the caller: its owner is
    the number the store reads from [userId], its name is not empty and its
    key is the key of no category that was stored before; the caller's next
    listing holds the categories listed before and the new one, and the
    listing of every user that the store reads as another number is what it
    was. *)
Theorem created_category_is_private
  (name userId : jsval) (s s' : Store) (c : Category.t) :
  createCategory name userId s = (Respond 201 (CategoryJson c), s') ->
  exists u,
    sqlInteger userId = Some u
    /\ Category.userId c = Some u
    /\ Category.name c <> ""
    /\ (keysOk s -> Category.id c ∉ (Category.id <$> categories s))
    /\ (exists l l',
          getCategories userId s = Respond 200 (CategoriesJson l)
          /\ getCategories userId s' = Respond 200 (CategoriesJson l')
          /\ l' ≡ₚ c :: l)
    /\ (forall other o,
          sqlInteger other = Some o ->
          o <> u ->
          getCategories other s' = getCategories other s).
Proof.
  intros Hc.
  apply createCategory_created in Hc
    as (u & Htruthy & Hu & Howner & Hid & _ & Hname & _ & ->).
  exists u. do 3 (split; [done|]). split; [|split].
  - intros [_ Hbelow _ _] Hin. apply list_elem_of_fmap in Hin as (y & Hy & Hin).
    pose proof (proj1 (Forall_forall _ _) Hbelow y Hin) as Hlt. simpl in Hlt. lia.
  - do 2 eexists. unfold getCategories, Category_findAll_visible.
    rewrite Htruthy, Hu. cbn [negb coerce mbind Result_bind categories setCategories].
    split; [reflexivity|]. split; [reflexivity|].
    rewrite filter_snoc_True by (by right). by rewrite Permutation_app_comm.
  - intros other o Ho Hne. unfold getCategories, Category_findAll_visible.
    destruct (negb (truthy other)); [done|].
    rewrite Ho. cbn [coerce mbind Result_bind categories setCategories].
    rewrite filter_snoc_False; [done|].
    rewrite Howner. intros [?|[= ->]]; done.
Qed.

Lemma created_category_is_private_witness :
  getCategories (JStr "2") (createCategory (JStr "Rent") (JStr "1") (sampleStore true)).2
  = getCategories (JStr "2") (sampleStore true).
Proof.
  destruct (created_category_is_private (JStr "Rent") (JStr "1") (sampleStore true)
              (createCategory (JStr "Rent") (JStr "1") (sampleStore true)).2
              {| Category.id := 3; Category.name := "Rent"; Category.userId := Some 1 |})
    as (u & Hu & _ & _ & _ & _ & Hothers).
  - vm_compute. reflexivity.
  - injection Hu as <-. by apply (Hothers (JStr "2") 2).
Defined.

Lemma deleteCategory_owner (id : string) (userId : jsval) (s s' : Store) :
  deleteCategory id userId s = (Respond 204 NoContent, s') ->
  exists c u,
    c ∈ categories s
    /\ sqlInteger (JStr id) = Some (Category.id c)
    /\ Category.userId c = Some u
    /\ parseInt (ToString userId) = Num u
    /\ (enforceReferences s = true ->
        Category.id c ∉ (Transaction.categoryId <$> transactions s))
    /\ categories s'
       = filter (fun r => Category.id r <> Category.id c) (categories s).
Proof.
  unfold deleteCategory.
  destruct (negb (truthy userId)); [done|].
  destruct (Category_findOne (JStr id) s) as [[c|]|e] eqn:Hfind; [|done|done].
  destruct (strictEq _ _) eqn:Heq; cbn [negb]; [|done].
  unfold Category_destroy.
  destruct (reference s _ _) as [[]|] eqn:Href; simpl; [|done].
  intros [= <-].
  unfold Category_findOne in Hfind.
  destruct (sqlInteger (JStr id)) as [i|] eqn:Hid; simpl in Hfind; [|done].
  injection Hfind as Hhead. apply head_Some_elem_of in Hhead.
  apply list_elem_of_filter in Hhead as [Hi Hin].
  destruct (Category.userId c) as [u|] eqn:Howner; [|done].
  destruct (parseInt (ToString userId)) as [|v] eqn:Hparse; [done|].
  simpl in Heq. apply Z.eqb_eq in Heq. subst v.
  exists c, u. subst i. repeat split; try done.
  intros He. apply reference_Ok in Href; [|done].
  unfold categoryReferenced in Href. apply negb_true_iff in Href.
  by apply bool_decide_eq_false in Href.
Qed.

(** X10. A DELETE of a category is answered 204 only for a category that
    the caller owns: the row that goes is one whose [userId] is the number
    [parseInt] reads from the caller's [userId], every other row stays, and
    where the references are enforced no transaction names the key. *)
Theorem deleteCategory_only_by_owner (id : string) (userId : jsval) (s s' : Store) :
  NoDup (Category.id <$> categories s) ->
  deleteCategory id userId s = (Respond 204 NoContent, s') ->
  exists c u,
    c ∈ categories s
    /\ sqlInteger (JStr id) = Some (Category.id c)
    /\ Category.userId c = Some u
    /\ parseInt (ToString userId) = Num u
    /\ categories s' = filter (fun r => r <> c) (categories s)
    /\ (enforceReferences s = true ->
        Category.id c ∉ (Transaction.categoryId <$> transactions s)).
Proof.
  intros Hnd Hd.
  apply deleteCategory_owner in Hd as (c & u & Hin & Hid & Howner & Hparse & Href & ->).
  exists c, u. repeat split; try done.
  by apply (filter_other_keys Category.id).
Qed.

Lemma deleteCategory_only_by_owner_witness :
  exists c,
    c ∈ categories (sampleStore true)
    /\ Category.userId c = Some 1
    /\ categories (deleteCategory "2" (JStr "1") (sampleStore true)).2
       = filter (fun r => r <> c) (categories (sampleStore true)).
Proof.
  destruct (deleteCategory_only_by_owner "2" (JStr "1") (sampleStore true)
              (deleteCategory "2" (JStr "1") (sampleStore true)).2)
    as (c & u & Hin & _ & Howner & Hparse & Hrows & _).
  - compute_done.
  - vm_compute. reflexivity.
  - exists c. injection Hparse as <-. done.
Defined.

(** X11. The ownership test of [deleteCategory] reads the caller's [userId]
    with [parseInt], which stops at the first character that is not a digit:
    every [userId] that [parseInt] reads as the owner's number, such as
    [1abc] for owner 1, deletes the category. *)
Theorem deleteCategory_reads_userId_prefix
  (s : Store) (id userId : string) (c : Category.t) (u : Z) :
  NoDup (Category.id <$> categories s) ->
  c ∈ categories s ->
  sqlInteger (JStr id) = Some (Category.id c) ->
  Category.userId c = Some u ->
  parseInt userId = Num u ->
  (enforceReferences s = true ->
   Category.id c ∉ (Transaction.categoryId <$> transactions s)) ->
  (deleteCategory id (JStr userId) s).1 = Respond 204 NoContent
  /\ categories (deleteCategory id (JStr userId) s).2
     = filter (fun r => r <> c) (categories s).
Proof.
  intros Hnd Hin Hid Howner Hparse Href.
  assert (truthy (JStr userId) = true) as Htruthy.
  { destruct userId; [|done]. discriminate. }
  unfold deleteCategory. rewrite Htruthy. cbn [negb].
  rewrite (Category_findOne_key s id c Hnd Hin Hid), Howner. cbn [ToString].
  rewrite Hparse. cbn [strictEq]. rewrite Z.eqb_refl. cbn [negb].
  unfold Category_destroy.
  rewrite (proj2 (reference_Ok s "transactions" _)).
  2:{ intros He. apply negb_true_iff, bool_decide_eq_false. by apply Href. }
  cbn [mbind Result_bind fst snd categories setCategories].
  split; [done|]. by apply (filter_other_keys Category.id).
Qed.

Lemma deleteCategory_reads_userId_prefix_witness :
  (deleteCategory "2" (JStr "1abc") (sampleStore true)).1 = Respond 204 NoContent
  /\ Category.id <$> categories (deleteCategory "2" (JStr "1abc") (sampleStore true)).2
     = [1].
Proof.
  destruct (deleteCategory_reads_userId_prefix (sampleStore true) "2" "1abc"
              {| Category.id := 2; Category.name := "Food"; Category.userId := Some 1 |} 1)
    as (Hresp & Hrows).
  - compute_done.
  - compute_done.
  - reflexivity.
  - reflexivity.
  - reflexivity.
  - intros _. compute_done.
  - split; [exact Hresp|]. by rewrite Hrows.
Defined.

(** ** Suggestions: what a request stores *)

Lemma generateAndSaveSuggestion_cases (provider : jsval -> AxiosOutcome) (now : Z)
  (userId prompt : jsval) (s : Store) :
  (exists record s',
     generateAndSaveSuggestion provider now userId prompt s
     = (Respond 201 (SuggestionJson record), s'))
  \/ (generateAndSaveSuggestion provider now userId prompt s).2 = s.
Proof.
  unfold generateAndSaveSuggestion.
  destruct (negb (truthy prompt)); [by right|].
  destruct (negb (truthy userId)); [by right|].
  destruct (aiService.generateAndSave provider now userId prompt s)
    as [[record s']|[]]; [|by right..].
  left. by exists record, s'.
Qed.

Lemma generateAndSaveSuggestion_saved (provider : jsval -> AxiosOutcome) (now : Z)
  (userId prompt : jsval) (s s' : Store) (record : AISuggestion.t) :
  generateAndSaveSuggestion provider now userId prompt s
  = (Respond 201 (SuggestionJson record), s') ->
  exists u data text,
    provider prompt = HttpOk data
    /\ content data = Some text
    /\ sqlInteger userId = Some u
    /\ record = {| AISuggestion.id := nextSuggestionId s;
                   AISuggestion.userId := u;
                   AISuggestion.prompt := ToString prompt;
                   AISuggestion.response := text;
                   AISuggestion.createdAt := now |}
    /\ s' = setSuggestions s (suggestions s ++ [record]) (nextSuggestionId s + 1).
Proof.
  unfold generateAndSaveSuggestion.
  destruct (negb (truthy prompt)); [done|].
  destruct (negb (truthy userId)); [done|].
  unfold aiService.generateAndSave, callLLM, AISuggestion_create.
  destruct (provider prompt) as [| |data]; simpl; [done|done|].
  destruct (content data) as [text|] eqn:Hcontent; simpl; [|done].
  destruct (notNull "userId" userId) as [[]|[]]; simpl; try done.
  destruct (notNull "prompt" prompt) as [[]|[]]; simpl; try done.
  destruct (sqlInteger userId) as [u|]; simpl; [|done].
  destruct (reference s _ _) as [[]|[]]; simpl; try done.
  intros [= <- <-]. by exists u, data, text.
Qed.

(** ** The global categories *)

Lemma handle_global_categories (r : Request) (s : Store) :
  NoDup (Category.id <$> categories s) ->
  filter (fun c => Category.userId c = None) (categories (handle r s).2)
  = filter (fun c => Category.userId c = None) (categories s).
Proof.
  intros Hnd.
  destruct r as [body|id body|id userId|name userId|id userId|provider now userId prompt];
    cbn [handle].
  - destruct (createTransaction_cases body s) as [(t & s' & Hc)| ->]; [|done].
    rewrite Hc. cbn [snd].
    by apply createTransaction_created in Hc as (_ & _ & _ & _ & _ & -> & _).
  - destruct (updateTransaction_cases id body s) as [(t & s' & Hu)| ->]; [|done].
    rewrite Hu. cbn [snd].
    by apply updateTransaction_updated in Hu as (? & _ & _ & _ & _ & _ & -> & _).
  - unfold deleteTransaction. repeat case_match; simplify_eq/=; done.
  - destruct (createCategory_cases name userId s) as [(c & s' & Hc)| ->]; [|done].
    rewrite Hc. cbn [snd].
    apply createCategory_created in Hc as (u & _ & _ & Howner & _ & _ & _ & _ & ->).
    cbn [categories setCategories]. apply filter_snoc_False. by rewrite Howner.
  - destruct (deleteCategory_cases id userId s) as [[s' Hd]| ->]; [|done].
    rewrite Hd. cbn [snd].
    apply deleteCategory_owner in Hd as (c & u & Hin & _ & Howner & _ & _ & ->).
    rewrite list_filter_filter. apply filter_ext_in. intros r Hr.
    split; [tauto|]. intros Hglobal. split; [done|]. intros Heq.
    rewrite (key_determines_row Category.id _ c r Hnd Hin Hr Heq) in Hglobal.
    congruence.
  - destruct (generateAndSaveSuggestion_cases provider now userId prompt s)
      as [(record & s' & Hg)| ->]; [|done].
    rewrite Hg. cbn [snd].
    by apply generateAndSaveSuggestion_saved in Hg as (? & ? & ? & _ & _ & _ & _ & ->).
Qed.

(** X12. The global categories are beyond the reach of the API: whatever
    requests arrive, the categories without an owner are the same rows in
    the same order afterwards. *)
Theorem global_categories_never_change (requests : list Request) (s : Store) :
  keysOk s ->
  filter (fun c => Category.userId c = None) (categories (run requests s))
  = filter (fun c => Category.userId c = None) (categories s).
Proof.
  revert s. induction requests as [|r requests IH]; intros s Hs; [done|].
  cbn [run foldl]. change (foldl _ ?x requests) with (run requests x).
  rewrite IH by (by apply handle_keysOk).
  apply handle_global_categories. by destruct Hs.
Qed.

Lemma global_categories_never_change_witness :
  filter (fun c => Category.userId c = None)
         (categories (run [DeleteCategory "1" (JStr "1");
                           PostCategory (JStr "Rent") JNull;
                           DeleteCategory "2" (JStr "1")] (sampleStore false)))
  = [ {| Category.id := 1; Category.name := "Salary"; Category.userId := None |} ].
Proof.
  rewrite (global_categories_never_change _ (sampleStore false)).
  - vm_compute. reflexivity.
  - constructor; compute_done.
Defined.

(** ** The history of suggestions *)

Lemma insertDesc_Permutation (r : AISuggestion.t) (l : list AISuggestion.t) :
  insertDesc r l ≡ₚ r :: l.
Proof.
  induction l as [|x l IH]; [done|]. simpl.
  destruct (_ <=? _); [done|]. rewrite IH. apply Permutation_swap.
Qed.

Lemma orderByCreatedAtDesc_Permutation (l : list AISuggestion.t) :
  orderByCreatedAtDesc l ≡ₚ l.
Proof.
  unfold orderByCreatedAtDesc. induction l as [|x l IH]; [done|].
  simpl. rewrite insertDesc_Permutation. by rewrite IH.
Qed.

Lemma insertDesc_newestFirst (r : AISuggestion.t) (l : list AISuggestion.t) :
  newestFirst l -> newestFirst (insertDesc r l).
Proof.
  unfold newestFirst. induction l as [|x l IH]; intros Hl.
  - simpl. by repeat constructor.
  - simpl. apply StronglySorted_inv in Hl as [Hl Hx].
    destruct (Z.leb_spec (AISuggestion.createdAt x) (AISuggestion.createdAt r)) as [Hle|Hlt].
    + constructor; [by constructor|]. constructor; [done|].
      eapply Forall_impl; [exact Hx|]. intros y Hy. simpl in *. lia.
    + constructor; [by apply IH|].
      rewrite insertDesc_Permutation. constructor; [lia|done].
Qed.

Lemma orderByCreatedAtDesc_newestFirst (l : list AISuggestion.t) :
  newestFirst (orderByCreatedAtDesc l).
Proof.
  unfold orderByCreatedAtDesc. induction l as [|x l IH]; [constructor|].
  simpl. by apply insertDesc_newestFirst.
Qed.

Lemma aiService_list_rows (userId : jsval) (u : Z) (s : Store) :
  sqlInteger userId = Some u ->
  aiService.list userId s
  = Ok (orderByCreatedAtDesc
          (filter (fun r => AISuggestion.userId r = u) (suggestions s))).
Proof.
  intros Hu. unfold aiService.list. rewrite (whereInteger_coerced _ _ u Hu).
  cbn [mbind Result_bind]. do 2 f_equal. apply list_filter_iff. intros r.
  split; [by intros [= ->]|by intros ->].
Qed.

(** X13. [getSuggestions] answers with the suggestions of the caller, all of
    them and no other user's, the most recent first. *)
Theorem getSuggestions_own_newest_first (s : Store) (userId : jsval) (u : Z) :
  truthy userId = true ->
  sqlInteger userId = Some u ->
  exists rows,
    getSuggestions userId s = Respond 200 (SuggestionsJson rows)
    /\ rows ≡ₚ filter (fun r => AISuggestion.userId r = u) (suggestions s)
    /\ (forall r, r ∈ rows <-> r ∈ suggestions s /\ AISuggestion.userId r = u)
    /\ newestFirst rows.
Proof.
  intros Htruthy Hu. eexists. split; [|split; [|split]].
  - unfold getSuggestions. by rewrite Htruthy, (aiService_list_rows userId u s Hu).
  - apply orderByCreatedAtDesc_Permutation.
  - intros r. rewrite orderByCreatedAtDesc_Permutation, list_elem_of_filter. tauto.
  - apply orderByCreatedAtDesc_newestFirst.
Qed.

Lemma getSuggestions_own_newest_first_witness :
  exists rows,
    getSuggestions (JStr "1")
      (generateAndSaveSuggestion sampleProvider 1754092800000 (JStr "1")
         (JStr "And then?") historyStore).2
    = Respond 200 (SuggestionsJson rows)
    /\ newestFirst rows.
Proof.
  destruct (getSuggestions_own_newest_first
              (generateAndSaveSuggestion sampleProvider 1754092800000 (JStr "1")
                 (JStr "And then?") historyStore).2 (JStr "1") 1)
    as (rows & Hrows & _ & _ & Hsorted).
  - reflexivity.
  - vm_compute. reflexivity.
  - by exists rows.
Defined.

Lemma foldr_insertDesc_newest (r : AISuggestion.t) (l k : list AISuggestion.t) :
  Forall (fun x => AISuggestion.createdAt x < AISuggestion.createdAt r) l ->
  foldr insertDesc (r :: k) l = r :: foldr insertDesc k l.
Proof.
  induction l as [|x l IH]; intros Hl; [done|].
  apply Forall_cons in Hl as [Hx Hl]. simpl. rewrite (IH Hl). simpl.
  destruct (Z.leb_spec (AISuggestion.createdAt r) (AISuggestion.createdAt x)); [lia|done].
Qed.

(** X14. A suggestion that was generated holds the provider's text
    under the next key, with the caller as its user and the time of the
    request; it is stored after the rows that were there, and when it is more
    recent than the caller's earlier suggestions it heads the next
    history. *)
Theorem generated_suggestion_heads_the_history
  (provider : jsval -> AxiosOutcome) (now : Z) (userId prompt : jsval)
  (s s' : Store) (record : AISuggestion.t) :
  generateAndSaveSuggestion provider now userId prompt s
  = (Respond 201 (SuggestionJson record), s') ->
  (exists data,
     provider prompt = HttpOk data
     /\ content data = Some (AISuggestion.response record))
  /\ AISuggestion.prompt record = ToString prompt
  /\ AISuggestion.createdAt record = now
  /\ AISuggestion.id record = nextSuggestionId s
  /\ sqlInteger userId = Some (AISuggestion.userId record)
  /\ suggestions s' = suggestions s ++ [record]
  /\ ((forall r, r ∈ suggestions s ->
                 AISuggestion.userId r = AISuggestion.userId record ->
                 AISuggestion.createdAt r < now) ->
      exists rows,
        getSuggestions userId s = Respond 200 (SuggestionsJson rows)
        /\ getSuggestions userId s' = Respond 200 (SuggestionsJson (record :: rows))).
Proof.
  intros Hg.
  assert (truthy userId = true) as Htruthy.
  { unfold generateAndSaveSuggestion in Hg.
    destruct (negb (truthy prompt)); [done|]. by destruct (truthy userId). }
  apply generateAndSaveSuggestion_saved in Hg
    as (u & data & text & Hprov & Hcontent & Hu & -> & ->).
  cbn [AISuggestion.userId AISuggestion.id AISuggestion.response suggestions
       setSuggestions AISuggestion.createdAt AISuggestion.prompt].
  split; [by exists data|]. do 5 (split; [done|]).
  intros Hnewer. eexists. unfold getSuggestions. rewrite Htruthy. cbn [negb].
    rewrite !(aiService_list_rows userId u _ Hu).
    split; [reflexivity|]. cbn [suggestions setSuggestions].
    rewrite filter_snoc_True by done.
    unfold orderByCreatedAtDesc. rewrite foldr_app. cbn [foldr insertDesc].
    rewrite foldr_insertDesc_newest; [done|].
    apply Forall_forall. intros r Hr. apply list_elem_of_filter in Hr as [Hr Hin].
    cbn [AISuggestion.createdAt]. by apply Hnewer.
Qed.

Lemma generated_suggestion_heads_the_history_witness :
  getSuggestions (JStr "1")
    (generateAndSaveSuggestion sampleProvider 1754092800000 (JStr "1")
       (JStr "And then?") historyStore).2
  = Respond 200 (SuggestionsJson [secondSuggestion; firstSuggestion]).
Proof.
  destruct (generated_suggestion_heads_the_history sampleProvider 1754092800000
              (JStr "1") (JStr "And then?") historyStore
              (generateAndSaveSuggestion sampleProvider 1754092800000 (JStr "1")
                 (JStr "And then?") historyStore).2 secondSuggestion)
    as (_ & _ & _ & _ & _ & _ & Hhead).
  - vm_compute. reflexivity.
  - destruct Hhead as (rows & Hbefore & ->).
    + intros r Hr _. vm_compute in Hr. apply list_elem_of_singleton in Hr as ->.
      simpl. lia.
    + vm_compute in Hbefore. by injection Hbefore as <-.
Defined.

(** ** What a request leaves alone *)

Lemma createTransaction_frame (body : TransactionBody.t) (s : Store) :
  let s' := (createTransaction body s).2 in
  users s' = users s /\ enforceReferences s' = enforceReferences s
  /\ suggestions s' = suggestions s /\ nextSuggestionId s' = nextSuggestionId s.
Proof.
  cbv zeta. unfold createTransaction.
  destruct (negb (truthy (TransactionBody.userId body))); [done|].
  destruct (_ || _); [done|].
  unfold Transaction_create.
  repeat (match goal with
          | |- context [notNull ?a ?v] => destruct (notNull a v) as [[]|]; simpl; [|done]
          | |- context [coerce ?a ?o] => destruct (coerce a o); simpl; [|done]
          | |- context [reference ?s ?a ?b] =>
              destruct (reference s a b) as [[]|]; simpl; [|done]
          end).
  done.
Qed.

Lemma updateTransaction_frame (id : string) (body : TransactionBody.t) (s : Store) :
  let s' := (updateTransaction id body s).2 in
  users s' = users s /\ enforceReferences s' = enforceReferences s
  /\ suggestions s' = suggestions s /\ nextSuggestionId s' = nextSuggestionId s.
Proof.
  cbv zeta. unfold updateTransaction.
  destruct (negb (truthy (TransactionBody.userId body))); [done|].
  destruct (Transaction_findOne _ _ s) as [[old|]|e]; [|done|done].
  unfold Transaction_update.
  repeat (match goal with
          | |- context [updated ?a ?r ?v ?o] =>
              destruct (updated a r v o); simpl; [|done]
          | |- context [reference ?s ?a ?b] =>
              destruct (reference s a b) as [[]|]; simpl; [|done]
          end).
  done.
Qed.

Lemma deleteTransaction_frame (id : string) (userId : jsval) (s : Store) :
  let s' := (deleteTransaction id userId s).2 in
  users s' = users s /\ enforceReferences s' = enforceReferences s
  /\ suggestions s' = suggestions s /\ nextSuggestionId s' = nextSuggestionId s
  /\ categories s' = categories s /\ nextCategoryId s' = nextCategoryId s.
Proof.
  cbv zeta. unfold deleteTransaction.
  destruct (negb (truthy userId)); [done|].
  destruct (Transaction_findOne _ _ s) as [[t|]|e]; done.
Qed.

Lemma deleteCategory_frame (id : string) (userId : jsval) (s : Store) :
  let s' := (deleteCategory id userId s).2 in
  users s' = users s /\ enforceReferences s' = enforceReferences s
  /\ suggestions s' = suggestions s /\ nextSuggestionId s' = nextSuggestionId s
  /\ transactions s' = transactions s /\ nextTransactionId s' = nextTransactionId s.
Proof.
  cbv zeta. unfold deleteCategory.
  destruct (negb (truthy userId)); [done|].
  destruct (Category_findOne _ s) as [[c|]|e]; [|done|done].
  destruct (negb (strictEq _ _)); [done|].
  unfold Category_destroy. destruct (reference s _ _) as [[]|]; done.
Qed.

Lemma handle_frame (r : Request) (s : Store) :
  users (handle r s).2 = users s
  /\ enforceReferences (handle r s).2 = enforceReferences s.
Proof.
  destruct r as [body|id body|id userId|name userId|id userId|provider now userId prompt];
    cbn [handle].
  - by destruct (createTransaction_frame body s) as (? & ? & _).
  - by destruct (updateTransaction_frame id body s) as (? & ? & _).
  - by destruct (deleteTransaction_frame id userId s) as (? & ? & _).
  - destruct (createCategory_cases name userId s) as [(c & s' & Hc)| ->]; [|done].
    rewrite Hc. cbn [snd].
    by apply createCategory_created in Hc as (u & _ & _ & _ & _ & _ & _ & _ & ->).
  - by destruct (deleteCategory_frame id userId s) as (? & ? & _).
  - destruct (generateAndSaveSuggestion_cases provider now userId prompt s)
      as [(record & s' & Hg)| ->]; [|done].
    rewrite Hg. cbn [snd].
    by apply generateAndSaveSuggestion_saved in Hg as (? & ? & ? & _ & _ & _ & _ & ->).
Qed.

Lemma handle_suggestions (r : Request) (s : Store) :
  let s' := (handle r s).2 in
  (suggestions s' = suggestions s /\ nextSuggestionId s' = nextSuggestionId s)
  \/ (exists record,
        suggestions s' = suggestions s ++ [record]
        /\ AISuggestion.id record = nextSuggestionId s
        /\ nextSuggestionId s' = nextSuggestionId s + 1).
Proof.
  cbv zeta.
  destruct r as [body|id body|id userId|name userId|id userId|provider now userId prompt];
    cbn [handle].
  - left. by destruct (createTransaction_frame body s) as (_ & _ & ? & ?).
  - left. by destruct (updateTransaction_frame id body s) as (_ & _ & ? & ?).
  - left. by destruct (deleteTransaction_frame id userId s) as (_ & _ & ? & ? & _).
  - left. destruct (createCategory_cases name userId s) as [(c & s' & Hc)| ->]; [|done].
    rewrite Hc. cbn [snd].
    by apply createCategory_created in Hc as (u & _ & _ & _ & _ & _ & _ & _ & ->).
  - left. by destruct (deleteCategory_frame id userId s) as (_ & _ & ? & ? & _).
  - destruct (generateAndSaveSuggestion_cases provider now userId prompt s)
      as [(record & s' & Hg)| ->]; [|by left].
    rewrite Hg. cbn [snd].
    apply generateAndSaveSuggestion_saved in Hg as (? & ? & ? & _ & _ & _ & -> & ->).
    right. eexists. cbn. done.
Qed.

(** X15. The table of suggestions only grows: no request removes or changes
    a stored suggestion, so the rows stored before a sequence of requests
    are the first rows of the table after it. *)
Theorem suggestions_are_append_only (requests : list Request) (s : Store) :
  suggestions s `prefix_of` suggestions (run requests s).
Proof.
  revert s. induction requests as [|r requests IH]; intros s; [done|].
  cbn [run foldl]. change (foldl _ ?x requests) with (run requests x).
  etrans; [|apply IH].
  destruct (handle_suggestions r s) as [[-> _]|(record & -> & _)]; [done|].
  by apply prefix_app_r.
Qed.

(** ** References *)

Lemma createTransaction_row (body : TransactionBody.t) (s s' : Store)
  (t : Transaction.t) :
  createTransaction body s = (Respond 201 (TransactionJson t), s') ->
  sqlInteger (TransactionBody.userId body) = Some (Transaction.userId t)
  /\ sqlFloat (TransactionBody.amount body) = Some (Transaction.amount t)
  /\ sqlDate (TransactionBody.date body) = Some (Transaction.date t)
  /\ sqlInteger (TransactionBody.categoryId body) = Some (Transaction.categoryId t)
  /\ sqlTransactionType (TransactionBody.type body) = Some (Transaction.type t)
  /\ Transaction.description t = sqlString (TransactionBody.description body)
  /\ Transaction.id t = nextTransactionId s
  /\ (enforceReferences s = true ->
      Transaction.userId t ∈ users s
      /\ Transaction.categoryId t ∈ (Category.id <$> categories s))
  /\ s' = setTransactions s (transactions s ++ [t]) (nextTransactionId s + 1).
Proof.
  unfold createTransaction, Transaction_create.
  destruct (truthy (TransactionBody.userId body)); simpl; [|done].
  destruct (truthy (TransactionBody.type body)); simpl; [|done].
  destruct (includes _ _); simpl; [|done].
  destruct (notNull "userId" _) as [[]|]; simpl; [|done].
  destruct (notNull "amount" _) as [[]|]; simpl; [|done].
  destruct (notNull "date" _) as [[]|]; simpl; [|done].
  destruct (notNull "categoryId" _) as [[]|]; simpl; [|done].
  destruct (notNull "type" _) as [[]|]; simpl; [|done].
  destruct (sqlInteger (TransactionBody.userId body)) as [u|]; simpl; [|done].
  destruct (sqlFloat _) as [a|]; simpl; [|done].
  destruct (sqlDate _) as [d|]; simpl; [|done].
  destruct (sqlInteger (TransactionBody.categoryId body)) as [c|]; simpl; [|done].
  destruct (sqlTransactionType _) as [k|]; simpl; [|done].
  destruct (reference s "users" _) as [[]|] eqn:Hu; simpl; [|done].
  destruct (reference s "categories" _) as [[]|] eqn:Hc; simpl; [|done].
  intros [= <- <-]. simpl. repeat split; try done.
  - apply reference_Ok in Hu; [|done]. by apply bool_decide_eq_true in Hu.
  - apply reference_Ok in Hc; [|done]. by apply bool_decide_eq_true in Hc.
Qed.

Lemma updateTransaction_row (id : string) (body : TransactionBody.t)
  (s s' : Store) (t : Transaction.t) :
  updateTransaction id body s = (Respond 200 (TransactionJson t), s') ->
  exists old,
    old ∈ transactions s
    /\ Transaction.id t = Transaction.id old
    /\ (enforceReferences s = true ->
        Transaction.userId t ∈ users s
        /\ Transaction.categoryId t ∈ (Category.id <$> categories s))
    /\ s' = setTransactions s
              ((fun r => if Transaction.id r =? Transaction.id old then t else r)
                 <$> transactions s)
              (nextTransactionId s).
Proof.
  unfold updateTransaction.
  destruct (negb (truthy (TransactionBody.userId body))); [done|].
  destruct (Transaction_findOne _ _ s) as [[old|]|e] eqn:Hfind; [|done|done].
  apply Transaction_findOne_elem in Hfind as [Hin _].
  unfold Transaction_update.
  destruct (updated "userId" _ _ _) as [u|]; simpl; [|done].
  destruct (updated "amount" _ _ _) as [a|]; simpl; [|done].
  destruct (updated "date" _ _ _) as [d|]; simpl; [|done].
  destruct (updated "categoryId" _ _ _) as [c|]; simpl; [|done].
  destruct (updated "type" _ _ _) as [k|]; simpl; [|done].
  destruct (reference s "users" _) as [[]|] eqn:Hu; simpl; [|done].
  destruct (reference s "categories" _) as [[]|] eqn:Hc; simpl; [|done].
  intros [= <- <-]. exists old. simpl. repeat split; try done.
  - apply reference_Ok in Hu; [|done]. by apply bool_decide_eq_true in Hu.
  - apply reference_Ok in Hc; [|done]. by apply bool_decide_eq_true in Hc.
Qed.

Lemma generateAndSaveSuggestion_user (provider : jsval -> AxiosOutcome) (now : Z)
  (userId prompt : jsval) (s s' : Store) (record : AISuggestion.t) :
  generateAndSaveSuggestion provider now userId prompt s
  = (Respond 201 (SuggestionJson record), s') ->
  enforceReferences s = true -> AISuggestion.userId record ∈ users s.
Proof.
  unfold generateAndSaveSuggestion.
  destruct (negb (truthy prompt)); [done|].
  destruct (negb (truthy userId)); [done|].
  unfold aiService.generateAndSave, callLLM, AISuggestion_create.
  destruct (provider prompt) as [| |data]; simpl; [done|done|].
  destruct (content data) as [text|] eqn:Hcontent; simpl; [|done].
  destruct (notNull "userId" userId) as [[]|[]]; simpl; try done.
  destruct (notNull "prompt" prompt) as [[]|[]]; simpl; try done.
  destruct (sqlInteger userId) as [u|]; simpl; [|done].
  destruct (reference s _ _) as [[]|[]] eqn:Href; simpl; try done.
  intros [= <- <-] He. simpl. apply reference_Ok in Href; [|done].
  by apply bool_decide_eq_true in Href.
Qed.

Lemma handle_refsOk (r : Request) (s : Store) :
  enforceReferences s = true -> refsOk s -> refsOk (handle r s).2.
Proof.
  intros He [Htu Htc Hcu Hsu].
  destruct r as [body|id body|id userId|name userId|id userId|provider now userId prompt];
    cbn [handle].
  - destruct (createTransaction_cases body s) as [(t & s' & Hc)| ->]; [|done].
    rewrite Hc. cbn [snd].
    apply createTransaction_row in Hc as (_ & _ & _ & _ & _ & _ & _ & Href & ->).
    destruct (Href He) as [Hu Hcat].
    constructor; cbn [transactions categories users suggestions setTransactions];
      try done; apply Forall_app; (split; [done|]); by apply Forall_singleton.
  - destruct (updateTransaction_cases id body s) as [(t & s' & Hu)| ->]; [|done].
    rewrite Hu. cbn [snd].
    apply updateTransaction_row in Hu as (old & _ & _ & Href & ->).
    destruct (Href He) as [Hu Hcat].
    constructor; cbn [transactions categories users suggestions setTransactions];
      try done; apply Forall_fmap.
    + eapply Forall_impl; [exact Htu|]. intros x Hx. simpl in *.
      by destruct (_ =? _).
    + eapply Forall_impl; [exact Htc|]. intros x Hx. simpl in *.
      by destruct (_ =? _).
  - unfold deleteTransaction.
    destruct (negb (truthy userId)); [done|].
    destruct (Transaction_findOne _ _ s) as [[t|]|e]; [|done|done].
    cbn [snd]. unfold Transaction_destroy.
    constructor; cbn [transactions categories users suggestions setTransactions];
      try done; apply Forall_forall; intros x Hx;
      apply list_elem_of_filter in Hx as [_ Hx].
    + by apply (proj1 (Forall_forall _ _) Htu).
    + by apply (proj1 (Forall_forall _ _) Htc).
  - destruct (createCategory_cases name userId s) as [(c & s' & Hc)| ->]; [|done].
    rewrite Hc. cbn [snd].
    apply createCategory_created in Hc as (u & _ & _ & Howner & _ & _ & _ & Href & ->).
    constructor; cbn [transactions categories users suggestions setCategories];
      try done.
    + eapply Forall_impl; [exact Htc|]. intros x Hx. simpl in *.
      rewrite fmap_app. apply elem_of_app. by left.
    + apply Forall_app. split; [done|]. apply Forall_singleton.
      intros v Hv. rewrite Howner in Hv. injection Hv as <-. by apply Href.
  - destruct (deleteCategory_cases id userId s) as [[s' Hd]| ->]; [|done].
    rewrite Hd. cbn [snd].
    destruct (deleteCategory_frame id userId s) as (Eu & _ & Es & _ & Et & _).
    rewrite Hd in Eu, Es, Et. cbn [snd] in Eu, Es, Et.
    apply deleteCategory_owner in Hd as (c & u & Hin & _ & _ & _ & Href & Ec).
    constructor; rewrite ?Eu, ?Es, ?Et, ?Ec; try done.
    + apply Forall_forall. intros x Hx.
      pose proof (proj1 (Forall_forall _ _) Htc x Hx) as Hcat. simpl in Hcat.
      apply list_elem_of_fmap in Hcat as (y & Hy & Hyin).
      rewrite Hy. apply list_elem_of_fmap_2. apply list_elem_of_filter. split; [|done].
      intros Heq. apply (Href He). rewrite <- Heq, <- Hy.
      by apply list_elem_of_fmap_2.
    + apply Forall_forall. intros x Hx. apply list_elem_of_filter in Hx as [_ Hx].
      by apply (proj1 (Forall_forall _ _) Hcu).
  - destruct (generateAndSaveSuggestion_cases provider now userId prompt s)
      as [(record & s' & Hg)| ->]; [|done].
    rewrite Hg. cbn [snd].
    pose proof (generateAndSaveSuggestion_user _ _ _ _ _ _ _ Hg He) as Huser.
    apply generateAndSaveSuggestion_saved in Hg as (? & ? & ? & _ & _ & _ & _ & ->).
    constructor; cbn [transactions categories users suggestions setSuggestions];
      try done.
    apply Forall_app. split; [done|]. by apply Forall_singleton.
Qed.

(** X16. On a database that enforces the references of the model
    definitions, they hold after every sequence of requests: each
    transaction names a user and a category that are stored, each category
    with an owner and each suggestion names a stored user.  So no request
    leaves a transaction without its category there. *)
Theorem references_stay_intact (requests : list Request) (s : Store) :
  enforceReferences s = true -> refsOk s -> refsOk (run requests s).
Proof.
  revert s. induction requests as [|r requests IH]; intros s He Hs; [done|].
  cbn [run foldl]. change (foldl _ ?x requests) with (run requests x).
  apply IH.
  - by rewrite (proj2 (handle_frame r s)).
  - by apply handle_refsOk.
Qed.

Lemma references_stay_intact_witness :
  refsOk (run (julyRequests ++ [DeleteCategory "2" (JStr "1")]) (sampleStore true)).
Proof.
  apply references_stay_intact; [reflexivity|].
  constructor; simpl; try (by constructor).
  apply Forall_cons. split; [by intros v [=]|].
  apply Forall_cons. split; [|by constructor].
  intros v [= <-]. compute_done.
Defined.

(** * Months and dates *)

Lemma monthStart_inj_window (k k' z : Z) :
  monthStart k <= z < monthStart (k + 1) ->
  monthStart k' <= z < monthStart (k' + 1) ->
  k = k'.
Proof.
  intros Hk Hk'.
  destruct (Z.lt_trichotomy k k') as [Hc|[Hc|Hc]]; [|done|].
  - pose proof (monthStart_mono (k + 1) k' ltac:(lia)). lia.
  - pose proof (monthStart_mono (k' + 1) k ltac:(lia)). lia.
Qed.

(** The window end that [setMonth] computes from the first of a month at
    midnight UTC, on a server whose clock is [tz] milliseconds ahead of
    UTC. *)
Lemma setMonth_next_in_zone (tz k y m : Z) :
  1 <= m <= 12 -> k = monthIndex y m ->
  - msPerDay < tz < msPerDay ->
  let startDate := monthStart k * msPerDay in
  setMonth tz startDate (getMonth tz startDate + 1)
  = startDate + daysInMonth (if tz <? 0 then k - 1 else k) * msPerDay.
Proof.
  intros Hm -> Hzone startDate. subst startDate.
  unfold setMonth, getMonth, LocalTime, UTC, YearFromTime, MonthFromTime, DateFromTime,
    daysInMonth.
  destruct (Z.ltb_spec tz 0) as [Hwest|Heast].
  - replace (Day (monthStart (monthIndex y m) * msPerDay + tz))
      with (monthStart (monthIndex y m) - 1)
      by (unfold Day, msPerDay in *; Z.div_mod_to_equations; lia).
    replace (TimeWithinDay (monthStart (monthIndex y m) * msPerDay + tz))
      with (msPerDay + tz)
      by (unfold TimeWithinDay, msPerDay in *; Z.div_mod_to_equations; lia).
    destruct (civilFromDays (monthStart (monthIndex y m) - 1)) as [[y' m'] d'] eqn:E.
    apply civilFromDays_spec in E as (Hm' & Hd' & Hz & Hlt). cbn [fst snd].
    assert (monthIndex y' m' = monthIndex y m - 1) as Hk.
    { apply (monthStart_inj_window _ _ (monthStart (monthIndex y m) - 1)); [lia|].
      replace (monthIndex y m - 1 + 1) with (monthIndex y m) by lia.
      pose proof (monthStart_step (monthIndex y m - 1)).
      replace (monthIndex y m - 1 + 1) with (monthIndex y m) in * by lia. lia. }
    unfold MakeDate. rewrite MakeDay_monthStart.
    replace (12 * y' + (m' - 1 + 1) - 2) with (monthIndex y m)
      by (unfold monthIndex in *; lia).
    replace (monthIndex y m - 1 + 1) with (monthIndex y m) by lia.
    rewrite <- Hk. lia.
  - replace (Day (monthStart (monthIndex y m) * msPerDay + tz))
      with (monthStart (monthIndex y m))
      by (unfold Day, msPerDay in *; Z.div_mod_to_equations; lia).
    replace (TimeWithinDay (monthStart (monthIndex y m) * msPerDay + tz)) with tz
      by (unfold TimeWithinDay, msPerDay in *; Z.div_mod_to_equations; lia).
    rewrite (civilFromDays_monthStart y m Hm). cbn [fst snd].
    unfold MakeDate. rewrite MakeDay_monthStart.
    replace (12 * y + (m - 1 + 1) - 2) with (monthIndex y m + 1)
      by (unfold monthIndex; lia).
    lia.
Qed.

(** X17. The window of [monthlySummary] starts at midnight UTC on the first
    of the month, wherever the server is.  On a server whose zone keeps one
    offset [tz] from UTC, without daylight saving time: at or east of UTC
    the window is as long as the month; west of UTC it is as long as the
    month before, so it ends early after a shorter month and late after a
    longer one. *)
Theorem monthlySummary_window_in_zone
  (tz : Z) (userId : jsval) (month : string) (startDate : Z) (s : Store) :
  parseISODate (month +:+ "-01T00:00:00.000Z") = Some startDate ->
  - msPerDay < tz < msPerDay ->
  exists y m,
    1 <= m <= 12
    /\ startsWith (toISOString startDate) month = true
    /\ startDate = monthStart (monthIndex y m) * msPerDay
    /\ monthlySummary tz userId month s
       = summarize userId startDate
           (startDate
            + daysInMonth (if tz <? 0 then monthIndex y m - 1 else monthIndex y m)
              * msPerDay) s.
Proof.
  intros Hparse Hzone. pose proof Hparse as Hdigits.
  apply parseISODate_month in Hdigits
    as (d1 & d2 & d3 & d4 & d5 & d6 & (H1 & H2 & H3 & H4 & H5 & H6) & -> & Hm & Hstart).
  set (y := ((d1 * 10 + d2) * 10 + d3) * 10 + d4) in *.
  set (m := d5 * 10 + d6) in *.
  destruct (monthlySummary_window y m Hm) as [Hs _]. cbv zeta in Hs.
  rewrite <- Hstart in Hs.
  exists y, m. split; [done|]. split; [|split; [done|]].
  - apply startsWith_month; try done. fold y m. rewrite Hs.
    rewrite (proj1 (Day_monthStart _)). by rewrite (civilFromDays_monthStart y m Hm).
  - unfold monthlySummary. rewrite Hparse. cbn [coerce mbind Result_bind].
    rewrite Hs. by rewrite (setMonth_next_in_zone tz _ y m Hm eq_refl Hzone).
Qed.

Lemma monthlySummary_window_in_zone_witness :
  monthlySummary (-18000000) (JStr "1") "2025-03" (julyStore true)
  = summarize (JStr "1") 1740787200000 (1740787200000 + 28 * msPerDay) (julyStore true).
Proof.
  destruct (monthlySummary_window_in_zone (-18000000) (JStr "1") "2025-03"
              1740787200000 (julyStore true)) as (y & m & Hm & _ & Hstart & ->).
  - vm_compute. reflexivity.
  - unfold msPerDay. lia.
  - do 3 f_equal.
    assert (monthIndex y m = monthIndex 2025 3) as ->; [|vm_compute; reflexivity].
    apply (monthStart_inj_window _ _ 20148).
    + pose proof (monthStart_step (monthIndex y m)). unfold msPerDay in Hstart. lia.
    + vm_compute. split; [discriminate|reflexivity].
Defined.

(** ** The two summaries *)

Lemma month_window (month : string) (startDate time : Z) :
  parseISODate (month +:+ "-01T00:00:00.000Z") = Some startDate ->
  startsWith (toISOString time) month = true
  <-> startDate <= time < setMonth 0 startDate (getMonth 0 startDate + 1).
Proof.
  intros Hparse.
  apply parseISODate_month in Hparse
    as (d1 & d2 & d3 & d4 & d5 & d6 & (H1 & H2 & H3 & H4 & H5 & H6) & -> & Hm & ->).
  destruct (monthlySummary_window (((d1 * 10 + d2) * 10 + d3) * 10 + d4)
              (d5 * 10 + d6) Hm) as [-> ->].
  rewrite startsWith_month by done.
  rewrite (yearMonth_window _ _ _ Hm).
  unfold Day, msPerDay. split; intros Hw; revert Hw; Z.div_mod_to_equations; lia.
Qed.

Lemma startOfThisMonth_parse (month : string) (startDate now : Z) :
  parseISODate (month +:+ "-01T00:00:00.000Z") = Some startDate ->
  startsWith (toISOString now) month = true ->
  ~ (0 <= getFullYear 0 now <= 99) ->
  newDateLocal 0 (getFullYear 0 now) (getMonth 0 now) 1 = startDate.
Proof.
  intros Hparse Hnow Hyear.
  apply parseISODate_month in Hparse
    as (d1 & d2 & d3 & d4 & d5 & d6 & (H1 & H2 & H3 & H4 & H5 & H6) & -> & Hm & ->).
  apply startsWith_month in Hnow; try done.
  unfold newDateLocal, getFullYear, getMonth, YearFromTime, MonthFromTime, LocalTime, UTC
    in *.
  rewrite Z.add_0_r in *.
  destruct (civilFromDays (Day now)) as [[y m] d]. cbn [fst snd] in *.
  injection Hnow as -> ->.
  destruct (Z.leb_spec 0 (((d1 * 10 + d2) * 10 + d3) * 10 + d4)),
           (Z.leb_spec (((d1 * 10 + d2) * 10 + d3) * 10 + d4) 99);
    cbn [andb]; lia.
Qed.

(** X18. With the server in UTC, the month-to-date summary of the dashboard
    is the monthly summary of the service for the current month as long as
    no transaction of the caller in that month is dated after the moment of
    the request. *)
Theorem getMonthlySummary_is_monthlySummary
  (now : Z) (userId : jsval) (month : string) (s : Store) (summary : Summary.t) :
  truthy userId = true ->
  startsWith (toISOString now) month = true ->
  ~ (0 <= getFullYear 0 now <= 99) ->
  monthlySummary 0 userId month s = Ok summary ->
  (forall t, t ∈ transactions s ->
             sqlInteger userId = Some (Transaction.userId t) ->
             startsWith (toISOString (Transaction.date t)) month = true ->
             Transaction.date t <= now) ->
  getMonthlySummary 0 now userId s
  = Respond 200 (SummaryJson (Summary.income summary) (Summary.expense summary)
                             (Summary.balance summary)).
Proof.
  intros Htruthy Hnow Hyear Hsummary Hpast.
  unfold monthlySummary in Hsummary.
  destruct (parseISODate (month +:+ "-01T00:00:00.000Z")) as [startDate|] eqn:Hparse;
    [|done].
  cbn [coerce mbind Result_bind] in Hsummary.
  destruct (sqlInteger userId) as [u|] eqn:Hu.
  2:{ unfold summarize, Transaction_findAll_window, whereInteger in Hsummary.
      destruct userId; try done; simpl in *; by rewrite Hu in Hsummary. }
  rewrite (summarize_sums userId u _ _ s Hu) in Hsummary. injection Hsummary as <-.
  rewrite (getMonthlySummary_sums 0 now userId u s Htruthy Hu). cbv zeta.
  cbn [Summary.income Summary.expense Summary.balance].
  rewrite (startOfThisMonth_parse month startDate now Hparse Hnow Hyear).
  assert (filter (fun r => Transaction.userId r = u
                           /\ startDate <= Transaction.date r <= now) (transactions s)
          = filter (inWindow u startDate
                      (setMonth 0 startDate (getMonth 0 startDate + 1)))
                   (transactions s)) as ->; [|done].
  apply filter_ext_in. intros t Ht. unfold inWindow.
  pose proof (month_window month startDate now Hparse) as Hwnow.
  pose proof (month_window month startDate (Transaction.date t) Hparse) as Hwt.
  split.
  - intros [Hown [Hlo Hhi]]. split; [done|]. apply proj1 in Hwnow.
    specialize (Hwnow Hnow). lia.
  - intros [Hown Hw]. split; [done|]. split; [lia|].
    apply Hpast; [done|by rewrite Hown|]. by apply Hwt.
Qed.

Lemma getMonthlySummary_is_monthlySummary_witness :
  getMonthlySummary 0 1753000000000 (JStr "1") (julyStore true)
  = Respond 200 (SummaryJson 1000 150 850).
Proof.
  apply (getMonthlySummary_is_monthlySummary 1753000000000 (JStr "1") "2025-07"
           (julyStore true)
           {| Summary.income := 1000; Summary.expense := 150; Summary.balance := 850 |}).
  - reflexivity.
  - vm_compute. reflexivity.
  - change (getFullYear 0 1753000000000) with 2025. lia.
  - vm_compute. reflexivity.
  - intros t Hin _ Hmonth. apply list_elem_of_In in Hin. vm_compute in Hin.
    destruct Hin as [<-|[<-|[<-|[]]]];
      [clear Hmonth; simpl; lia|clear Hmonth; simpl; lia|].
    vm_compute in Hmonth. discriminate Hmonth.
Defined.

(** ** The text of numbers *)

Ltac eval_digit :=
  match goal with
  | |- context [digitOf ?c] =>
      let v := eval vm_compute in (digitOf c) in change (digitOf c) with v
  end.

Ltac eval_acc :=
  match goal with
  | |- allDigits _ (Some ?e) = _ =>
      let v := eval vm_compute in e in change e with v
  end.

Lemma allDigits_acc (d : Decimal.uint) (acc : positive) :
  allDigits (NilEmpty.string_of_uint d) (Some (Z.pos acc))
  = Some (Z.pos (Pos.of_uint_acc d acc)).
Proof.
  revert acc.
  induction d as [|d IH|d IH|d IH|d IH|d IH|d IH|d IH|d IH|d IH|d IH]; intros acc;
    cbn [NilEmpty.string_of_uint Pos.of_uint_acc allDigits]; [done|..];
    eval_digit; cbv iota beta; rewrite <- IH; do 2 f_equal; cbv [default from_option id]; lia.
Qed.

Lemma allDigits_zero (d : Decimal.uint) :
  allDigits (NilEmpty.string_of_uint d) (Some 0) = Some (Z.of_N (Pos.of_uint d)).
Proof.
  induction d as [|d IH|d IH|d IH|d IH|d IH|d IH|d IH|d IH|d IH|d IH];
    cbn [NilEmpty.string_of_uint Pos.of_uint allDigits]; [done|..];
    eval_digit; cbv iota beta; eval_acc;
    [exact IH|..]; rewrite allDigits_acc; reflexivity.
Qed.

Lemma allDigits_none (d : Decimal.uint) :
  d <> Decimal.Nil ->
  allDigits (NilEmpty.string_of_uint d) None = Some (Z.of_N (Pos.of_uint d)).
Proof.
  intros Hd. destruct d; [done|..];
    cbn [NilEmpty.string_of_uint Pos.of_uint allDigits];
    eval_digit; cbv iota beta; eval_acc;
    [apply allDigits_zero|..]; rewrite allDigits_acc; reflexivity.
Qed.

Lemma to_uint_nonnil (p : positive) : Pos.to_uint p <> Decimal.Nil.
Proof.
  intros E. pose proof (Unsigned.of_to p) as H. rewrite E in H. discriminate.
Qed.

Lemma stripSign_digits (d : Decimal.uint) :
  d <> Decimal.Nil ->
  stripSign (NilEmpty.string_of_uint d) = (1, NilEmpty.string_of_uint d).
Proof. intros Hd. destruct d; done. Qed.

Lemma string_of_uint_to_uint (p : positive) :
  NilZero.string_of_uint (Pos.to_uint p) = NilEmpty.string_of_uint (Pos.to_uint p).
Proof.
  pose proof (to_uint_nonnil p). unfold NilZero.string_of_uint.
  by destruct (Pos.to_uint p).
Qed.

(** The decimal text of a number reads back as the number. *)
Lemma decimal_showZ (n : Z) : decimal (showZ n) = Some n.
Proof.
  unfold showZ, decimal. destruct n as [|p|p]; cbn [Z.to_int NilZero.string_of_int].
  - reflexivity.
  - rewrite string_of_uint_to_uint, stripSign_digits by apply to_uint_nonnil.
    rewrite allDigits_none by apply to_uint_nonnil.
    rewrite Unsigned.of_to. reflexivity.
  - rewrite string_of_uint_to_uint. cbn [stripSign].
    rewrite allDigits_none by apply to_uint_nonnil.
    rewrite Unsigned.of_to. reflexivity.
Qed.

Lemma allDigits_Some_acc (s : string) (acc : option Z) (n : Z) :
  allDigits s acc = Some n -> digitsPrefix 10 digitOf s acc = Some n.
Proof.
  revert acc. induction s as [|c s IH]; intros acc; cbn [allDigits digitsPrefix]; [done|].
  destruct (digitOf c) as [d|]; [apply IH|done].
Qed.

Lemma allDigits_first (s : string) (n : Z) :
  allDigits s None = Some n ->
  exists c s' d, s = String c s' /\ digitOf c = Some d.
Proof.
  destruct s as [|c s]; [done|]. cbn [allDigits].
  destruct (digitOf c) as [d|] eqn:E; [|done]. intros _. by exists c, s, d.
Qed.

Lemma digit_not_space (c : ascii) (d : Z) :
  digitOf c = Some d ->
  isWhiteSpace c = false /\ c <> "-"%char /\ c <> "+"%char
  /\ c <> "x"%char /\ c <> "X"%char.
Proof.
  intros E. apply digitOf_Some in E as [Hd ->].
  assert (d = 0 \/ d = 1 \/ d = 2 \/ d = 3 \/ d = 4 \/ d = 5 \/ d = 6 \/ d = 7
          \/ d = 8 \/ d = 9) as Hcases by lia.
  repeat destruct Hcases as [->|Hcases]; try subst d; by vm_compute.
Qed.

(** Without a [0x] prefix [parseInt] reads the decimal digits. *)
Lemma parseInt_decimal_digits (c : ascii) (s : string) (d n : Z) :
  digitOf c = Some d ->
  allDigits (String c s) None = Some n ->
  match String c s with
  | String "0" (String "x" s2) | String "0" (String "X" s2) =>
      digitsPrefix 16 hexDigitOf s2 None
  | _ => digitsPrefix 10 digitOf (String c s) None
  end = Some n.
Proof.
  intros Hc Hall.
  assert (forall r : string -> option Z,
            match s with
            | String "x" s2 | String "X" s2 => r s2
            | _ => digitsPrefix 10 digitOf (String c s) None
            end = Some n) as Hsecond.
  { intros r. destruct s as [|c2 s2]; [by apply allDigits_Some_acc|].
    assert (exists d2, digitOf c2 = Some d2) as [d2 Hc2].
    { cbn [allDigits] in Hall. rewrite Hc in Hall. cbn [allDigits] in Hall.
      destruct (digitOf c2) as [d2|]; [by exists d2|done]. }
    apply digit_not_space in Hc2 as (_ & _ & _ & Hx & HX).
    destruct c2 as [[|] [|] [|] [|] [|] [|] [|] [|]];
      try (by apply allDigits_Some_acc); done. }
  destruct c as [[|] [|] [|] [|] [|] [|] [|] [|]];
    try (by apply allDigits_Some_acc).
  apply Hsecond.
Qed.

(** What the store reads as a number from a text, [parseInt] reads as the
    same number. *)
Lemma decimal_parseInt (s : string) (n : Z) :
  decimal s = Some n -> parseInt s = Num n.
Proof.
  unfold decimal, parseInt.
  destruct (stripSign s) as [sign s1] eqn:Hsign.
  destruct (allDigits s1 None) as [m|] eqn:Hall; [|done].
  cbn [mbind option_bind]. intros [= <-].
  destruct (allDigits_first s1 m Hall) as (c & s' & d & -> & Hc).
  pose proof (digit_not_space c d Hc) as (Hws & Hminus & Hplus & _).
  assert (skipWhiteSpace s = s) as ->.
  { destruct s as [|a s0]; [done|]. cbn [skipWhiteSpace].
    destruct (isWhiteSpace a) eqn:E; [exfalso|done].
    unfold stripSign in Hsign.
    destruct a as [[|] [|] [|] [|] [|] [|] [|] [|]]; vm_compute in E;
      try discriminate E; simplify_eq; vm_compute in Hws; discriminate Hws. }
  rewrite Hsign.
  by rewrite (parseInt_decimal_digits c s' d m Hc Hall).
Qed.

Lemma parseInt_showZ (n : Z) : parseInt (showZ n) = Num n.
Proof. apply decimal_parseInt, decimal_showZ. Qed.

Lemma sqlInteger_showZ (n : Z) :
  -2147483648 <= n <= 2147483647 -> sqlInteger (JStr (showZ n)) = Some n.
Proof.
  intros Hn. unfold sqlInteger. rewrite decimal_showZ. cbn [mbind option_bind].
  destruct (Z.leb_spec (-2147483648) n), (Z.leb_spec n 2147483647); try lia. done.
Qed.

(** A [userId] that the store reads as a number is read as that number by
    [parseInt(userId)]. *)
Lemma sqlInteger_parseInt (v : jsval) (u : Z) :
  sqlInteger v = Some u -> parseInt (ToString v) = Num u.
Proof.
  unfold sqlInteger. destruct v as [| |n|s]; cbn [mbind option_bind ToString]; try done.
  - destruct (_ && _); [|done]. intros [= ->]. apply parseInt_showZ.
  - destruct (decimal s) as [n|] eqn:E; cbn [mbind option_bind]; [|done].
    destruct (_ && _); [|done]. intros [= ->]. by apply decimal_parseInt.
Qed.

(** ** The text of dates, there and back *)

Lemma digitOf_digitChar (d : Z) : digitOf (digitChar d) = Some (d mod 10).
Proof.
  unfold digitOf, digitChar, codeOf. pose proof (Z.mod_pos_bound d 10 ltac:(lia)).
  rewrite nat_ascii_embedding by lia. rewrite Z2Nat.id by lia.
  destruct (Z.leb_spec 48 (48 + d mod 10)), (Z.leb_spec (48 + d mod 10) 57);
    try lia. simpl. f_equal. lia.
Qed.

Lemma readDigits_pad4 (v : Z) (rest : string) :
  0 <= v <= 9999 -> readDigits 4 (padDigits 4 v +:+ rest) 0 = Some (v, rest).
Proof.
  intros Hv. rewrite padDigits_4. norm_append. cbn [readDigits].
  rewrite !digitOf_digitChar. do 2 f_equal. Z.div_mod_to_equations. lia.
Qed.

Lemma readDigits_pad3 (v : Z) (rest : string) :
  0 <= v <= 999 -> readDigits 3 (padDigits 3 v +:+ rest) 0 = Some (v, rest).
Proof.
  intros Hv.
  change (padDigits 3 v)
    with (String (digitChar (v / 10 / 10))
            (String (digitChar (v / 10)) (String (digitChar v) ""))).
  norm_append. cbn [readDigits].
  rewrite !digitOf_digitChar. do 2 f_equal. Z.div_mod_to_equations. lia.
Qed.

Lemma readDigits_pad2 (v : Z) (rest : string) :
  0 <= v <= 99 -> readDigits 2 (padDigits 2 v +:+ rest) 0 = Some (v, rest).
Proof.
  intros Hv. rewrite padDigits_2. norm_append. cbn [readDigits].
  rewrite !digitOf_digitChar. do 2 f_equal. Z.div_mod_to_equations. lia.
Qed.

Lemma expect_String (c : ascii) (rest : string) : expect c (String c rest) = Some rest.
Proof. cbn [expect]. by rewrite Ascii.eqb_refl. Qed.

Lemma daysInMonth_bounds (k : Z) : 28 <= daysInMonth k <= 31.
Proof.
  unfold daysInMonth.
  assert (exists era yoe mp,
            0 <= yoe < 400 /\ 0 <= mp < 12 /\ k = 12 * (era * 400 + yoe) + mp)
    as (era & yoe & mp & Hy & Hm & ->).
  { exists (k / 12 / 400), (k / 12 mod 400), (k mod 12). Z.div_mod_to_equations. lia. }
  rewrite (monthStart_normal era yoe mp) by done.
  destruct (Z.eq_dec mp 11) as [->|Hmp].
  - destruct (Z.eq_dec yoe 399) as [->|Hyoe].
    + replace (12 * (era * 400 + 399) + 11 + 1) with (12 * ((era + 1) * 400 + 0) + 0)
        by lia.
      rewrite monthStart_normal by lia.
      change (399 / 4) with 99. change (399 / 100) with 3.
      change ((153 * 11 + 2) / 5) with 337. change ((153 * 0 + 2) / 5) with 0.
      change (0 / 4) with 0. change (0 / 100) with 0. lia.
    + replace (12 * (era * 400 + yoe) + 11 + 1) with (12 * (era * 400 + (yoe + 1)) + 0)
        by lia.
      rewrite monthStart_normal by lia.
      change ((153 * 11 + 2) / 5) with 337. change ((153 * 0 + 2) / 5) with 0.
      Z.div_mod_to_equations. lia.
  - replace (12 * (era * 400 + yoe) + mp + 1) with (12 * (era * 400 + yoe) + (mp + 1))
      by lia.
    rewrite monthStart_normal by lia. Z.div_mod_to_equations. lia.
Qed.

Lemma civilFromDays_date (z y m d : Z) :
  civilFromDays z = (y, m, d) ->
  1 <= m <= 12 /\ 1 <= d <= 31 /\ MakeDay y (m - 1) d = z.
Proof.
  intros E. apply civilFromDays_spec in E as (Hm & Hd & Hz & Hlt).
  pose proof (daysInMonth_bounds (monthIndex y m)) as Hlen. unfold daysInMonth in Hlen.
  split; [done|]. split; [lia|].
  rewrite MakeDay_monthStart.
  replace (12 * y + (m - 1) - 2) with (monthIndex y m) by (unfold monthIndex; lia).
  lia.
Qed.

(** The ISO text of a time in the years 0 to 9999 parses to that time. *)
Lemma parseISODate_toISOString (t : Z) :
  0 <= YearFromTime t <= 9999 -> parseISODate (toISOString t) = Some t.
Proof.
  unfold YearFromTime, toISOString, parseISODate.
  destruct (civilFromDays (Day t)) as [[y m] d] eqn:E. cbn [fst snd].
  intros Hy. apply civilFromDays_date in E as (Hm & Hd & Hday).
  assert (0 <= TimeWithinDay t < 86400000) as Htod
    by (unfold TimeWithinDay, msPerDay; apply Z.mod_pos_bound; lia).
  set (tod := TimeWithinDay t) in *.
  destruct (Z.leb_spec 0 y), (Z.leb_spec y 9999); try lia. cbn [andb].
  rewrite readDigits_pad4 by lia. cbn [mbind option_bind]. norm_append.
  rewrite expect_String. cbn [mbind option_bind].
  rewrite readDigits_pad2 by lia. cbn [mbind option_bind]. norm_append.
  rewrite expect_String. cbn [mbind option_bind].
  rewrite readDigits_pad2 by lia. cbn [mbind option_bind]. norm_append.
  destruct (Z.leb_spec 1 m), (Z.leb_spec m 12), (Z.leb_spec 1 d), (Z.leb_spec d 31);
    try lia. cbn [andb negb].
  rewrite expect_String. cbn [mbind option_bind].
  rewrite readDigits_pad2 by (Z.div_mod_to_equations; lia).
  cbn [mbind option_bind]. norm_append.
  rewrite expect_String. cbn [mbind option_bind].
  rewrite readDigits_pad2 by (Z.div_mod_to_equations; lia).
  cbn [mbind option_bind]. norm_append.
  rewrite expect_String. cbn [mbind option_bind].
  rewrite readDigits_pad2 by (Z.div_mod_to_equations; lia).
  cbn [mbind option_bind]. norm_append.
  rewrite expect_String. cbn [mbind option_bind].
  rewrite readDigits_pad3 by (Z.div_mod_to_equations; lia).
  cbn [mbind option_bind]. norm_append.
  rewrite expect_String. cbn [mbind option_bind].
  destruct (Z.leb_spec (tod / 3600000) 23), (Z.leb_spec (tod / 60000 mod 60) 59),
    (Z.leb_spec (tod / 1000 mod 60) 59);
    try (exfalso; Z.div_mod_to_equations; lia).
  cbn [andb]. f_equal. rewrite Hday. unfold MakeDate.
  subst tod. unfold Day, TimeWithinDay, msPerDay in *. Z.div_mod_to_equations. lia.
Qed.

Lemma digitChar_not_T (d : Z) : Ascii.eqb (digitChar d) "T" = false.
Proof.
  apply Ascii.eqb_neq. intros E. apply (f_equal nat_of_ascii) in E.
  unfold digitChar in E. pose proof (Z.mod_pos_bound d 10 ltac:(lia)).
  rewrite nat_ascii_embedding in E by lia.
  change (nat_of_ascii "T") with 84%nat in E. lia.
Qed.

Lemma getTodayDate_text (now : Z) :
  0 <= YearFromTime now <= 9999 ->
  getTodayDate now
  = padDigits 4 (YearFromTime now) +:+ "-"
    +:+ padDigits 2 (MonthFromTime now + 1) +:+ "-"
    +:+ padDigits 2 (DateFromTime now) +:+ "".
Proof.
  unfold getTodayDate, toISOString, YearFromTime, MonthFromTime, DateFromTime.
  destruct (civilFromDays (Day now)) as [[y m] d]. cbn [fst snd]. intros Hy.
  destruct (Z.leb_spec 0 y), (Z.leb_spec y 9999); try lia. cbn [andb].
  replace (m - 1 + 1) with m by lia.
  rewrite padDigits_4, !padDigits_2. norm_append. cbn [beforeFirst].
  rewrite !digitChar_not_T.
  change (Ascii.eqb "-" "T") with false. change (Ascii.eqb "T" "T") with true.
  reflexivity.
Qed.

Lemma parseISODate_getTodayDate (now : Z) :
  0 <= YearFromTime now <= 9999 ->
  parseISODate (getTodayDate now) = Some (Day now * msPerDay).
Proof.
  intros Hy. rewrite (getTodayDate_text now Hy).
  unfold YearFromTime, MonthFromTime, DateFromTime, parseISODate in *.
  destruct (civilFromDays (Day now)) as [[y m] d] eqn:E. cbn [fst snd] in *.
  apply civilFromDays_date in E as (Hm & Hd & Hday).
  replace (m - 1 + 1) with m by lia.
  rewrite readDigits_pad4 by lia. cbn [mbind option_bind]. norm_append.
  rewrite expect_String. cbn [mbind option_bind].
  rewrite readDigits_pad2 by lia. cbn [mbind option_bind]. norm_append.
  rewrite expect_String. cbn [mbind option_bind].
  rewrite readDigits_pad2 by lia. cbn [mbind option_bind].
  destruct (Z.leb_spec 1 m), (Z.leb_spec m 12), (Z.leb_spec 1 d), (Z.leb_spec d 31);
    try lia. cbn [andb negb].
  rewrite Hday. unfold MakeDate. f_equal. lia.
Qed.

(** X19. The date that the form of the transactions page proposes, today as
    [getTodayDate] writes it, is stored as midnight UTC of the current UTC
    day: a transaction entered with it is never dated after the moment it
    was entered, and never more than a day before. *)
Theorem today_is_stored_as_utc_midnight
  (now : Z) (body : TransactionBody.t) (s s' : Store) (t : Transaction.t) :
  0 <= YearFromTime now <= 9999 ->
  TransactionBody.date body = JStr (getTodayDate now) ->
  createTransaction body s = (Respond 201 (TransactionJson t), s') ->
  Transaction.date t = Day now * msPerDay
  /\ now - msPerDay < Transaction.date t <= now
  /\ toISOString (Transaction.date t) = getTodayDate now +:+ "T00:00:00.000Z".
Proof.
  intros Hy Hdate Hc.
  apply createTransaction_row in Hc as (_ & _ & Hd & _).
  rewrite Hdate in Hd. cbn [sqlDate] in Hd.
  rewrite (parseISODate_getTodayDate now Hy) in Hd. injection Hd as Hd.
  split; [done|]. split.
  - rewrite <- Hd. unfold Day, msPerDay. Z.div_mod_to_equations. lia.
  - rewrite <- Hd, (getTodayDate_text now Hy).
    unfold toISOString, YearFromTime, MonthFromTime, DateFromTime.
    replace (Day (Day now * msPerDay)) with (Day now)
      by (unfold Day, msPerDay; by rewrite Z.div_mul).
    replace (TimeWithinDay (Day now * msPerDay)) with 0
      by (unfold TimeWithinDay, msPerDay; by rewrite Z.mod_mul).
    unfold YearFromTime in Hy.
    destruct (civilFromDays (Day now)) as [[y m] d]. cbn [fst snd] in *.
    destruct (Z.leb_spec 0 y), (Z.leb_spec y 9999); try lia. cbn [andb].
    replace (m - 1 + 1) with m by lia.
    rewrite padDigits_4, !padDigits_2. norm_append. reflexivity.
Qed.

Lemma today_is_stored_as_utc_midnight_witness :
  Transaction.date julyIncome = Day 1751551200000 * msPerDay.
Proof.
  apply (today_is_stored_as_utc_midnight 1751551200000
           (sampleBody "1" "income" 1000 (getTodayDate 1751551200000) 1)
           (sampleStore true)
           (createTransaction (sampleBody "1" "income" 1000 "2025-07-03" 1)
                              (sampleStore true)).2 julyIncome).
  - change (YearFromTime 1751551200000) with 2025. lia.
  - reflexivity.
  - vm_compute. reflexivity.
Defined.

(** ** A row and its JSON *)

Lemma setTransactions_same (s : Store) :
  setTransactions s (transactions s) (nextTransactionId s) = s.
Proof. by destruct s. Qed.

Lemma fmap_replace_self {A} (key : A -> Z) (l : list A) (x : A) :
  NoDup (key <$> l) -> x ∈ l ->
  (fun r => if key r =? key x then x else r) <$> l = l.
Proof.
  intros Hnd Hin. rewrite <- (list_fmap_id l) at 2. apply list_fmap_ext.
  intros i r Hr. simpl. destruct (Z.eqb_spec (key r) (key x)) as [Heq|]; [|done].
  apply list_elem_of_lookup_2 in Hr.
  symmetry. by apply (key_determines_row key l).
Qed.

(** X20. A PUT whose body is the JSON that the server sent for the row
    changes nothing: every attribute reads back as the stored value, the
    date through its ISO text, and the answer is the row as it was. *)
Theorem put_of_the_rows_json_changes_nothing
  (s : Store) (id : string) (t : Transaction.t) :
  NoDup (Transaction.id <$> transactions s) ->
  t ∈ transactions s ->
  sqlInteger (JStr id) = Some (Transaction.id t) ->
  Transaction.userId t <> 0 ->
  -2147483648 <= Transaction.userId t <= 2147483647 ->
  -2147483648 <= Transaction.categoryId t <= 2147483647 ->
  0 <= YearFromTime (Transaction.date t) <= 9999 ->
  (enforceReferences s = true ->
   Transaction.userId t ∈ users s
   /\ Transaction.categoryId t ∈ (Category.id <$> categories s)) ->
  updateTransaction id (Transaction_toJSON t) s = (Respond 200 (TransactionJson t), s).
Proof.
  intros Hnd Hin Hid Hu0 Hu Hc Hy Href.
  assert (sqlInteger (JNum (Transaction.userId t)) = Some (Transaction.userId t)) as Hsu.
  { unfold sqlInteger. cbn [mbind option_bind].
    destruct (Z.leb_spec (-2147483648) (Transaction.userId t)),
             (Z.leb_spec (Transaction.userId t) 2147483647); try lia. done. }
  assert (sqlInteger (JNum (Transaction.categoryId t)) = Some (Transaction.categoryId t))
    as Hsc.
  { unfold sqlInteger. cbn [mbind option_bind].
    destruct (Z.leb_spec (-2147483648) (Transaction.categoryId t)),
             (Z.leb_spec (Transaction.categoryId t) 2147483647); try lia. done. }
  unfold updateTransaction. cbn [Transaction_toJSON TransactionBody.userId truthy].
  destruct (Z.eqb_spec (Transaction.userId t) 0) as [|_]; [done|]. cbn [negb].
  rewrite (Transaction_findOne_key s (JStr id) _ t Hnd Hin Hid Hsu).
  unfold Transaction_update, Transaction_toJSON.
  cbn [TransactionBody.userId TransactionBody.amount TransactionBody.date
       TransactionBody.categoryId TransactionBody.type TransactionBody.description
       updated notNull isNullish mbind Result_bind].
  rewrite Hsu, Hsc. cbn [coerce mbind Result_bind sqlFloat sqlDate].
  rewrite (parseISODate_toISOString _ Hy). cbn [coerce mbind Result_bind].
  assert (sqlTransactionType
            (JStr match Transaction.type t with
                  | Income => "income"
                  | Expense => "expense"
                  end) = Some (Transaction.type t)) as ->
    by (by destruct (Transaction.type t)).
  cbn [coerce mbind Result_bind].
  rewrite (proj2 (reference_Ok s "users" _)).
  2:{ intros He. apply bool_decide_eq_true. by apply Href. }
  rewrite (proj2 (reference_Ok s "categories" _)).
  2:{ intros He. apply bool_decide_eq_true. by apply Href. }
  cbn [mbind Result_bind].
  assert ({| Transaction.id := Transaction.id t;
             Transaction.userId := Transaction.userId t;
             Transaction.amount := Transaction.amount t;
             Transaction.description :=
               match match Transaction.description t with
                     | Some text => JStr text
                     | None => JNull
                     end with
               | JUndefined => Transaction.description t
               | v => sqlString v
               end;
             Transaction.date := Transaction.date t;
             Transaction.categoryId := Transaction.categoryId t;
             Transaction.type := Transaction.type t |} = t) as ->.
  { destruct t as [? ? ? [text|] ? ? ?]; reflexivity. }
  by rewrite (fmap_replace_self Transaction.id _ t Hnd Hin), setTransactions_same.
Qed.

Lemma put_of_the_rows_json_changes_nothing_witness :
  updateTransaction "2" (Transaction_toJSON julyExpense) (julyStore true)
  = (Respond 200 (TransactionJson julyExpense), julyStore true).
Proof.
  apply put_of_the_rows_json_changes_nothing.
  - compute_done.
  - compute_done.
  - reflexivity.
  - discriminate.
  - simpl. lia.
  - simpl. lia.
  - change (YearFromTime (Transaction.date julyExpense)) with 2025. lia.
  - intros _. split; compute_done.
Defined.

(** ** The text of a suggestion *)

Lemma skipWhiteSpace_first (s : string) (c : ascii) (rest : string) :
  skipWhiteSpace s = String c rest -> isWhiteSpace c = false.
Proof.
  induction s as [|a s IH]; [done|]. cbn [skipWhiteSpace].
  destruct (isWhiteSpace a) eqn:E; [done|]. by intros [= <- _].
Qed.

Lemma trimEnd_first (s : string) (c : ascii) (rest : string) :
  trimEnd s = String c rest -> exists rest0, s = String c rest0.
Proof.
  destruct s as [|a s]; [done|]. cbn [trimEnd].
  destruct (trimEnd s); [destruct (isWhiteSpace a); [done|]|];
    intros [= <- _]; by eexists.
Qed.

Lemma append_singleton_inv (front : string) (c a : ascii) (r : string) :
  front +:+ String c "" = String a r ->
  (front = "" /\ c = a /\ r = "") \/ exists front', front = String a front'
                                                  /\ front' +:+ String c "" = r.
Proof.
  destruct front as [|f front]; simpl.
  - intros [= -> <-]. by left.
  - intros [= -> <-]. right. by eexists.
Qed.

Lemma trimEnd_last (s front : string) (c : ascii) :
  trimEnd s = front +:+ String c "" -> isWhiteSpace c = false.
Proof.
  revert front. induction s as [|a s IH]; intros front.
  - by destruct front.
  - cbn [trimEnd]. destruct (trimEnd s) as [|b r] eqn:E.
    + destruct (isWhiteSpace a) eqn:Ea; [by destruct front|].
      intros H. symmetry in H. apply append_singleton_inv in H
        as [(_ & -> & _)|(front' & _ & H)]; [done|by destruct front'].
    + intros H. symmetry in H. apply append_singleton_inv in H
        as [(_ & _ & H)|(front' & _ & H)]; [done|]. by apply (IH front').
Qed.

Lemma trimEnd_idempotent (s : string) : trimEnd (trimEnd s) = trimEnd s.
Proof.
  induction s as [|a s IH]; [done|]. cbn [trimEnd].
  destruct (trimEnd s) as [|b r] eqn:E.
  - destruct (isWhiteSpace a) eqn:Ea; [done|]. cbn [trimEnd]. by rewrite Ea.
  - change (trimEnd (String a (String b r)))
      with (match trimEnd (String b r) with
            | EmptyString => if isWhiteSpace a then EmptyString else String a EmptyString
            | rest => String a rest
            end).
    by rewrite IH.
Qed.

Lemma trim_spec (s : string) :
  trim (trim s) = trim s
  /\ (forall c rest, trim s = String c rest -> isWhiteSpace c = false)
  /\ (forall front c, trim s = front +:+ String c "" -> isWhiteSpace c = false).
Proof.
  assert (forall c rest, trim s = String c rest -> isWhiteSpace c = false) as Hfirst.
  { unfold trim. intros c rest H. apply trimEnd_first in H as [rest0 H].
    by apply skipWhiteSpace_first in H. }
  split; [|split; [done|]].
  - unfold trim at 1.
    assert (skipWhiteSpace (trim s) = trim s) as ->.
    { destruct (trim s) as [|c rest] eqn:E; [done|].
      cbn [skipWhiteSpace]. by rewrite (Hfirst c rest). }
    apply trimEnd_idempotent.
  - unfold trim. intros front c. apply trimEnd_last.
Qed.

(** X21. The text that [callLLM] returns, and so the response of every
    suggestion that is stored, has no white space and no line terminator
    at either end, the no-break space included. *)
Theorem stored_responses_are_trimmed
  (provider : jsval -> AxiosOutcome) (now : Z) (userId prompt : jsval)
  (s s' : Store) (record : AISuggestion.t) :
  generateAndSaveSuggestion provider now userId prompt s
  = (Respond 201 (SuggestionJson record), s') ->
  callLLM provider prompt = Ok (AISuggestion.response record)
  /\ trim (AISuggestion.response record) = AISuggestion.response record
  /\ (forall c rest,
        AISuggestion.response record = String c rest -> isWhiteSpace c = false)
  /\ (forall front c,
        AISuggestion.response record = front +:+ String c "" -> isWhiteSpace c = false).
Proof.
  intros Hg.
  apply generateAndSaveSuggestion_saved in Hg
    as (u & data & text & Hprov & Hcontent & _ & -> & _).
  cbn [AISuggestion.response].
  split; [unfold callLLM; by rewrite Hprov, Hcontent|].
  unfold content in Hcontent.
  destruct (member "choices" data) as [choices|]; cbn in Hcontent; [|done].
  destruct (first choices) as [choice|]; cbn in Hcontent; [|done].
  destruct (member "message" choice) as [message|]; cbn in Hcontent; [|done].
  destruct (member "content" message) as [[| | |raw| |]|]; cbn in Hcontent; try done.
  injection Hcontent as <-. apply trim_spec.
Qed.

Lemma stored_responses_are_trimmed_witness :
  callLLM sampleProvider (JStr "How can I save?") = Ok "Spend less on food.".
Proof.
  destruct (stored_responses_are_trimmed sampleProvider 1754006400000 (JStr "1")
              (JStr "How can I save?") (julyStore true) historyStore firstSuggestion)
    as (Hcall & _).
  - vm_compute. reflexivity.
  - exact Hcall.
Defined.

(** * The client pages *)

(** ** A category and its creator *)

(** X22. Whoever created a category can delete it again: the DELETE with
    the key of the answer and the same [userId] is answered 204 and leaves
    the categories as they were before the category was created. *)
Theorem created_category_can_be_deleted
  (name userId : jsval) (id : string) (s s' : Store) (c : Category.t) :
  keysOk s ->
  (enforceReferences s = true -> refsOk s) ->
  createCategory name userId s = (Respond 201 (CategoryJson c), s') ->
  sqlInteger (JStr id) = Some (Category.id c) ->
  (deleteCategory id userId s').1 = Respond 204 NoContent
  /\ categories (deleteCategory id userId s').2 = categories s
  /\ transactions (deleteCategory id userId s').2 = transactions s.
Proof.
  intros [Hnd Hbelow _ _] Hrefs Hc Hid.
  apply createCategory_created in Hc
    as (u & Htruthy & Hu & Howner & Hkey & _ & _ & _ & ->).
  assert (Category.id c ∉ (Category.id <$> categories s)) as Hfresh.
  { intros Hin. apply list_elem_of_fmap in Hin as (y & Hy & Hin).
    pose proof (proj1 (Forall_forall _ _) Hbelow y Hin) as Hlt. simpl in Hlt. lia. }
  assert (NoDup (Category.id <$> (categories s ++ [c]))) as Hnd'.
  { by eapply proj1, (keys_snoc Category.id). }
  unfold deleteCategory. rewrite Htruthy. cbn [negb].
  rewrite (Category_findOne_key _ id c); cbn [categories setCategories]; try done.
  2:{ apply elem_of_app. right. by apply list_elem_of_singleton. }
  rewrite Howner, (sqlInteger_parseInt userId u Hu). cbn [strictEq].
  rewrite Z.eqb_refl. cbn [negb]. unfold Category_destroy.
  rewrite (proj2 (reference_Ok _ "transactions" _)).
  2:{ cbn [enforceReferences setCategories]. intros He.
      apply negb_true_iff, bool_decide_eq_false.
      cbn [transactions setCategories]. intros Hin.
      destruct (Hrefs He) as [_ Htc _ _].
      apply list_elem_of_fmap in Hin as (t & Ht & Hin).
      pose proof (proj1 (Forall_forall _ _) Htc t Hin) as Hcat. simpl in Hcat.
      apply Hfresh. by rewrite Ht. }
  cbn [mbind Result_bind fst snd categories transactions setCategories].
  split; [done|]. split; [|done].
  rewrite filter_app, filter_all.
  - rewrite filter_cons_False by (intros H; by apply H). by rewrite app_nil_r.
  - intros y Hy Heq. apply Hfresh. rewrite <- Heq. by apply list_elem_of_fmap_2.
Qed.

Lemma created_category_can_be_deleted_witness :
  categories
    (deleteCategory "3" (JStr "1")
       (createCategory (JStr "Rent") (JStr "1") (julyStore true)).2).2
  = categories (julyStore true).
Proof.
  destruct (created_category_can_be_deleted (JStr "Rent") (JStr "1") "3"
              (julyStore true)
              (createCategory (JStr "Rent") (JStr "1") (julyStore true)).2
              {| Category.id := 3; Category.name := "Rent"; Category.userId := Some 1 |})
    as (_ & Hrows & _).
  - constructor; simpl; repeat (apply Forall_cons; split); try compute_done;
      by constructor.
  - intros _. constructor; simpl; repeat (apply Forall_cons; split);
      try compute_done; try (by constructor); try (by intros v [=]).
    intros v [= <-]. compute_done.
  - vm_compute. reflexivity.
  - reflexivity.
  - exact Hrows.
Defined.

(** ** The caller's id, from the login to the store *)

(** X23. The id that the login answer holds for the user is the user the
    later requests speak for: kept in [localStorage] as its decimal text and
    sent as the [userId] parameter, it is read by the store as the same
    number, so the listings that follow are those of that user. *)
Theorem login_id_reaches_the_store
  (response user : json) (n : Z) (localStorage : option string) (s : Store) :
  member "user" response = Some user ->
  member "id" user = Some (JsonNumber n) ->
  1 <= n <= 2147483647 ->
  let userId := saveUserIdFromResponse response localStorage in
  userId = Some (showZ n)
  /\ TransactionService.getTransactions userId s
     = Emits (filter (fun t => Transaction.userId t = n) (transactions s))
  /\ getCategories (param userId) s
     = Respond 200
         (CategoriesJson
            (filter (fun c => Category.userId c = None \/ Category.userId c = Some n)
                    (categories s))).
Proof.
  intros Huser Hid Hn userId.
  assert (userId = Some (showZ n)) as ->.
  { subst userId. unfold saveUserIdFromResponse.
    destruct response; try done. destruct user; try done.
    cbn [jsonTruthy]. rewrite Huser, Hid. cbn [jsonTruthy jsonToString].
    destruct (Z.eqb_spec n 0); [lia|done]. }
  assert (sqlInteger (JStr (showZ n)) = Some n) as Hu by (apply sqlInteger_showZ; lia).
  pose proof (sqlInteger_truthy _ _ Hu) as Htruthy.
  split; [done|]. split.
  - unfold TransactionService.getTransactions, getTransactions,
      Transaction_findAll_userId. cbn [param]. by rewrite Htruthy, Hu.
  - unfold getCategories, Category_findAll_visible. cbn [param].
    by rewrite Htruthy, Hu.
Qed.

Lemma login_id_reaches_the_store_witness :
  TransactionService.getTransactions
    (saveUserIdFromResponse
       (JsonObject [("user", JsonObject [("id", JsonNumber 1);
                                          ("name", JsonString "Ada")])]) None)
    (julyStore true)
  = Emits [julyIncome; julyExpense; augustExpense].
Proof.
  destruct (login_id_reaches_the_store
              (JsonObject [("user", JsonObject [("id", JsonNumber 1);
                                                 ("name", JsonString "Ada")])])
              (JsonObject [("id", JsonNumber 1); ("name", JsonString "Ada")])
              1 None (julyStore true)) as (_ & Hrows & _).
  - reflexivity.
  - reflexivity.
  - lia.
  - rewrite Hrows. vm_compute. reflexivity.
Defined.

(** ** The report page *)

Lemma sumZ_le {A} (f g : A -> Z) (l : list A) :
  (forall x, x ∈ l -> f x <= g x) -> sumZ f l <= sumZ g l.
Proof.
  induction l as [|x l IH]; intros Hfg; simpl; [lia|].
  pose proof (Hfg x ltac:(by left)).
  assert (sumZ f l <= sumZ g l) by (apply IH; intros y Hy; apply Hfg; by right).
  unfold sumZ in *. lia.
Qed.

(** A page that could not load: no user is signed in, or the server does
    not read the user's id as a number. *)
Lemma loadData_not_loaded (userId : option string) (s : Store) (this : ReportsComponent.t) :
  sqlInteger (param userId) = None -> loadData userId s this = this.
Proof.
  intros Hu. unfold loadData, getCategories, Category_findAll_visible.
  destruct (negb (truthy (param userId))); [done|]. by rewrite Hu.
Qed.

(** ** The category report and the monthly report *)

Lemma filter_andb {A} (f g : A -> bool) (l : list A) :
  List.filter (fun x => f x && g x) l = List.filter f (List.filter g l).
Proof.
  induction l as [|x l IH]; [done|]. simpl.
  destruct (g x), (f x) eqn:E; simpl; rewrite ?E, ?IH; done.
Qed.

Lemma aggregate_expenses (categoryMap : gmap Z string) (l : list Transaction.t)
  (data : gmap string Z * gmap string Z) :
  (foldl (aggregate categoryMap) data l).2
  = foldl (CategoryReportComponent.addExpense categoryMap) data.2
          (List.filter (fun t => bool_decide (Transaction.type t = Expense)) l).
Proof.
  revert data. induction l as [|t l IH]; intros data; [done|].
  cbn [foldl List.filter]. rewrite IH. unfold aggregate.
  destruct (Transaction.type t) eqn:E.
  - rewrite bool_decide_eq_false_2 by done. done.
  - rewrite bool_decide_eq_true_2 by done. done.
Qed.

Lemma month_truthy (month : string) : month <> "" -> truthy (JStr month) = true.
Proof. by destruct month. Qed.

Lemma CategoryReport_not_loaded (userId : option string) (s : Store)
  (this : CategoryReportComponent.t) :
  sqlInteger (param userId) = None ->
  CategoryReportComponent.ngOnChanges userId s this = this.
Proof.
  intros Hu. unfold CategoryReportComponent.ngOnChanges, getCategories,
    Category_findAll_visible.
  destruct (negb (truthy (JStr _))); [done|].
  destruct (negb (truthy (param userId))); [done|]. by rewrite Hu.
Qed.

Lemma CategoryReport_loaded (u : string) (n : Z) (month : string) (s : Store) :
  month <> "" ->
  sqlInteger (JStr u) = Some n ->
  let categoryMap :=
    buildCategoryMap
      (filter (fun c => Category.userId c = None \/ Category.userId c = Some n)
              (categories s)) in
  let transactions :=
    List.filter (fun t => bool_decide (Transaction.type t = Expense)
                          && inSelectedMonth month t)
      (filter (fun t => Transaction.userId t = n) (transactions s)) in
  CategoryReportComponent.ngOnChanges (Some u) s (CategoryReportComponent.new month)
  = {| CategoryReportComponent.month := month;
       CategoryReportComponent.transactions := transactions;
       CategoryReportComponent.categoryData :=
         foldl (CategoryReportComponent.addExpense categoryMap) ∅ transactions;
       CategoryReportComponent.categories :=
         filter (fun c => Category.userId c = None \/ Category.userId c = Some n)
                (categories s);
       CategoryReportComponent.categoryMap := categoryMap;
       CategoryReportComponent.totalExpenses :=
         sumOfLabels
           (foldl (CategoryReportComponent.addExpense categoryMap) ∅ transactions) |}.
Proof.
  intros Hmonth Hu. pose proof (sqlInteger_truthy u n Hu) as Htruthy.
  unfold CategoryReportComponent.ngOnChanges, TransactionService.getTransactions,
    getCategories, getTransactions, Category_findAll_visible, Transaction_findAll_userId.
  cbn [param CategoryReportComponent.month CategoryReportComponent.new].
  rewrite (month_truthy month Hmonth), Htruthy, Hu. reflexivity.
Qed.

(** X25. The category report shows what the report page shows for the
    expenses of the month: the same breakdown by category, and for its
    transactions the expenses among the page's transactions. *)
Theorem category_report_matches_reports_page
  (userId : option string) (month : string) (s : Store) :
  month <> "" ->
  let report :=
    CategoryReportComponent.ngOnChanges userId s (CategoryReportComponent.new month) in
  let page := loadData userId s (newReportsComponent month) in
  CategoryReportComponent.categoryData report = ReportsComponent.expenseCategoryData page
  /\ CategoryReportComponent.transactions report
     = List.filter (fun t => bool_decide (Transaction.type t = Expense))
                   (ReportsComponent.transactions page).
Proof.
  intros Hmonth. cbv zeta.
  destruct (sqlInteger (param userId)) as [n|] eqn:Hu.
  - destruct userId as [u|]; [|done]. cbn [param] in Hu.
    rewrite (CategoryReport_loaded u n month s Hmonth Hu), (loadData_loaded u n month s Hu).
    cbn [CategoryReportComponent.categoryData CategoryReportComponent.transactions
         ReportsComponent.expenseCategoryData ReportsComponent.transactions].
    rewrite filter_andb, aggregate_expenses. cbn [snd]. done.
  - by rewrite (CategoryReport_not_loaded userId s _ Hu),
         (loadData_not_loaded userId s _ Hu).
Qed.

Lemma category_report_matches_reports_page_witness :
  CategoryReportComponent.categoryData
    (CategoryReportComponent.ngOnChanges (Some "1") (julyStore true)
       (CategoryReportComponent.new "2025-07"))
  = {[ "Food" := 150 ]}.
Proof.
  destruct (category_report_matches_reports_page (Some "1") "2025-07" (julyStore true))
    as (-> & _); [done|].
  vm_compute. reflexivity.
Defined.

Lemma foldl_insert_lookup_notin (l : list Category.t) (m : gmap Z string) (k : Z) :
  k ∉ (Category.id <$> l) ->
  foldl (fun acc cat => <[Category.id cat := Category.name cat]> acc) m l !! k = m !! k.
Proof.
  revert m. induction l as [|x l IH]; intros m Hk; [done|].
  rewrite fmap_cons, not_elem_of_cons in Hk. destruct Hk as [Hne Hk].
  cbn [foldl]. rewrite IH by done. by rewrite lookup_insert_ne.
Qed.

Lemma buildCategoryMap_lookup (l : list Category.t) (c : Category.t) :
  NoDup (Category.id <$> l) -> c ∈ l ->
  buildCategoryMap l !! Category.id c = Some (Category.name c).
Proof.
  unfold buildCategoryMap. generalize (∅ : gmap Z string).
  induction l as [|x l IH]; intros m Hnd Hin; [by apply elem_of_nil in Hin|].
  rewrite fmap_cons in Hnd. apply NoDup_cons in Hnd as [Hfresh Hnd].
  cbn [foldl]. apply elem_of_cons in Hin as [->|Hin].
  - rewrite foldl_insert_lookup_notin by done. by rewrite lookup_insert_eq.
  - by apply IH.
Qed.

Lemma find_key (l : list Category.t) (k : Z) :
  match List.find (fun c => Category.id c =? k) l with
  | Some c => c ∈ l /\ Category.id c = k
  | None => k ∉ (Category.id <$> l)
  end.
Proof.
  induction l as [|x l IH]; simpl; [apply not_elem_of_nil|].
  destruct (Z.eqb_spec (Category.id x) k) as [Heq|Hne].
  - split; [by left|done].
  - destruct (find _ l) as [c|].
    + destruct IH. split; [by right|done].
    + rewrite not_elem_of_cons. done.
Qed.

(** With keys that are unique and names that are not empty, the monthly
    report and the report page name the category of a transaction alike. *)
Lemma getCategoryName_categoryLabel (l : list Category.t) (t : Transaction.t) :
  NoDup (Category.id <$> l) ->
  Forall (fun c => Category.name c <> "") l ->
  MonthlyReportComponent.getCategoryName l (Some (Transaction.categoryId t))
  = categoryLabel (buildCategoryMap l) t.
Proof.
  intros Hnd Hnames. unfold MonthlyReportComponent.getCategoryName, categoryLabel.
  pose proof (find_key l (Transaction.categoryId t)) as Hfind.
  destruct (find _ l) as [c|].
  - destruct Hfind as [Hin <-]. rewrite (buildCategoryMap_lookup l c Hnd Hin).
    pose proof (proj1 (Forall_forall _ _) Hnames c Hin) as Hname. simpl in Hname.
    destruct (String.eqb_spec (Category.name c) ""); done.
  - apply buildCategoryMap_lookup_None in Hfind. by rewrite Hfind.
Qed.

Lemma aggregate_monthly (l : list Category.t) (transactions : list Transaction.t)
  (data : gmap string Z * gmap string Z) :
  NoDup (Category.id <$> l) ->
  Forall (fun c => Category.name c <> "") l ->
  (foldl (aggregate (buildCategoryMap l)) data transactions).2
  = foldl (MonthlyReportComponent.addExpense l) data.2 transactions.
Proof.
  intros Hnd Hnames. revert data.
  induction transactions as [|t k IH]; intros data; [done|].
  cbn [foldl]. rewrite IH. f_equal.
  unfold aggregate, MonthlyReportComponent.addExpense.
  destruct (Transaction.type t); [done|]. cbn [snd].
  by rewrite getCategoryName_categoryLabel.
Qed.

Lemma handle_categoryNames (r : Request) (s : Store) :
  Forall (fun c => Category.name c <> "") (categories s) ->
  Forall (fun c => Category.name c <> "") (categories (handle r s).2).
Proof.
  intros Hnames.
  destruct r as [body|id body|id userId|name userId|id userId|provider now userId prompt];
    cbn [handle].
  - destruct (createTransaction_cases body s) as [(t & s' & Hc)| ->]; [|done].
    rewrite Hc. cbn [snd].
    by apply createTransaction_row in Hc as (_ & _ & _ & _ & _ & _ & _ & _ & ->).
  - destruct (updateTransaction_cases id body s) as [(t & s' & Hu)| ->]; [|done].
    rewrite Hu. cbn [snd]. by apply updateTransaction_row in Hu as (? & _ & _ & _ & ->).
  - by destruct (deleteTransaction_frame id userId s) as (_ & _ & _ & _ & -> & _).
  - destruct (createCategory_cases name userId s) as [(c & s' & Hc)| ->]; [|done].
    rewrite Hc. cbn [snd].
    apply createCategory_created in Hc as (u & _ & _ & _ & _ & _ & Hname & _ & ->).
    cbn [categories setCategories]. apply Forall_app. split; [done|].
    by apply Forall_singleton.
  - destruct (deleteCategory_cases id userId s) as [[s' Hd]| ->]; [|done].
    rewrite Hd. cbn [snd].
    apply deleteCategory_owner in Hd as (c & u & _ & _ & _ & _ & _ & ->).
    apply Forall_forall. intros x Hx. apply list_elem_of_filter in Hx as [_ Hx].
    by apply (proj1 (Forall_forall _ _) Hnames).
  - destruct (generateAndSaveSuggestion_cases provider now userId prompt s)
      as [(record & s' & Hg)| ->]; [|done].
    rewrite Hg. cbn [snd].
    by apply generateAndSaveSuggestion_saved in Hg as (? & ? & ? & _ & _ & _ & _ & ->).
Qed.

Lemma run_categoryNames (requests : list Request) (s : Store) :
  Forall (fun c => Category.name c <> "") (categories s) ->
  Forall (fun c => Category.name c <> "") (categories (run requests s)).
Proof.
  revert s. induction requests as [|r requests IH]; intros s Hs; [done|].
  cbn [run foldl]. change (foldl _ ?x requests) with (run requests x).
  by apply IH, handle_categoryNames.
Qed.

Lemma MonthlyReport_not_loaded (userId : option string) (s : Store)
  (this : MonthlyReportComponent.t) :
  sqlInteger (param userId) = None ->
  MonthlyReportComponent.ngOnChanges userId s this = this.
Proof.
  intros Hu. unfold MonthlyReportComponent.ngOnChanges, getCategories,
    Category_findAll_visible.
  destruct (negb (truthy (JStr _))); [done|].
  destruct (negb (truthy (param userId))); [done|]. by rewrite Hu.
Qed.

Lemma MonthlyReport_loaded (u : string) (n : Z) (month : string) (s : Store) :
  month <> "" ->
  sqlInteger (JStr u) = Some n ->
  let cats :=
    filter (fun c => Category.userId c = None \/ Category.userId c = Some n)
           (categories s) in
  let transactions :=
    List.filter (inSelectedMonth month)
      (filter (fun t => Transaction.userId t = n) (transactions s)) in
  MonthlyReportComponent.ngOnChanges (Some u) s (MonthlyReportComponent.new month)
  = {| MonthlyReportComponent.selectedMonth := month;
       MonthlyReportComponent.transactions := transactions;
       MonthlyReportComponent.categories := cats;
       MonthlyReportComponent.categoryTotals :=
         foldl (MonthlyReportComponent.addExpense cats) ∅ transactions |}.
Proof.
  intros Hmonth Hu. pose proof (sqlInteger_truthy u n Hu) as Htruthy.
  unfold MonthlyReportComponent.ngOnChanges, TransactionService.getTransactions,
    getCategories, getTransactions, Category_findAll_visible, Transaction_findAll_userId.
  cbn [param MonthlyReportComponent.selectedMonth MonthlyReportComponent.new].
  rewrite (month_truthy month Hmonth), Htruthy, Hu. reflexivity.
Qed.

(** X26. The monthly report and the report page give the same expenses by
    category and list the same transactions, on every store that the
    server reaches from one whose category keys are unique and whose
    category names are not empty: the two ways of naming a category, the
    first row with the key there and the map of keys to names here, then
    agree. *)
Theorem monthly_report_matches_reports_page
  (requests : list Request) (s0 : Store) (userId : option string) (month : string) :
  month <> "" ->
  keysOk s0 ->
  Forall (fun c => Category.name c <> "") (categories s0) ->
  let s := run requests s0 in
  let report :=
    MonthlyReportComponent.ngOnChanges userId s (MonthlyReportComponent.new month) in
  let page := loadData userId s (newReportsComponent month) in
  MonthlyReportComponent.categoryTotals report = ReportsComponent.expenseCategoryData page
  /\ MonthlyReportComponent.transactions report = ReportsComponent.transactions page.
Proof.
  intros Hmonth Hkeys Hnames. cbv zeta.
  apply (run_keysOk requests) in Hkeys. apply (run_categoryNames requests) in Hnames.
  generalize dependent (run requests s0). intros s [Hnd Hbelow _ _] Hnames.
  destruct (sqlInteger (param userId)) as [n|] eqn:Hu.
  - destruct userId as [u|]; [|done]. cbn [param] in Hu.
    rewrite (MonthlyReport_loaded u n month s Hmonth Hu), (loadData_loaded u n month s Hu).
    cbn [MonthlyReportComponent.categoryTotals MonthlyReportComponent.transactions
         ReportsComponent.expenseCategoryData ReportsComponent.transactions].
    split; [|done]. rewrite aggregate_monthly; [done| |].
    + by eapply proj1, (keys_filter Category.id).
    + apply Forall_forall. intros x Hx. apply list_elem_of_filter in Hx as [_ Hx].
      by apply (proj1 (Forall_forall _ _) Hnames).
  - by rewrite (MonthlyReport_not_loaded userId s _ Hu), (loadData_not_loaded userId s _ Hu).
Qed.

Lemma monthly_report_matches_reports_page_witness :
  MonthlyReportComponent.categoryTotals
    (MonthlyReportComponent.ngOnChanges (Some "1")
       (run julyRequests (sampleStore true)) (MonthlyReportComponent.new "2025-07"))
  = {[ "Food" := 150 ]}.
Proof.
  destruct (monthly_report_matches_reports_page julyRequests (sampleStore true)
              (Some "1") "2025-07") as [-> _].
  - done.
  - constructor; simpl; repeat (apply Forall_cons; split); try compute_done;
      by constructor.
  - simpl. repeat (apply Forall_cons; split); try done.
  - rewrite julyStore_run. vm_compute. reflexivity.
Defined.

(** ** The balance chart *)

Lemma monthTotal_sumZ (type : TransactionType) (l : list Transaction.t)
  (m : BalanceChartComponent.MonthData) :
  BalanceChartComponent.monthTotal type l m
  = sumZ (amountOfKind type)
         (List.filter (inSelectedMonth (BalanceChartComponent.key m)) l).
Proof.
  unfold BalanceChartComponent.monthTotal.
  rewrite filter_andb, (foldl_sumZ Transaction.amount). simpl.
  unfold inSelectedMonth.
  induction (List.filter _ l) as [|t k IH]; [done|]. cbn [List.filter sumZ foldr].
  unfold amountOfKind at 1.
  destruct (decide (Transaction.type t = type)) as [E|E].
  - rewrite bool_decide_eq_true_2 by done. cbn [sumZ foldr]. unfold sumZ in IH. lia.
  - rewrite bool_decide_eq_false_2 by done. unfold sumZ in IH. lia.
Qed.

(** X27. For each month of the balance chart the income point is the income
    total that the report page shows for that month; the expense point is
    the plain sum of the expense amounts, which is at most the page's
    expense total and equal to it when no expense of the month has a
    negative amount. *)
Theorem balance_chart_matches_reports_page
  (months : list BalanceChartComponent.MonthData) (u : string) (n : Z) (s : Store)
  (old : BalanceChartComponent.ChartData) :
  sqlInteger (JStr u) = Some n ->
  let chart := BalanceChartComponent.ngOnInit months (Some u) s old in
  let page (m : BalanceChartComponent.MonthData) :=
    loadData (Some u) s (newReportsComponent (BalanceChartComponent.key m)) in
  BalanceChartComponent.labels chart = BalanceChartComponent.label <$> months
  /\ BalanceChartComponent.incomes chart
     = (fun m => (ReportsComponent.monthlyData (page m)).1) <$> months
  /\ length (BalanceChartComponent.expenses chart) = length months
  /\ forall i m e,
       months !! i = Some m ->
       BalanceChartComponent.expenses chart !! i = Some e ->
       e <= (ReportsComponent.monthlyData (page m)).2
       /\ ((forall t, t ∈ ReportsComponent.transactions (page m) ->
                      Transaction.type t = Expense -> 0 <= Transaction.amount t) ->
           e = (ReportsComponent.monthlyData (page m)).2).
Proof.
  intros Hu. cbv zeta. pose proof (sqlInteger_truthy u n Hu) as Htruthy.
  assert (BalanceChartComponent.ngOnInit months (Some u) s old
          = {| BalanceChartComponent.labels := BalanceChartComponent.label <$> months;
               BalanceChartComponent.incomes :=
                 BalanceChartComponent.monthTotal Income
                   (filter (fun t => Transaction.userId t = n) (transactions s))
                   <$> months;
               BalanceChartComponent.expenses :=
                 BalanceChartComponent.monthTotal Expense
                   (filter (fun t => Transaction.userId t = n) (transactions s))
                   <$> months |}) as ->.
  { unfold BalanceChartComponent.ngOnInit, TransactionService.getTransactions,
      getTransactions, Transaction_findAll_userId. cbn [param].
    by rewrite Htruthy, Hu. }
  cbn [BalanceChartComponent.labels BalanceChartComponent.incomes
       BalanceChartComponent.expenses].
  split; [done|]. split; [|split; [by rewrite length_fmap|]].
  - apply list_fmap_ext. intros i m _.
    rewrite (loadData_loaded u n _ s Hu). cbn [ReportsComponent.monthlyData fst].
    rewrite monthTotal_sumZ.
    match goal with |- _ = foldl _ 0 (filter _ ?l) => fold (total Income l) end.
    by rewrite total_sumZ.
  - intros i m e Hm He. rewrite list_lookup_fmap, Hm in He. injection He as <-.
    rewrite (loadData_loaded u n _ s Hu).
    cbn [ReportsComponent.monthlyData ReportsComponent.transactions snd].
    rewrite monthTotal_sumZ, foldl_abs_sumZ. split.
    + apply sumZ_le. intros t _. lia.
    + intros Hpos. apply sumZ_ext. intros t Ht. unfold amountOfKind.
      destruct (decide (Transaction.type t = Expense)) as [E|E]; [|done].
      pose proof (Hpos t Ht E). lia.
Qed.

Lemma balance_chart_matches_reports_page_witness :
  BalanceChartComponent.incomes
    (BalanceChartComponent.ngOnInit
       [ {| BalanceChartComponent.key := "2025-07";
            BalanceChartComponent.label := "Jul 25" |};
         {| BalanceChartComponent.key := "2025-08";
            BalanceChartComponent.label := "Aug 25" |} ]
       (Some "1") (julyStore true)
       {| BalanceChartComponent.labels := [];
          BalanceChartComponent.incomes := [];
          BalanceChartComponent.expenses := [] |})
  = [1000; 0].
Proof.
  destruct (balance_chart_matches_reports_page
              [ {| BalanceChartComponent.key := "2025-07";
                   BalanceChartComponent.label := "Jul 25" |};
                {| BalanceChartComponent.key := "2025-08";
                   BalanceChartComponent.label := "Aug 25" |} ]
              "1" 1 (julyStore true)
              {| BalanceChartComponent.labels := [];
                 BalanceChartComponent.incomes := [];
                 BalanceChartComponent.expenses := [] |} eq_refl)
    as (_ & -> & _).
  vm_compute. reflexivity.
Defined.

(** ** The history page *)

Lemma sort_all_NaN {A} (comparefn : A -> A -> jsnum) (l : list A) :
  (forall a b, a ∈ l -> b ∈ l -> comparefn a b = NaN) ->
  Array.sort comparefn l = l.
Proof.
  unfold Array.sort. induction l as [|x l IH]; intros Hnan; [done|].
  cbn [foldr]. rewrite IH by (intros a b Ha Hb; apply Hnan; by right).
  destruct l as [|y l]; [done|]. cbn [Array.insertSorted].
  rewrite (Hnan x y); [done|by left|right; by left].
Qed.

(** X28. The history page sorts the suggestions by a member
    [dateGenerated], which the rows of the server do not have: every
    comparison is [NaN], the sort moves nothing, and the page shows the rows
    in the order the server sent them, the most recent first. *)
Theorem past_suggestions_keep_server_order
  (dateOf : json -> jsnum) (userId : string) (u : Z) (s : Store) (old : list json) :
  sqlInteger (JStr userId) = Some u ->
  exists rows,
    getSuggestions (JStr userId) s = Respond 200 (SuggestionsJson rows)
    /\ loadPastSuggestions dateOf userId s old = AISuggestion_toJSON <$> rows
    /\ newestFirst rows.
Proof.
  intros Hu. pose proof (sqlInteger_truthy userId u Hu) as Htruthy.
  eexists. split; [|split].
  - unfold getSuggestions. by rewrite Htruthy, (aiService_list_rows _ u s Hu).
  - unfold loadPastSuggestions, getSuggestions.
    rewrite Htruthy, (aiService_list_rows _ u s Hu). cbn [negb].
    apply sort_all_NaN. intros a b Ha Hb.
    apply list_elem_of_fmap in Ha as (ra & -> & _).
    apply list_elem_of_fmap in Hb as (rb & -> & _). reflexivity.
  - apply orderByCreatedAtDesc_newestFirst.
Qed.

Lemma past_suggestions_keep_server_order_witness :
  loadPastSuggestions (fun _ => Num 0) "1"
    (generateAndSaveSuggestion sampleProvider 1754092800000 (JStr "1")
       (JStr "And then?") historyStore).2 []
  = [AISuggestion_toJSON secondSuggestion; AISuggestion_toJSON firstSuggestion].
Proof.
  destruct (past_suggestions_keep_server_order (fun _ => Num 0) "1" 1
              (generateAndSaveSuggestion sampleProvider 1754092800000 (JStr "1")
                 (JStr "And then?") historyStore).2 [])
    as (rows & Hrows & -> & _).
  - vm_compute. reflexivity.
  - vm_compute in Hrows. by injection Hrows as <-.
Defined.

(** ** The dashboard: the cards and the chart *)

Lemma filter_both {A} (P Q : A -> Prop) `{!forall x, Decision (P x)}
  `{!forall x, Decision (Q x)} (f : A -> bool) (l : list A) :
  (forall x, x ∈ l -> P x <-> Q x /\ f x = true) ->
  filter P l = List.filter f (filter Q l).
Proof.
  induction l as [|x l IH]; intros Hl; [done|].
  assert (filter P l = List.filter f (filter Q l)) as IH'
    by (apply IH; intros y Hy; apply Hl; by right).
  pose proof (Hl x ltac:(by left)) as Hx.
  destruct (decide (Q x)) as [HQ|HQ].
  - rewrite (filter_cons_True Q) by done. cbn [List.filter].
    destruct (f x) eqn:E.
    + rewrite filter_cons_True by tauto. by rewrite IH'.
    + rewrite filter_cons_False; [done|]. intros HP. apply Hx in HP as [_ ?]. done.
  - rewrite (filter_cons_False Q) by done.
    rewrite filter_cons_False; [done|]. tauto.
Qed.

(** X29. With the server in UTC, the cards of the dashboard show for the
    current month what the balance chart shows for it: the income and the
    expenses of [getSummary] are the two points of the chart at the month
    that holds the moment of the request, and the balance is their
    difference, as long as no transaction of the user in that month is
    dated after that moment. *)
Theorem dashboard_cards_are_the_chart_points
  (months : list BalanceChartComponent.MonthData) (i : nat)
  (m : BalanceChartComponent.MonthData) (u : string) (n now startDate : Z)
  (s : Store) (old : BalanceChartComponent.ChartData) :
  sqlInteger (JStr u) = Some n ->
  months !! i = Some m ->
  parseISODate (BalanceChartComponent.key m +:+ "-01T00:00:00.000Z") = Some startDate ->
  startsWith (toISOString now) (BalanceChartComponent.key m) = true ->
  ~ (0 <= getFullYear 0 now <= 99) ->
  (forall t, t ∈ transactions s ->
             Transaction.userId t = n ->
             startsWith (toISOString (Transaction.date t)) (BalanceChartComponent.key m)
             = true ->
             Transaction.date t <= now) ->
  let chart := BalanceChartComponent.ngOnInit months (Some u) s old in
  exists income expenses,
    TransactionService.getSummary 0 now (Some u) s
    = Emits (income, expenses, income - expenses)
    /\ BalanceChartComponent.incomes chart !! i = Some income
    /\ BalanceChartComponent.expenses chart !! i = Some expenses.
Proof.
  intros Hu Hm Hparse Hnow Hyear Hpast. cbv zeta.
  pose proof (sqlInteger_truthy u n Hu) as Htruthy.
  unfold TransactionService.getSummary, BalanceChartComponent.ngOnInit,
    TransactionService.getTransactions, getTransactions, Transaction_findAll_userId.
  cbn [param]. rewrite Htruthy, Hu. cbn [negb coerce mbind Result_bind].
  rewrite (getMonthlySummary_sums 0 now (JStr u) n s Htruthy Hu). cbv zeta.
  rewrite (startOfThisMonth_parse _ startDate now Hparse Hnow Hyear).
  cbn [BalanceChartComponent.incomes BalanceChartComponent.expenses].
  rewrite !list_lookup_fmap, Hm. cbn [fmap option_fmap option_map].
  rewrite !monthTotal_sumZ.
  rewrite (filter_both _ (fun t => Transaction.userId t = n)
             (inSelectedMonth (BalanceChartComponent.key m))).
  - by eexists _, _.
  - intros t Ht. unfold inSelectedMonth.
    pose proof (month_window _ startDate now Hparse) as Hwnow.
    pose proof (month_window _ startDate (Transaction.date t) Hparse) as Hwt.
    apply proj1 in Hwnow. specialize (Hwnow Hnow). split.
    + intros [Hown [Hlo Hhi]]. split; [done|]. apply Hwt. lia.
    + intros [Hown Hmonth]. split; [done|]. split; [apply Hwt in Hmonth; lia|].
      by apply Hpast.
Qed.

Lemma dashboard_cards_are_the_chart_points_witness :
  TransactionService.getSummary 0 1753000000000 (Some "1") (julyStore true)
  = Emits (1000, 150, 850).
Proof.
  destruct (dashboard_cards_are_the_chart_points
              [ {| BalanceChartComponent.key := "2025-07";
                   BalanceChartComponent.label := "Jul 25" |} ] 0
              {| BalanceChartComponent.key := "2025-07";
                 BalanceChartComponent.label := "Jul 25" |}
              "1" 1 1753000000000 1751328000000 (julyStore true)
              {| BalanceChartComponent.labels := [];
                 BalanceChartComponent.incomes := [];
                 BalanceChartComponent.expenses := [] |})
    as (income & expenses & -> & Hi & He).
  - vm_compute. reflexivity.
  - reflexivity.
  - vm_compute. reflexivity.
  - vm_compute. reflexivity.
  - change (getFullYear 0 1753000000000) with 2025. lia.
  - intros t Hin _ Hmonth. apply list_elem_of_In in Hin. vm_compute in Hin.
    destruct Hin as [<-|[<-|[<-|[]]]];
      [clear Hmonth; simpl; lia|clear Hmonth; simpl; lia|].
    vm_compute in Hmonth. discriminate Hmonth.
  - vm_compute in Hi. vm_compute in He. by simplify_eq.
Defined.

(** * Breakdowns, summaries and deleted categories *)

(** ** Breakdowns and summaries *)

Lemma daysInMonth_31 (k : Z) :
  k mod 12 = 4 \/ k mod 12 = 5 \/ k mod 12 = 9 \/ k mod 12 = 10 -> daysInMonth k = 31.
Proof.
  intros Hk. unfold daysInMonth.
  assert (exists era yoe mp,
            0 <= yoe < 400 /\ 0 <= mp < 12 /\ k = 12 * (era * 400 + yoe) + mp)
    as (era & yoe & mp & Hy & Hm & ->).
  { exists (k / 12 / 400), (k / 12 mod 400), (k mod 12). Z.div_mod_to_equations. lia. }
  assert (mp = 4 \/ mp = 5 \/ mp = 9 \/ mp = 10) as Hmp
    by (revert Hk; Z.div_mod_to_equations; lia).
  replace (12 * (era * 400 + yoe) + mp + 1) with (12 * (era * 400 + yoe) + (mp + 1))
    by lia.
  rewrite !monthStart_normal by lia.
  destruct Hmp as [Hmp|[Hmp|[Hmp|Hmp]]]; subst mp; Z.div_mod_to_equations; lia.
Qed.

Lemma monthText_ends (d1 d2 d3 d4 d5 d6 a b : Z) (year : string) :
  0 <= a <= 9 -> 0 <= b <= 9 -> 0 <= d5 <= 9 -> 0 <= d6 <= 9 ->
  monthText d1 d2 d3 d4 d5 d6
  = year +:+ String "-" (String (digitChar a) (String (digitChar b) "")) ->
  d5 = a /\ d6 = b.
Proof.
  intros Ha Hb H5 H6 Heq.
  assert (String.length year = 4%nat) as Hlen.
  { apply (f_equal String.length) in Heq. rewrite append_length in Heq.
    simpl in Heq. lia. }
  do 4 (destruct year as [|? year]; [discriminate Hlen|]).
  destruct year; [|discriminate Hlen].
  unfold monthText in Heq. cbn [append] in Heq.
  injection Heq as _ _ _ _ E5 E6.
  apply digitChar_eq_iff in E5; [|done]. apply digitChar_eq_iff in E6; [|done].
  rewrite Z.mod_small in E5, E6 by lia. done.
Qed.

(** The window of [monthlySummary] ends where the month ends: for every
    server at or east of UTC, and west of UTC for a January and an August,
    the months that follow a month of their length. *)
Lemma month_window_end (tz : Z) (month : string) (startDate : Z) :
  - msPerDay < tz < msPerDay ->
  (tz < 0 -> exists year, month = year +:+ "-01" \/ month = year +:+ "-08") ->
  parseISODate (month +:+ "-01T00:00:00.000Z") = Some startDate ->
  setMonth tz startDate (getMonth tz startDate + 1)
  = setMonth 0 startDate (getMonth 0 startDate + 1).
Proof.
  intros Hzone Hwest Hparse.
  apply parseISODate_month in Hparse
    as (d1 & d2 & d3 & d4 & d5 & d6 & (_ & _ & _ & _ & H5 & H6) & -> & Hm & Hstart).
  destruct (monthlySummary_window (((d1 * 10 + d2) * 10 + d3) * 10 + d4)
              (d5 * 10 + d6) Hm) as [Hs _].
  cbv zeta in Hs. rewrite <- Hstart in Hs. rewrite Hs.
  rewrite (setMonth_next_in_zone tz _ _ _ Hm eq_refl) by done.
  rewrite (setMonth_next_in_zone 0 _ _ _ Hm eq_refl) by (unfold msPerDay; lia).
  destruct (Z.ltb_spec tz 0) as [Hneg|_]; [|done].
  change (0 <? 0) with false. cbv iota.
  destruct (Hwest Hneg) as [year Hmonth].
  assert (d5 * 10 + d6 = 1 \/ d5 * 10 + d6 = 8) as Hjan.
  { destruct Hmonth as [Hmonth|Hmonth].
    - apply (monthText_ends _ _ _ _ _ _ 0 1) in Hmonth as [-> ->]; lia.
    - apply (monthText_ends _ _ _ _ _ _ 0 8) in Hmonth as [-> ->]; lia. }
  rewrite !daysInMonth_31; [done| |]; unfold monthIndex;
    destruct Hjan as [Hjan|Hjan]; rewrite Hjan; Z.div_mod_to_equations; lia.
Qed.

Lemma monthlySummary_window_is_the_month
  (tz : Z) (userId : jsval) (month : string) (s : Store) :
  - msPerDay < tz < msPerDay ->
  (tz < 0 -> exists year, month = year +:+ "-01" \/ month = year +:+ "-08") ->
  monthlySummary tz userId month s = monthlySummary 0 userId month s.
Proof.
  intros Hzone Hwest. unfold monthlySummary.
  destruct (parseISODate (month +:+ "-01T00:00:00.000Z")) as [startDate|] eqn:Hparse;
    [|done].
  cbn [coerce mbind Result_bind].
  by rewrite (month_window_end tz month startDate Hzone Hwest Hparse).
Qed.

(** ** The breakdowns on whole amounts *)

Lemma proto_is_inherited (name : string) : ownName name -> name <> "__proto__".
Proof. intros Hown ->. apply Hown. unfold inheritedNames. by left. Qed.

Lemma Breakdown_get_whole (data : gmap string Z) (name : string) :
  ownName name ->
  Breakdown.get (Breakdown.ofWhole data) name
  = (fun n => Breakdown.Num (asDouble n)) <$> (data !! name).
Proof.
  intros Hown. unfold Breakdown.get, Breakdown.ofWhole. rewrite lookup_fmap.
  destruct (data !! name); [done|]. cbn [fmap option_fmap option_map].
  by destruct (decide (ownName name)).
Qed.

Lemma Breakdown_set_whole (data : gmap string Z) (name : string) (n : Z) :
  ownName name ->
  Breakdown.set (Breakdown.ofWhole data) name (Breakdown.Num (asDouble n))
  = Breakdown.ofWhole (<[name := n]> data).
Proof.
  intros Hown. unfold Breakdown.set, Breakdown.ofWhole.
  destruct (decide (name = "__proto__")) as [Hproto|_].
  - by apply proto_is_inherited in Hown.
  - by rewrite fmap_insert.
Qed.

Lemma orZeroPlus_whole (v : option Z) (x : Z) :
  Z.abs (default 0 v) + Z.abs x < 2 ^ 53 ->
  Breakdown.orZeroPlus ((fun n => Breakdown.Num (asDouble n)) <$> v) (asDouble x)
  = Breakdown.Num (asDouble (default 0 v + x)).
Proof.
  intros Hbound. destruct v as [y|]; cbn [fmap option_fmap option_map Breakdown.orZeroPlus
    default from_option id] in *.
  - rewrite orZero_whole, asDouble_add by lia. done.
  - change 0%float with (asDouble 0). by rewrite asDouble_add by lia.
Qed.

Lemma aggregate_whole_turn (categoryMap : gmap Z string)
  (data : gmap string Z * gmap string Z) (t : Transaction.t) (bound : Z) :
  ownName (categoryLabel categoryMap t) ->
  0 <= bound ->
  bound + Z.abs (Transaction.amount t) < 2 ^ 53 ->
  map_Forall (fun _ v => Z.abs v <= bound) data.1 ->
  map_Forall (fun _ v => Z.abs v <= bound) data.2 ->
  Breakdown.aggregate categoryMap
    (Breakdown.ofWhole data.1, Breakdown.ofWhole data.2) (Double.ofTransaction t)
  = (Breakdown.ofWhole (aggregate categoryMap data t).1,
     Breakdown.ofWhole (aggregate categoryMap data t).2)
  /\ map_Forall (fun _ v => Z.abs v <= bound + Z.abs (Transaction.amount t))
                (aggregate categoryMap data t).1
  /\ map_Forall (fun _ v => Z.abs v <= bound + Z.abs (Transaction.amount t))
                (aggregate categoryMap data t).2.
Proof.
  intros Hown Hpos Hbound Hincome Hexpense.
  assert (forall (m : gmap string Z) name,
            map_Forall (fun _ v => Z.abs v <= bound) m -> 0 <= bound ->
            Z.abs (default 0 (m !! name)) <= bound) as Hdefault.
  { intros m name Hm _. destruct (m !! name) as [v|] eqn:Hv; simpl; [|lia].
    by apply (Hm name v). }
  assert (forall (m : gmap string Z),
            map_Forall (fun _ v => Z.abs v <= bound) m ->
            map_Forall (fun _ v => Z.abs v <= bound + Z.abs (Transaction.amount t)) m)
    as Hweaken.
  { intros m Hm name v Hv. specialize (Hm name v Hv). simpl in *. lia. }
  unfold Breakdown.aggregate, aggregate.
  change (Breakdown.label categoryMap (Double.ofTransaction t))
    with (categoryLabel categoryMap t).
  cbn [Double.type Double.amount Double.ofTransaction].
  set (name := categoryLabel categoryMap t) in *.
  destruct (Transaction.type t); cbn [fst snd].
  - pose proof (Hdefault data.1 name Hincome Hpos) as Hold.
    rewrite Breakdown_get_whole, orZeroPlus_whole, Breakdown_set_whole by (done || lia).
    split; [done|]. split; [|by apply Hweaken].
    apply map_Forall_insert_2; [lia|by apply Hweaken].
  - pose proof (Hdefault data.2 name Hexpense Hpos) as Hold.
    rewrite asDouble_abs by lia.
    rewrite Breakdown_get_whole, orZeroPlus_whole, Breakdown_set_whole by (done || lia).
    split; [done|]. split; [by apply Hweaken|].
    apply map_Forall_insert_2; [lia|by apply Hweaken].
Qed.

Lemma aggregate_whole (categoryMap : gmap Z string) (l : list Transaction.t)
  (data : gmap string Z * gmap string Z) (bound : Z) :
  Forall (fun t => ownName (categoryLabel categoryMap t)) l ->
  0 <= bound ->
  bound + sumZ (fun t => Z.abs (Transaction.amount t)) l < 2 ^ 53 ->
  map_Forall (fun _ v => Z.abs v <= bound) data.1 ->
  map_Forall (fun _ v => Z.abs v <= bound) data.2 ->
  foldl (Breakdown.aggregate categoryMap)
        (Breakdown.ofWhole data.1, Breakdown.ofWhole data.2) (Double.ofTransaction <$> l)
  = (Breakdown.ofWhole (foldl (aggregate categoryMap) data l).1,
     Breakdown.ofWhole (foldl (aggregate categoryMap) data l).2).
Proof.
  revert data bound. induction l as [|t l IH]; intros data bound Hown Hpos Hbound H1 H2;
    [done|].
  apply Forall_cons in Hown as [Ht Hown]. rewrite sumZ_cons in Hbound.
  pose proof (sumZ_abs_nonneg Transaction.amount l) as Hrest.
  rewrite fmap_cons. cbn [foldl].
  destruct (aggregate_whole_turn categoryMap data t bound Ht) as (-> & H1' & H2');
    [done|lia|done|done|].
  apply (IH _ (bound + Z.abs (Transaction.amount t))); [done|lia|lia|done|done].
Qed.

Lemma elem_abs_le_sumZ {A} (f : A -> Z) (l : list A) (x : A) :
  x ∈ l -> Z.abs (f x) <= sumZ (fun y => Z.abs (f y)) l.
Proof.
  induction l as [|y l IH]; [by intros ?%elem_of_nil|].
  pose proof (sumZ_abs_nonneg f l). rewrite sumZ_cons.
  intros [->|Hin]%elem_of_cons; [lia|]. specialize (IH Hin). lia.
Qed.

Lemma monthlyData_whole (l : list Transaction.t) :
  exactSums l ->
  Breakdown.monthlyData (Double.ofTransaction <$> l)
  = (asDouble (foldl (fun sum t => sum + Transaction.amount t) 0
                     (filter (fun t => Transaction.type t = Income) l)),
     asDouble (foldl (fun sum t => sum + Z.abs (Transaction.amount t)) 0
                     (filter (fun t => Transaction.type t = Expense) l))).
Proof.
  intros Hexact. unfold Breakdown.monthlyData, exactSums in *.
  rewrite !filter_fmap_list, !foldl_fmap_list.
  cbn [Double.type Double.amount Double.ofTransaction].
  change 0%float with (asDouble 0). f_equal.
  - apply (foldl_add_whole Transaction.amount
             (fun t => asDouble (Transaction.amount t))).
    + by apply Forall_forall.
    + pose proof (sumZ_abs_filter Transaction.amount
                    (fun t => Transaction.type t = Income) l). simpl. lia.
  - apply (foldl_add_whole (fun t => Z.abs (Transaction.amount t))
             (fun t => abs (asDouble (Transaction.amount t)))).
    + apply Forall_forall. intros t Ht%list_elem_of_filter. apply asDouble_abs.
      pose proof (elem_abs_le_sumZ Transaction.amount l t (proj2 Ht)). lia.
    + pose proof (sumZ_abs_filter Transaction.amount
                    (fun t => Transaction.type t = Expense) l) as Hle.
      rewrite (sumZ_ext (fun t => Z.abs (Z.abs (Transaction.amount t)))
                        (fun t => Z.abs (Transaction.amount t)))
        by (intros; apply Z.abs_idemp).
      simpl. lia.
Qed.

(** ** The labels of a breakdown, added in any order *)

Lemma sumZ_Permutation {A} (f : A -> Z) (l k : list A) :
  l ≡ₚ k -> sumZ f l = sumZ f k.
Proof.
  induction 1 as [|x l k _ IH|x y l|l k m _ IH1 _ IH2]; rewrite ?sumZ_cons;
    [done|lia|lia|congruence].
Qed.

Lemma sumOfLabels_values (data : gmap string Z) :
  sumOfLabels data = sumZ id (map_to_list data).*2.
Proof.
  unfold sumOfLabels. rewrite map_fold_foldr.
  induction (map_to_list data) as [|[name v] l IH]; [done|].
  rewrite fmap_cons, sumZ_cons. cbn [foldr uncurry snd id]. rewrite IH. lia.
Qed.

Lemma absLabels_insert_fresh (data : gmap string Z) (name : string) (v : Z) :
  data !! name = None ->
  sumZ Z.abs (map_to_list (<[name := v]> data)).*2
  = Z.abs v + sumZ Z.abs (map_to_list data).*2.
Proof.
  intros Hfresh.
  rewrite (sumZ_Permutation _ _ (v :: (map_to_list data).*2)); [done|].
  by rewrite (map_to_list_insert data name v Hfresh).
Qed.

(** [data[name] = (data[name] || 0) + amount] adds at most the magnitude of
    [amount] to the magnitudes of the labels. *)
Lemma absLabels_add (data : gmap string Z) (name : string) (a : Z) :
  sumZ Z.abs (map_to_list (<[name := default 0 (data !! name) + a]> data)).*2
  <= sumZ Z.abs (map_to_list data).*2 + Z.abs a.
Proof.
  destruct (data !! name) as [v|] eqn:Hlookup; cbn [default from_option id].
  - rewrite <- insert_delete_eq.
    rewrite absLabels_insert_fresh by apply lookup_delete_eq.
    rewrite <- (insert_delete_id data name v Hlookup) at 2.
    rewrite absLabels_insert_fresh by apply lookup_delete_eq. lia.
  - rewrite absLabels_insert_fresh by done. lia.
Qed.

Lemma absLabels_aggregate (categoryMap : gmap Z string)
  (l : list Transaction.t) (data : gmap string Z * gmap string Z) :
  sumZ Z.abs (map_to_list (foldl (aggregate categoryMap) data l).1).*2
  + sumZ Z.abs (map_to_list (foldl (aggregate categoryMap) data l).2).*2
  <= sumZ Z.abs (map_to_list data.1).*2 + sumZ Z.abs (map_to_list data.2).*2
     + sumZ (fun t => Z.abs (Transaction.amount t)) l.
Proof.
  revert data. induction l as [|t l IH]; intros data; [unfold sumZ at 5; simpl; lia|].
  cbn [foldl]. rewrite sumZ_cons. etrans; [apply IH|].
  unfold aggregate.
  destruct (Transaction.type t); cbn [fst snd].
  - pose proof (absLabels_add data.1 (categoryLabel categoryMap t) (Transaction.amount t)).
    lia.
  - pose proof (absLabels_add data.2 (categoryLabel categoryMap t)
                  (Z.abs (Transaction.amount t))).
    lia.
Qed.

(** The doubles of the labels of a breakdown of whole amounts, added in
    any order, give the double of their sum. *)
Lemma labels_in_any_order (categoryMap : gmap Z string) (l : list Transaction.t)
  (kind : TransactionType) (values : list Z) :
  exactSums l ->
  values ≡ₚ (map_to_list (ofKind kind (foldl (aggregate categoryMap) (∅, ∅) l))).*2 ->
  foldl (fun sum x => (sum + asDouble x)%float) 0%float values
  = asDouble (sumOfLabels (ofKind kind (foldl (aggregate categoryMap) (∅, ∅) l))).
Proof.
  intros Hexact Hvalues. unfold exactSums in Hexact.
  pose proof (absLabels_aggregate categoryMap l (∅, ∅)) as Hbound.
  cbn [fst snd] in Hbound. rewrite map_to_list_empty in Hbound.
  change (sumZ Z.abs ([] : list (string * Z)).*2) with 0 in Hbound.
  pose proof (sumZ_abs_nonneg id (map_to_list (foldl (aggregate categoryMap) (∅, ∅) l).1).*2)
    as Hincome.
  pose proof (sumZ_abs_nonneg id (map_to_list (foldl (aggregate categoryMap) (∅, ∅) l).2).*2)
    as Hexpense.
  change (fun x => Z.abs (id x)) with Z.abs in Hincome, Hexpense.
  rewrite sumOfLabels_values, <- (sumZ_Permutation id _ _ Hvalues).
  change 0%float with (asDouble 0).
  rewrite (foldl_add_whole id asDouble) by
    (try (by apply Forall_forall);
     change (fun x => Z.abs (id x)) with Z.abs;
     rewrite (sumZ_Permutation Z.abs _ _ Hvalues);
     destruct kind; cbn [ofKind]; simpl; lia).
  f_equal. rewrite (foldl_sumZ id). lia.
Qed.

(** The report page and the summary on whole amounts: the doubles and the
    plain objects of the code hold the whole numbers of the embedding. *)
Lemma page_and_summary_whole (tz : Z) (u month : string) (n : Z) (s : Store)
  (summary : Summary.t) :
  - msPerDay < tz < msPerDay ->
  (tz < 0 -> exists year, month = year +:+ "-01" \/ month = year +:+ "-08") ->
  sqlInteger (JStr u) = Some n ->
  monthlySummary tz (JStr u) month s = Ok summary ->
  let page := loadData (Some u) s (newReportsComponent month) in
  let rows := Double.ofTransaction <$> ReportsComponent.transactions page in
  exactSums (ReportsComponent.transactions page) ->
  Forall (fun t => ownName (categoryLabel (ReportsComponent.categoryMap page) t))
         (ReportsComponent.transactions page) ->
  foldl (Breakdown.aggregate (ReportsComponent.categoryMap page)) (∅, ∅) rows
  = (Breakdown.ofWhole (ReportsComponent.incomeCategoryData page),
     Breakdown.ofWhole (ReportsComponent.expenseCategoryData page))
  /\ Breakdown.monthlyData rows
     = (asDouble (ReportsComponent.monthlyData page).1,
        asDouble (ReportsComponent.monthlyData page).2)
  /\ Double.monthlySummary tz n month (Double.ofTransaction <$> transactions s)
     = Some (Double.ofSummary summary)
  /\ (forall kind values,
        values ≡ₚ (map_to_list (categoryBreakdown (Some u) month kind s)).*2 ->
        foldl (fun sum x => (sum + asDouble x)%float) 0%float values
        = asDouble (sumOfLabels (categoryBreakdown (Some u) month kind s))).
Proof.
  intros Hzone Hwest Hu Hsummary page rows. subst rows page.
  unfold categoryBreakdown.
  rewrite (loadData_loaded u n month s Hu).
  cbn [ReportsComponent.incomeCategoryData ReportsComponent.expenseCategoryData
       ReportsComponent.monthlyData ReportsComponent.transactions
       ReportsComponent.categoryMap fst snd].
  set (categoryMap := buildCategoryMap _).
  set (filtered := List.filter _ _).
  intros Hexact Hown. split; [|split; [|split]].
  - pose proof (aggregate_whole categoryMap filtered (∅, ∅) 0 Hown) as Hfold.
    cbn [fst snd] in Hfold. unfold Breakdown.ofWhole at 1 2 in Hfold.
    rewrite fmap_empty in Hfold. apply Hfold; [done| |apply map_Forall_empty..].
    unfold exactSums in Hexact. lia.
  - by apply monthlyData_whole.
  - unfold monthlySummary in Hsummary. unfold Double.monthlySummary.
    destruct (parseISODate (month +:+ "-01T00:00:00.000Z")) as [startDate|] eqn:Hparse;
      [|discriminate].
    cbn [coerce mbind Result_bind] in Hsummary.
    rewrite (month_window_end tz month startDate Hzone Hwest Hparse) in *.
    f_equal. apply (Double_summarize_whole (JStr u)); [done| |done].
    unfold filtered in Hexact.
    by rewrite (selectedMonth_filter month n startDate _ Hparse) in Hexact.
  - intros kind values Hvalues.
    pose proof (labels_in_any_order categoryMap filtered kind values Hexact) as Hsum.
    destruct kind; cbn [ofKind] in Hsum; by apply Hsum.
Qed.

(** C7, as the code has it.  On a server whose zone keeps one offset from
    UTC and for a month whose window is the month (at or east of UTC every
    month, west of UTC a January or an August), for every user whose amounts
    in the month are whole numbers with magnitudes that sum to less than
    2^53 and whose labels are no names that every object has: the labels of
    the income breakdown sum to the income total of the summary; the labels
    of the expense breakdown sum to the page's own expense total, the sum of
    the absolute values of the expense amounts; and this is the expense
    total of the summary when no expense of the month has a negative amount.
    These numbers of the embedding are the numbers of the code: the two
    breakdowns that the page builds as plain objects of doubles hold, label
    by label, the whole numbers of the breakdowns of the embedding; the
    page's two totals and the three doubles of the summary are the whole
    numbers of the embedding; and the doubles of the labels of a breakdown,
    added in any order, give the double of their sum. *)
Theorem breakdown_sums_and_summary
  (tz : Z) (u month : string) (s : Store) (summary : Summary.t) :
  - msPerDay < tz < msPerDay ->
  (tz < 0 -> exists year, month = year +:+ "-01" \/ month = year +:+ "-08") ->
  monthlySummary tz (JStr u) month s = Ok summary ->
  let page := loadData (Some u) s (newReportsComponent month) in
  let rows := Double.ofTransaction <$> ReportsComponent.transactions page in
  exactSums (ReportsComponent.transactions page) ->
  Forall (fun t => ownName (categoryLabel (ReportsComponent.categoryMap page) t))
         (ReportsComponent.transactions page) ->
  (sumOfLabels (categoryBreakdown (Some u) month Income s) = Summary.income summary
   /\ sumOfLabels (categoryBreakdown (Some u) month Expense s)
      = (ReportsComponent.monthlyData page).2
   /\ ((forall t, t ∈ ReportsComponent.transactions page ->
                  Transaction.type t = Expense -> 0 <= Transaction.amount t) ->
       sumOfLabels (categoryBreakdown (Some u) month Expense s)
       = Summary.expense summary))
  /\ foldl (Breakdown.aggregate (ReportsComponent.categoryMap page)) (∅, ∅) rows
     = (Breakdown.ofWhole (categoryBreakdown (Some u) month Income s),
        Breakdown.ofWhole (categoryBreakdown (Some u) month Expense s))
  /\ Breakdown.monthlyData rows
     = (asDouble (ReportsComponent.monthlyData page).1,
        asDouble (ReportsComponent.monthlyData page).2)
  /\ (forall n, sqlInteger (JStr u) = Some n ->
      Double.monthlySummary tz n month (Double.ofTransaction <$> transactions s)
      = Some (Double.ofSummary summary))
  /\ (forall kind values,
        values ≡ₚ (map_to_list (categoryBreakdown (Some u) month kind s)).*2 ->
        foldl (fun sum x => (sum + asDouble x)%float) 0%float values
        = asDouble (sumOfLabels (categoryBreakdown (Some u) month kind s))).
Proof.
  intros Hzone Hwest Hsummary page rows Hexact Hown. split.
  - rewrite (monthlySummary_window_is_the_month tz _ _ _ Hzone Hwest) in Hsummary.
    exact (breakdown_sums_in_UTC u month s summary Hsummary).
  - destruct (sqlInteger (JStr u)) as [n|] eqn:Hu.
    2: { unfold monthlySummary, summarize, Transaction_findAll_window, whereInteger
           in Hsummary.
         rewrite Hu in Hsummary.
         by destruct (parseISODate (month +:+ "-01T00:00:00.000Z")). }
    destruct (page_and_summary_whole tz u month n s summary Hzone Hwest Hu Hsummary
                Hexact Hown) as (Hdata & Hmonthly & Hdouble & Horder).
    split; [exact Hdata|]. split; [exact Hmonthly|]. split; [by intros ? [= <-]|].
    exact Horder.
Qed.

Lemma breakdown_sums_and_summary_witness :
  (sumOfLabels (categoryBreakdown (Some "1") "2025-08" Income (julyStore true)) = 0
   /\ sumOfLabels (categoryBreakdown (Some "1") "2025-08" Expense (julyStore true)) = 40)
  /\ Double.monthlySummary (-18000000) 1 "2025-08"
       (Double.ofTransaction <$> transactions (julyStore true))
     = Some {| Double.income := 0; Double.expense := 40; Double.balance := -40 |}.
Proof.
  destruct (breakdown_sums_and_summary (-18000000) "1" "2025-08" (julyStore true)
              {| Summary.income := 0; Summary.expense := 40; Summary.balance := -40 |})
    as ((Hincome & _ & Hexpense) & _ & _ & Hdouble & _).
  - unfold msPerDay. lia.
  - intros _. exists "2025". by right.
  - vm_compute. reflexivity.
  - vm_compute. reflexivity.
  - compute_done.
  - split.
    + split; [exact Hincome|]. apply Hexpense.
      intros t Hin _. apply list_elem_of_In in Hin. vm_compute in Hin.
      destruct Hin as [<-|[]]; simpl; lia.
    + rewrite (Hdouble 1 eq_refl). vm_compute. reflexivity.
Defined.

(** ** A category that was deleted *)




